(** * Face services of the photography server: a shallow embedding

    Two FastAPI applications are embedded here:
    - [deepface_server.py]: the handlers [analyze_faces], [verify_faces],
      [batch_verify] and [detect_faces], with the image loaders they share;
    - [src/config/face_matching.py]: [FaceMatchingService] and the handlers
      [extract_face_encoding] and [compare_faces].

    Python floats are IEEE binary64 numbers and are modelled by Rocq's
    primitive floats (the same format, round to nearest even).  Exceptions
    are values of [exn]; a handler is a function of the outside world that
    returns a [result] and the next world.  Everything the handlers delegate
    to a library (DeepFace, face_recognition, PIL, requests, aiohttp, the
    clock, [json.loads]) is a field of the class [Capabilities]. *)

From Stdlib Require Import ZArith Lia Bool List String Ascii.
From Stdlib Require Import Floats Uint63 DecimalString Permutation Sorted.
Import ListNotations.
Open Scope Z_scope.

(** ** Python values *)

Module Py.

(** The exceptions the handlers see.  [HTTPException] is FastAPI's; every
    other exception is kept by its message, which is all the code reads. *)
Inductive exn : Type :=
| HTTPException (status_code : Z) (detail : string)
| Exception (msg : string).

Inductive result (A : Type) : Type :=
| Ok (a : A)
| Raise (e : exn).
Arguments Ok {A} a.
Arguments Raise {A} e.

Definition string_of_Z (z : Z) : string := NilZero.string_of_int (Z.to_int z).

(** [str(e)]: Starlette prints an [HTTPException] as its status code, a colon
    and the detail; other exceptions print their message. *)
Definition str (e : exn) : string :=
  match e with
  | HTTPException c d => (string_of_Z c ++ ": " ++ d)%string
  | Exception m => m
  end.

(** [needle in hay] on strings. *)
Fixpoint contains (needle hay : string) : bool :=
  if String.prefix needle hay then true
  else match hay with
       | EmptyString => false
       | String _ rest => contains needle rest
       end.

(** [x in xs] on a list of strings. *)
Definition str_in (x : string) (xs : list string) : bool :=
  existsb (String.eqb x) xs.

(** [repr] of a list of plain strings, as an f-string prints it:
    brackets, items in single quotes, separated by a comma and a space. *)
Definition repr_str_list (xs : list string) : string :=
  ("[" ++ String.concat ", " (map (fun s => "'" ++ s ++ "'") xs) ++ "]")%string.

(** Parsed JSON, as [json.loads] returns it. *)
#[local] Unset Elimination Schemes.
Inductive json : Type :=
| Jnull
| Jbool (b : bool)
| Jint (z : Z)
| Jfloat (x : float)
| Jstring (s : string)
| Jarray (items : list json)
| Jobject (fields : list (string * json)).
#[local] Set Elimination Schemes.

(** A number that is an [int] or a [float]. *)
Inductive pynum : Type :=
| PyInt (z : Z)
| PyFloat (x : float).

Definition len {A : Type} (l : list A) : Z := Z.of_nat (List.length l).

(** [float(n)] for an [int] that fits 63 bits; exact below [2^53]. *)
Definition float_of_int (z : Z) : float := PrimFloat.of_uint63 (Uint63.of_Z z).

(** [a / b] on two [int]s.  Python rounds the exact quotient once; for
    operands below [2^53] that is the float quotient of the converted
    operands.  Division by zero raises. *)
Definition int_truediv (a b : Z) : result float :=
  if Z.eqb b 0 then Raise (Exception "division by zero")
  else Ok (PrimFloat.div (float_of_int a) (float_of_int b)).

(** [x / n] for a [float] and an [int]. *)
Definition float_div_int (x : float) (n : Z) : result float :=
  if Z.eqb n 0 then Raise (Exception "float division by zero")
  else Ok (PrimFloat.div x (float_of_int n)).

(** [dict.get(key, default)] on a field that may be absent. *)
Definition get {A : Type} (field : option A) (default : A) : A :=
  match field with
  | Some v => v
  | None => default
  end.

(** Truth value of an [Optional[str]]: [None] and the empty string are false. *)
Definition truthy_str (s : option string) : option string :=
  match s with
  | Some EmptyString => None
  | other => other
  end.

(** [list.sort(key=..., reverse=...)]: a stable sort that compares keys with
    [<] only.  With [reverse] the list is reversed, sorted, and reversed
    again, which keeps equal keys in their original order. *)
Fixpoint insort {A : Type} (key : A -> float) (x : A) (l : list A) : list A :=
  match l with
  | [] => [x]
  | y :: rest =>
      if PrimFloat.ltb (key x) (key y) then x :: y :: rest
      else y :: insort key x rest
  end.

Definition sort_ascending {A : Type} (key : A -> float) (l : list A) : list A :=
  fold_left (fun acc x => insort key x acc) l [].

Definition list_sort {A : Type} (key : A -> float) (reverse : bool) (l : list A)
  : list A :=
  if reverse then rev (sort_ascending key (rev l)) else sort_ascending key l.

End Py.
Import Py.

(** ** The outside world *)

(** What DeepFace returns: dicts whose keys may be missing, read with [get]. *)
Record region_dict : Type := {
  rd_x : option Z; rd_y : option Z; rd_w : option Z; rd_h : option Z }.

Record face_dict : Type := {
  fd_region : option region_dict;
  fd_confidence : option float;
  fd_dominant_emotion : option string;
  fd_emotion : option json;
  fd_age : option Z;
  fd_dominant_gender : option string;
  fd_gender : option json;
  fd_dominant_race : option string;
  fd_race : option json }.

(** [DeepFace.analyze] returns a list of face dicts, or a single one. *)
Inductive analysis : Type :=
| AnalysisList (faces : list face_dict)
| AnalysisDict (face : face_dict).

Record facial_areas_dict : Type := {
  fa_img1 : option json; fa_img2 : option json }.

Record verify_dict : Type := {
  vd_verified : option bool;
  vd_distance : option float;
  vd_threshold : option float;
  vd_facial_areas : option facial_areas_dict }.

(** What [detection.extract_faces] yields per face: an array (its height and
    width), a dict whose ['face'] entry is an array or something else, or any
    other object. *)
Inductive face_obj : Type :=
| FaceArray (h w : Z)
| FaceDict (face : option (option (Z * Z)))
| FaceOther.

Class Capabilities : Type := {
  world : Type;
  ndarray : Type;
  UploadFile : Type;
  fr_image : Type;
  fr_location : Type;
  encoding : Type;

  (** module flag set when DeepFace was imported *)
  DEEPFACE_AVAILABLE : bool;
  time_time : world -> float * world;
  print : string -> world -> world;
  json_loads : string -> result json;

  (** the [try] bodies of the two image loaders: read or fetch, decode,
      convert to an array *)
  read_image_file : UploadFile -> world -> result ndarray * world;
  file_seek0 : UploadFile -> world -> world;
  fetch_image_url : json -> world -> result ndarray * world;

  DeepFace_analyze :
    ndarray -> string -> bool -> world -> result analysis * world;
  DeepFace_verify :
    ndarray -> ndarray -> string -> string -> string -> bool ->
    world -> result verify_dict * world;
  (** always called with [enforce_detection=False], [align=True] *)
  detection_extract_faces :
    ndarray -> string -> world -> result (list face_obj) * world;

  (** face_recognition, aiohttp and the upload stream of the second service *)
  upload_read : UploadFile -> world -> result (list Byte.byte) * world;
  load_image_file : list Byte.byte -> world -> result fr_image * world;
  face_locations : fr_image -> world -> result (list fr_location) * world;
  face_encodings :
    fr_image -> list fr_location -> world -> result (list encoding) * world;
  face_distance : list encoding -> encoding -> world -> result (list float) * world;
  aiohttp_get : string -> world -> result (Z * list Byte.byte) * world;
  np_array : list float -> world -> result encoding * world;
  tolist : encoding -> list float
}.

(** ** Handlers as functions of the world *)

Section Effects.
Context {C : Capabilities}.

Definition M (A : Type) : Type := world -> result A * world.

Definition ret {A : Type} (a : A) : M A := fun w => (Ok a, w).

Definition raise {A : Type} (e : exn) : M A := fun w => (Raise e, w).

Definition bind {A B : Type} (m : M A) (k : A -> M B) : M B :=
  fun w => match m w with
           | (Ok a, w') => k a w'
           | (Raise e, w') => (Raise e, w')
           end.

(** [try: body except Exception as e: handler e] *)
Definition try_except {A : Type} (body : M A) (handler : exn -> M A) : M A :=
  fun w => match body w with
           | (Ok a, w') => (Ok a, w')
           | (Raise e, w') => handler e w'
           end.

(** [try: body finally: fin] *)
Definition try_finally {A : Type} (body : M A) (fin : world -> world) : M A :=
  fun w => let (r, w') := body w in (r, fin w').

Definition lift {A : Type} (r : result A) : M A := fun w => (r, w).

Definition now : M float := fun w => let (t, w') := time_time w in (Ok t, w').

Definition say (s : string) : M unit := fun w => (Ok tt, print s w).

End Effects.

Notation "x <- m ;; k" := (bind m (fun x => k))
  (at level 61, m at next level, right associativity).
Notation "m ;;; k" := (bind m (fun _ => k))
  (at level 61, right associativity).

(** The status line FastAPI sends for what a handler did: 200 for a
    returned body, the code of an [HTTPException], and 500 from
    [global_exception_handler] otherwise.  The 200 stands for a body that
    FastAPI can turn into JSON, which is the case of every body here but
    the one of [compare_faces]: its ['match'] is the [numpy.bool_] that
    comparing a NumPy number gives, which the encoder refuses, so that
    endpoint sends 500 after the handler returned.  No statement below
    gives it the status 200. *)
Definition http_status {A : Type} (r : result A) : Z :=
  match r with
  | Ok _ => 200
  | Raise (HTTPException c _) => c
  | Raise (Exception _) => 500
  end.

(** ** deepface_server.py *)

Module DeepfaceServer.

Definition AVAILABLE_MODELS : list string :=
  ["VGG-Face"; "Facenet"; "OpenFace"; "DeepFace"; "DeepID"; "ArcFace"]%string.
Definition AVAILABLE_DETECTORS : list string :=
  ["opencv"; "ssd"; "mtcnn"; "dlib"; "retinaface"]%string.
Definition AVAILABLE_METRICS : list string :=
  ["cosine"; "euclidean"; "euclidean_l2"]%string.

(** The marker DeepFace puts in the message when it finds no face. *)
Definition NO_FACE : string := "Face could not be detected".

(** Float literals of the source, written exactly. *)
Definition f0_9 : float := 0x1.ccccccccccccdp-1%float.   (* 0.9 *)
Definition f0_4 : float := 0x1.999999999999ap-2%float.   (* 0.4 *)

Record region_json : Type := {
  rj_x : Z; rj_y : Z; rj_w : Z; rj_h : Z }.

Record face_json : Type := {
  fj_region : region_json;
  fj_confidence : float;
  fj_emotion : string;
  fj_emotions : json;
  fj_age : Z;
  fj_gender : string;
  fj_gender_distribution : json;
  fj_race : string;
  fj_race_distribution : json }.

Record analyze_response : Type := {
  ar_success : bool;
  ar_faces : list face_json;
  ar_face_count : Z;
  ar_detector : string;
  ar_message : option string;
  ar_analysis_time : float }.

Record verify_response : Type := {
  vr_success : bool;
  vr_verified : bool;
  vr_distance : float;
  vr_similarity : float;
  vr_threshold : option float;
  vr_model : string;
  vr_detector : string;
  vr_metrics : string;
  vr_processing_time : option float;
  vr_analysis : option (json * json);
  vr_message : option string }.

(** One entry of the [results] list of [/api/batch-verify]; [be_error] is
    the key that only a failed candidate has. *)
Record batch_entry : Type := {
  be_url : json;
  be_verified : bool;
  be_distance : float;
  be_similarity : float;
  be_match : bool;
  be_error : option string }.

Record batch_summary : Type := {
  bs_total_images : Z;
  bs_matches : Z;
  bs_match_rate : pynum;
  bs_processing_time : float;
  bs_avg_time_per_image : pynum }.

Record batch_response : Type := {
  br_success : bool;
  br_results : list batch_entry;
  br_summary : batch_summary;
  br_model : string;
  br_detector : string;
  br_metrics : string;
  br_threshold : float }.

Record detect_response : Type := {
  dr_success : bool;
  dr_faces : list (Z * Z);       (* width, height *)
  dr_face_count : Z;
  dr_detector : string;
  dr_message : option string }.

Definition empty_region : region_dict :=
  {| rd_x := None; rd_y := None; rd_w := None; rd_h := None |}.

Definition empty_areas : facial_areas_dict :=
  {| fa_img1 := None; fa_img2 := None |}.

(** The dict built for each analysed face. *)
Definition face_to_json (face : face_dict) : face_json :=
  {| fj_region :=
       {| rj_x := get (rd_x (get (fd_region face) empty_region)) 0;
          rj_y := get (rd_y (get (fd_region face) empty_region)) 0;
          rj_w := get (rd_w (get (fd_region face) empty_region)) 0;
          rj_h := get (rd_h (get (fd_region face) empty_region)) 0 |};
     fj_confidence := get (fd_confidence face) f0_9;
     fj_emotion := get (fd_dominant_emotion face) "neutral"%string;
     fj_emotions := get (fd_emotion face) (Jobject []);
     fj_age := get (fd_age face) 0;
     fj_gender := get (fd_dominant_gender face) "unknown"%string;
     fj_gender_distribution := get (fd_gender face) (Jobject []);
     fj_race := get (fd_dominant_race face) "unknown"%string;
     fj_race_distribution := get (fd_race face) (Jobject []) |}.

Section Handlers.
Context {C : Capabilities}.

Definition load_image_from_url (url : json) : M ndarray :=
  try_except (fetch_image_url url)
    (fun e => raise (HTTPException 400
                       ("Failed to load image from URL: " ++ str e)%string)).

Definition load_image_from_file (file : UploadFile) : M ndarray :=
  try_finally
    (try_except (read_image_file file)
       (fun e => raise (HTTPException 400
                          ("Failed to load image: " ++ str e)%string)))
    (file_seek0 file).

(** The [if file: ... elif url: ... else: raise HTTPException(400, ...)]
    that the handlers repeat for every image input. *)
Definition load_file_or_url (file : option UploadFile) (url : option string)
    (missing : string) : M ndarray :=
  match file with
  | Some f => load_image_from_file f
  | None =>
      match truthy_str url with
      | Some u => load_image_from_url (Jstring u)
      | None => raise (HTTPException 400 missing)
      end
  end.

Definition analyze_faces (image : option UploadFile) (image_url : option string)
    (detector : string) (enforce_detection : bool) : M analyze_response :=
  if negb DEEPFACE_AVAILABLE then
    raise (HTTPException 503 "DeepFace not available")
  else if negb (str_in detector AVAILABLE_DETECTORS) then
    raise (HTTPException 400
             ("Invalid detector. Available: "
                ++ repr_str_list AVAILABLE_DETECTORS)%string)
  else
    try_except
      (img_array <- load_file_or_url image image_url
                      "Either image file or image_url must be provided" ;;
       analysis <- DeepFace_analyze img_array detector enforce_detection ;;
       let faces :=
         match analysis with
         | AnalysisList l => map face_to_json l
         | AnalysisDict d => [face_to_json d]
         end in
       t <- now ;;
       ret {| ar_success := true;
              ar_faces := faces;
              ar_face_count := len faces;
              ar_detector := detector;
              ar_message := None;
              ar_analysis_time := t |})
      (fun e =>
         let error_msg := str e in
         if contains NO_FACE error_msg then
           t <- now ;;
           ret {| ar_success := true;
                  ar_faces := [];
                  ar_face_count := 0;
                  ar_detector := detector;
                  ar_message := Some "No faces detected in the image"%string;
                  ar_analysis_time := t |}
         else
           raise (HTTPException 500 ("Analysis failed: " ++ error_msg)%string)).

Definition verify_faces (img1 img2 : option UploadFile)
    (img1_url img2_url : option string) (model detector metrics : string)
    (enforce_detection : bool) : M verify_response :=
  if negb DEEPFACE_AVAILABLE then
    raise (HTTPException 503 "DeepFace not available")
  else if negb (str_in model AVAILABLE_MODELS) then
    raise (HTTPException 400
             ("Invalid model. Available: " ++ repr_str_list AVAILABLE_MODELS)%string)
  else if negb (str_in detector AVAILABLE_DETECTORS) then
    raise (HTTPException 400
             ("Invalid detector. Available: "
                ++ repr_str_list AVAILABLE_DETECTORS)%string)
  else if negb (str_in metrics AVAILABLE_METRICS) then
    raise (HTTPException 400
             ("Invalid metric. Available: " ++ repr_str_list AVAILABLE_METRICS)%string)
  else
    try_except
      (img1_array <- load_file_or_url img1 img1_url "First image must be provided" ;;
       img2_array <- load_file_or_url img2 img2_url "Second image must be provided" ;;
       start_time <- now ;;
       result <- DeepFace_verify img1_array img2_array model detector metrics
                   enforce_detection ;;
       end_time <- now ;;
       let processing_time := PrimFloat.sub end_time start_time in
       ret {| vr_success := true;
              vr_verified := get (vd_verified result) false;
              vr_distance := get (vd_distance result) 1%float;
              vr_similarity := PrimFloat.sub 1%float (get (vd_distance result) 1%float);
              vr_threshold := Some (get (vd_threshold result) f0_4);
              vr_model := model;
              vr_detector := detector;
              vr_metrics := metrics;
              vr_processing_time := Some processing_time;
              vr_analysis :=
                Some (get (fa_img1 (get (vd_facial_areas result) empty_areas))
                        (Jobject []),
                      get (fa_img2 (get (vd_facial_areas result) empty_areas))
                        (Jobject []));
              vr_message := None |})
      (fun e =>
         let error_msg := str e in
         if contains NO_FACE error_msg then
           ret {| vr_success := true;
                  vr_verified := false;
                  vr_distance := 1%float;
                  vr_similarity := 0%float;
                  vr_threshold := None;
                  vr_model := model;
                  vr_detector := detector;
                  vr_metrics := metrics;
                  vr_processing_time := None;
                  vr_analysis := None;
                  vr_message :=
                    Some "Face could not be detected in one or both images"%string |}
         else
           raise (HTTPException 500 ("Verification failed: " ++ error_msg)%string)).

(** The [try] body run for one candidate URL of a batch. *)
Definition compare_candidate (target_array : ndarray)
    (model detector metrics : string) (threshold : float) (url : json)
  : M batch_entry :=
  compare_array <- load_image_from_url url ;;
  result <- DeepFace_verify target_array compare_array model detector metrics false ;;
  let similarity := PrimFloat.sub 1%float (get (vd_distance result) 1%float) in
  let verified := PrimFloat.ltb threshold similarity in
  ret {| be_url := url;
         be_verified := verified;
         be_distance := get (vd_distance result) 1%float;
         be_similarity := similarity;
         be_match := get (vd_verified result) false;
         be_error := None |}.

(** The entry appended by the [except] branch. *)
Definition error_entry (url : json) (e : exn) : batch_entry :=
  {| be_url := url;
     be_verified := false;
     be_distance := 1%float;
     be_similarity := 0%float;
     be_match := false;
     be_error := Some (str e) |}.

(** One turn of the loop: the [try] body, or the [except] branch. *)
Definition process_candidate (target_array : ndarray)
    (model detector metrics : string) (threshold : float) (url : json)
  : M batch_entry :=
  try_except (compare_candidate target_array model detector metrics threshold url)
    (fun e => ret (error_entry url e)).

(** [for i, url in enumerate(urls)], appending to [results]. *)
Fixpoint batch_loop (target_array : ndarray) (model detector metrics : string)
    (threshold : float) (urls : list json) (results : list batch_entry)
  : M (list batch_entry) :=
  match urls with
  | [] => ret results
  | url :: rest =>
      entry <- process_candidate target_array model detector metrics threshold url ;;
      batch_loop target_array model detector metrics threshold rest
        (results ++ [entry])
  end.

(** [x / len(urls) if urls else 0] *)
Definition rate_or_zero (quotient : Z -> result float) (urls : list json)
  : M pynum :=
  match urls with
  | [] => ret (PyInt 0)
  | _ :: _ => q <- lift (quotient (len urls)) ;; ret (PyFloat q)
  end.

Definition batch_verify (target_image : UploadFile) (image_urls : string)
    (model detector metrics : string) (threshold : float) : M batch_response :=
  if negb DEEPFACE_AVAILABLE then
    raise (HTTPException 503 "DeepFace not available")
  else
    try_except
      (target_array <- load_image_from_file target_image ;;
       parsed <- lift (json_loads image_urls) ;;
       match parsed with
       | Jarray urls =>
           start_time <- now ;;
           results <- batch_loop target_array model detector metrics threshold
                        urls [] ;;
           end_time <- now ;;
           let processing_time := PrimFloat.sub end_time start_time in
           let matches := filter be_verified results in
           match_rate <- rate_or_zero (int_truediv (len matches)) urls ;;
           avg_time <- rate_or_zero (float_div_int processing_time) urls ;;
           ret {| br_success := true;
                  br_results := results;
                  br_summary :=
                    {| bs_total_images := len urls;
                       bs_matches := len matches;
                       bs_match_rate := match_rate;
                       bs_processing_time := processing_time;
                       bs_avg_time_per_image := avg_time |};
                  br_model := model;
                  br_detector := detector;
                  br_metrics := metrics;
                  br_threshold := threshold |}
       | _ => raise (HTTPException 400 "image_urls must be a JSON array")
       end)
      (fun e =>
         raise (HTTPException 500
                  ("Batch verification failed: " ++ str e)%string)).

(** The regions kept by [detect_faces]: one per array, one per dict whose
    ['face'] is an array. *)
Fixpoint face_regions (faces : list face_obj) : list (Z * Z) :=
  match faces with
  | [] => []
  | FaceArray h w :: rest => (w, h) :: face_regions rest
  | FaceDict (Some (Some (h, w))) :: rest => (w, h) :: face_regions rest
  | _ :: rest => face_regions rest
  end.

Definition detect_faces (image : option UploadFile) (image_url : option string)
    (detector : string) : M detect_response :=
  if negb DEEPFACE_AVAILABLE then
    raise (HTTPException 503 "DeepFace not available")
  else
    try_except
      (img_array <- load_file_or_url image image_url
                      "Either image file or image_url must be provided" ;;
       faces <- detection_extract_faces img_array detector ;;
       let regions := face_regions faces in
       ret {| dr_success := true;
              dr_faces := regions;
              dr_face_count := len regions;
              dr_detector := detector;
              dr_message := None |})
      (fun e =>
         let error_msg := str e in
         if contains NO_FACE error_msg then
           ret {| dr_success := true;
                  dr_faces := [];
                  dr_face_count := 0;
                  dr_detector := detector;
                  dr_message := Some "No faces detected"%string |}
         else
           raise (HTTPException 500 ("Detection failed: " ++ error_msg)%string)).

End Handlers.

End DeepfaceServer.

(** ** src/config/face_matching.py *)

Module FaceMatching.

Definition FACE_MATCH_THRESHOLD : float := 0x1.3333333333333p-1%float.  (* 0.6 *)

(** An event image as the caller stores it: a dict read by the keys
    ['_id'], ['url'] and ['originalName']. *)
Record event_image : Type := {
  ei_id : option json;
  ei_url : option string;
  ei_originalName : option json }.

Record match_entry : Type := {
  me_file_id : json;
  me_file_url : string;
  me_file_name : json;
  me_similarity : float;
  me_confidence : float;
  me_face_distance : float }.

Record selfie_response : Type := {
  sr_success : bool;
  sr_matches : list match_entry;
  sr_total_matches : Z;
  sr_selfie_processed : bool }.

Record encoding_response : Type := {
  er_success : bool;
  er_encoding : list float;
  er_encoding_length : Z }.

Record compare_response : Type := {
  cr_success : bool;
  cr_distance : float;
  cr_similarity : float;
  cr_match : bool }.

Section Service.
Context {C : Capabilities}.

(** [d[key]]: a missing key raises [KeyError], printed as the quoted key. *)
Definition lookup {A : Type} (field : option A) (key : string) : M A :=
  match field with
  | Some v => ret v
  | None => raise (Exception ("'" ++ key ++ "'")%string)
  end.

(** [a[0]] on the array a distance call returns. *)
Definition item0 (a : list float) : M float :=
  match a with
  | x :: _ => ret x
  | [] => raise (Exception "index 0 is out of bounds for axis 0 with size 0")
  end.

End Service.

Module FaceMatchingService.
Section Methods.
Context {C : Capabilities}.

Definition extract_face_encoding (image_bytes : list Byte.byte)
  : M (option encoding) :=
  try_except
    (image <- load_image_file image_bytes ;;
     locations <- face_locations image ;;
     match locations with
     | [] => ret None
     | _ :: _ =>
         encodings <- face_encodings image locations ;;
         match encodings with
         | first :: _ => ret (Some first)
         | [] => ret None
         end
     end)
    (fun e =>
       say ("Error extracting face encoding: " ++ str e)%string ;;; ret None).

Definition download_image (url : string) : M (option (list Byte.byte)) :=
  try_except
    (response <- aiohttp_get url ;;
     if Z.eqb (fst response) 200 then ret (Some (snd response)) else ret None)
    (fun e => say ("Error downloading image: " ++ str e)%string ;;; ret None).

(** The loop over the faces of one event image: the first face close enough
    to the selfie gives the entry, and the loop breaks. *)
Fixpoint first_match (selfie_encoding : encoding) (ev : event_image)
    (event_face_encodings : list encoding) : M (option match_entry) :=
  match event_face_encodings with
  | [] => ret None
  | event_encoding :: rest =>
      distances <- face_distance [selfie_encoding] event_encoding ;;
      distance <- item0 distances ;;
      let similarity := PrimFloat.sub 1%float distance in
      if PrimFloat.leb FACE_MATCH_THRESHOLD similarity then
        file_id <- lookup (ei_id ev) "_id" ;;
        file_url <- lookup (ei_url ev) "url" ;;
        file_name <- lookup (ei_originalName ev) "originalName" ;;
        ret (Some {| me_file_id := file_id;
                     me_file_url := file_url;
                     me_file_name := file_name;
                     me_similarity := similarity;
                     me_confidence := PrimFloat.mul similarity 100%float;
                     me_face_distance := distance |})
      else first_match selfie_encoding ev rest
  end.

(** The [try] body run for one event image. *)
Definition match_event_image (selfie_encoding : encoding) (ev : event_image)
  : M (option match_entry) :=
  url <- lookup (ei_url ev) "url" ;;
  event_image_bytes <- download_image url ;;
  match event_image_bytes with
  | Some (b :: bs) =>
      image <- load_image_file (b :: bs) ;;
      image' <- load_image_file (b :: bs) ;;
      locations <- face_locations image' ;;
      event_face_encodings <- face_encodings image locations ;;
      first_match selfie_encoding ev event_face_encodings
  | _ => ret None
  end.

(** [for event_image in event_images], appending to [matching_images];
    an exception skips the image. *)
Fixpoint collect_matches (selfie_encoding : encoding)
    (event_images : list event_image) (matching_images : list match_entry)
  : M (list match_entry) :=
  match event_images with
  | [] => ret matching_images
  | ev :: rest =>
      found <- try_except (match_event_image selfie_encoding ev)
                 (fun e =>
                    say ("Error processing event image: " ++ str e)%string ;;;
                    ret None) ;;
      collect_matches selfie_encoding rest
        match found with
        | Some entry => matching_images ++ [entry]
        | None => matching_images
        end
  end.

Definition find_matching_faces (selfie_bytes : list Byte.byte)
    (event_images : list event_image) : M (list match_entry) :=
  try_except
    (selfie_encoding <- extract_face_encoding selfie_bytes ;;
     match selfie_encoding with
     | None => ret []
     | Some enc =>
         matching_images <- collect_matches enc event_images [] ;;
         ret (list_sort me_similarity true matching_images)
     end)
    (fun e => say ("Error in find_matching_faces: " ++ str e)%string ;;; ret []).

End Methods.
End FaceMatchingService.

Section Handlers.
Context {C : Capabilities}.

Definition process_selfie (event_id : string) (selfie : UploadFile)
    (min_confidence : float) : M selfie_response :=
  try_except
    (selfie_bytes <- upload_read selfie ;;
     let event_images := [] in
     matches <- FaceMatchingService.find_matching_faces selfie_bytes event_images ;;
     ret {| sr_success := true;
            sr_matches := matches;
            sr_total_matches := len matches;
            sr_selfie_processed := true |})
    (fun e => raise (HTTPException 500 (str e))).

Definition extract_face_encoding (image : UploadFile) : M encoding_response :=
  try_except
    (image_bytes <- upload_read image ;;
     found <- FaceMatchingService.extract_face_encoding image_bytes ;;
     match found with
     | None => raise (HTTPException 400 "No face detected in image")
     | Some enc =>
         let encoding_list := tolist enc in
         ret {| er_success := true;
                er_encoding := encoding_list;
                er_encoding_length := len encoding_list |}
     end)
    (fun e => raise (HTTPException 500 (str e))).

Definition compare_faces (encoding1 encoding2 : list float) : M compare_response :=
  try_except
    (enc1 <- np_array encoding1 ;;
     enc2 <- np_array encoding2 ;;
     distances <- face_distance [enc1] enc2 ;;
     distance <- item0 distances ;;
     let similarity := PrimFloat.sub 1%float distance in
     ret {| cr_success := true;
            cr_distance := distance;
            cr_similarity := similarity;
            cr_match := PrimFloat.leb FACE_MATCH_THRESHOLD similarity |})
    (fun e => raise (HTTPException 500 (str e))).

End Handlers.

End FaceMatching.

(** ** Properties of result lists *)

(** Every element is followed only by elements of lower or equal key. *)
Definition sorted_desc {A : Type} (key : A -> float) (l : list A) : Prop :=
  StronglySorted (fun a b => PrimFloat.leb (key b) (key a) = true) l.

(** The elements of [l'] that share a key value stand in the order they have
    in [l]. *)
Definition ties_in_order {A : Type} (key : A -> float) (l l' : list A) : Prop :=
  forall k : float,
    filter (fun x => PrimFloat.eqb (key x) k) l'
    = filter (fun x => PrimFloat.eqb (key x) k) l.

(** A key that compares with itself, that is, any float but NaN. *)
Definition ordered_key (x : float) : Prop := PrimFloat.leb x x = true.

Definition ordered_keys {A : Type} (key : A -> float) (l : list A) : Prop :=
  Forall (fun x => ordered_key (key x)) l.

(** Ascending order, as the inner pass of [list_sort] leaves the list. *)
Definition sorted_asc {A : Type} (key : A -> float) (l : list A) : Prop :=
  StronglySorted (fun a b => PrimFloat.leb (key a) (key b) = true) l.

(** The elements whose key equals [k]. *)
Definition tie {A : Type} (key : A -> float) (k : float) (x : A) : bool :=
  PrimFloat.eqb (key x) k.

(** [entry] is what one turn of the batch loop appends for [url] in some
    state of the world: the entry of the comparison, or the error entry. *)
Definition entry_of_candidate {C : Capabilities} (target_array : ndarray)
    (model detector metrics : string) (threshold : float)
    (url : json) (entry : DeepfaceServer.batch_entry) : Prop :=
  exists w0 w1,
    DeepfaceServer.process_candidate target_array model detector metrics
      threshold url w0 = (Ok entry, w1)
    /\ match DeepfaceServer.compare_candidate target_array model detector
               metrics threshold url w0 with
       | (Ok compared, _) => entry = compared
       | (Raise e, _) => entry = DeepfaceServer.error_entry url e
       end.

(** The value of a summary number as a float. *)
Definition pynum_float (n : pynum) : float :=
  match n with
  | PyInt z => float_of_int z
  | PyFloat x => x
  end.

(** ** A small world to run the handlers in

    Images are named by strings.  The URL ["urlB"] cannot be fetched and
    ["flaky"] can be fetched at odd ticks only; the image ["urlA"] is at
    distance 0.2 from any target, ["urlC"] at 0.7, ["noface"] has no face.
    For the second service every lower-case letter of an image is a face,
    encoded by its rank in the alphabet over ten. *)
Module Demo.

Definition parse (s : string) : result json :=
  if String.eqb s "[]" then Ok (Jarray [])
  else if String.eqb s "[A, B, C]" then
    Ok (Jarray [Jstring "urlA"; Jstring "urlB"; Jstring "urlC"])
  else if String.eqb s "[flaky, flaky]" then
    Ok (Jarray [Jstring "flaky"; Jstring "flaky"])
  else if String.eqb s "[A, same]" then
    Ok (Jarray [Jstring "urlA"; Jstring "same"])
  else if String.eqb s "{}" then Ok (Jobject [])
  else Raise (Exception "Expecting value: line 1 column 1 (char 0)").

Definition fetch (url : json) (w : nat) : result string * nat :=
  match url with
  | Jstring u =>
      if String.eqb u "urlB" then (Raise (Exception "connection refused"), S w)
      else if String.eqb u "flaky" && Nat.even w then
        (Raise (Exception "timed out"), S w)
      else (Ok u, S w)
  | _ => (Raise (Exception "Invalid URL"), S w)
  end.

Definition distance_of (img : string) : float :=
  if String.eqb img "urlA" then 0x1.999999999999ap-3%float        (* 0.2 *)
  else if String.eqb img "urlC" then 0x1.6666666666666p-1%float   (* 0.7 *)
  else if String.eqb img "same" then 0x1.999999999999ap-2%float   (* 0.4 *)
  else 0.5%float.

Definition verify (img1 img2 model detector metrics : string) (enforce : bool)
    (w : nat) : result verify_dict * nat :=
  if negb (str_in model DeepfaceServer.AVAILABLE_MODELS) then
    (Raise (Exception "Invalid model_name passed"), S w)
  else if String.eqb img2 "noface" || String.eqb img1 "noface" then
    (Raise (Exception "Face could not be detected. Please confirm that the picture is a face photo."),
     S w)
  else
    (Ok {| vd_verified :=
             Some (PrimFloat.leb (distance_of img2) DeepfaceServer.f0_4);
           vd_distance := Some (distance_of img2);
           vd_threshold := Some DeepfaceServer.f0_4;
           vd_facial_areas := None |},
     S w).

Definition one_face : face_dict :=
  {| fd_region := None; fd_confidence := None; fd_dominant_emotion := Some "happy"%string;
     fd_emotion := None; fd_age := Some 30; fd_dominant_gender := None;
     fd_gender := None; fd_dominant_race := None; fd_race := None |}.

Definition analyze (img detector : string) (enforce : bool) (w : nat)
  : result analysis * nat :=
  if String.eqb img "noface" then
    (Raise (Exception "Face could not be detected in numpy array."), S w)
  else (Ok (AnalysisList [one_face]), S w).

Definition extract (img detector : string) (w : nat)
  : result (list face_obj) * nat :=
  if String.eqb img "noface" then
    (Raise (Exception "Face could not be detected in numpy array."), S w)
  else if negb (str_in detector DeepfaceServer.AVAILABLE_DETECTORS) then
    (Raise (Exception "invalid detector_backend passed"), S w)
  else (Ok [FaceArray 224 224], S w).

Definition is_letter (b : Byte.byte) : bool :=
  (N.leb 97 (Byte.to_N b) && N.leb (Byte.to_N b) 122)%bool.

Definition encode (b : Byte.byte) : float :=
  PrimFloat.div (float_of_int (Z.of_N (Byte.to_N b) - 97)) 10%float.

Definition http_get (url : string) (w : nat)
  : result (Z * list Byte.byte) * nat :=
  if String.eqb url "gone" then (Ok (404, []), S w)
  else (Ok (200, list_byte_of_string url), S w).

#[export] Instance caps : Capabilities := {|
  world := nat;
  ndarray := string;
  UploadFile := string;
  fr_image := list Byte.byte;
  fr_location := Byte.byte;
  encoding := float;
  DEEPFACE_AVAILABLE := true;
  time_time := fun w => (float_of_int (Z.of_nat w), S w);
  print := fun _ w => w;
  json_loads := parse;
  read_image_file := fun f w =>
    if String.eqb f "corrupt" then (Raise (Exception "cannot identify image file"), S w)
    else (Ok f, S w);
  file_seek0 := fun _ w => w;
  fetch_image_url := fetch;
  DeepFace_analyze := analyze;
  DeepFace_verify := verify;
  detection_extract_faces := extract;
  upload_read := fun f w => (Ok (list_byte_of_string f), S w);
  load_image_file := fun b w => (Ok b, S w);
  face_locations := fun img w => (Ok (filter is_letter img), S w);
  face_encodings := fun _ locs w => (Ok (map encode locs), S w);
  face_distance := fun known e w =>
    (Ok (map (fun k => PrimFloat.abs (PrimFloat.sub k e)) known), S w);
  aiohttp_get := http_get;
  np_array := fun l w =>
    match l with
    | [x] => (Ok x, w)
    | _ => (Raise (Exception "expected one coordinate"), w)
    end;
  tolist := fun x => [x]
|}.

(** Event images of a small album. *)
Definition album : list FaceMatching.event_image :=
  map (fun p => {| FaceMatching.ei_id := Some (Jint (fst p));
                   FaceMatching.ei_url := Some (snd p);
                   FaceMatching.ei_originalName := Some (Jstring (snd p)) |})
    [(1, "c"); (2, "z"); (3, "b"); (4, "gone"); (5, "c")]%string.

End Demo.

(** ** The known-faces catalogue of face_matching.py *)

Module KnownFaces.

Definition KNOWN_FACES_DIR : string := "known_faces".

(** [s.endswith(suffix)] *)
Fixpoint endswith (s suffix : string) : bool :=
  if String.eqb s suffix then true
  else match s with
       | EmptyString => false
       | String _ rest => endswith rest suffix
       end.

(** [os.path.join(a, b)] on POSIX: an absolute [b] replaces [a]; otherwise
    the parts are joined by one slash, unless [a] is empty or ends with one. *)
Definition os_path_join (a b : string) : string :=
  if String.prefix "/" b then b
  else if String.eqb a "" || endswith a "/" then (a ++ b)%string
  else (a ++ "/" ++ b)%string.

(** The file system calls of [load_known_faces]. *)
Class Disk (C : Capabilities) : Type := {
  os_path_exists : string -> world -> bool * world;
  os_listdir : string -> world -> result (list string) * world;
  np_load : string -> world -> result encoding * world
}.

Section Methods.
Context {C : Capabilities} {D : Disk C}.

(** [for filename in os.listdir(event_dir)], appending to [face_encodings]. *)
Fixpoint load_files (event_dir : string) (filenames : list string)
    (face_encodings : list encoding) : M (list encoding) :=
  match filenames with
  | [] => ret face_encodings
  | filename :: rest =>
      if endswith filename ".npy" then
        loaded <- np_load (os_path_join event_dir filename) ;;
        load_files event_dir rest (face_encodings ++ [loaded])
      else load_files event_dir rest face_encodings
  end.

(** The files [filenames] of [event_dir] are loaded one after the other,
    starting in world [w]; they give [encodings], and the last load leaves
    world [w']. *)
Fixpoint loaded_in_order (event_dir : string) (filenames : list string)
    (w : world) (encodings : list encoding) (w' : world) : Prop :=
  match filenames, encodings with
  | [], [] => w' = w
  | filename :: rest, enc :: encs =>
      exists w1,
        np_load (os_path_join event_dir filename) w = (Ok enc, w1)
        /\ loaded_in_order event_dir rest w1 encs w'
  | _, _ => False
  end.

Definition load_known_faces (event_id : string) : M (list encoding) :=
  let event_dir := os_path_join KNOWN_FACES_DIR event_id in
  fun w =>
    let (present, w1) := os_path_exists event_dir w in
    if negb present then (Ok [], w1)
    else (filenames <- os_listdir event_dir ;;
          load_files event_dir filenames []) w1.

End Methods.
End KnownFaces.

(** ** The health endpoint of deepface_server.py *)

Module DeepfaceInfo.

Record health_response : Type := {
  hr_status : string;
  hr_deepface_available : bool;
  hr_models : list string;
  hr_detectors : list string;
  hr_metrics : list string;
  hr_timestamp : float }.

Section Handlers.
Context {C : Capabilities}.

Definition health_check : M health_response :=
  t <- now ;;
  ret {| hr_status := if DEEPFACE_AVAILABLE then "healthy" else "error";
         hr_deepface_available := DEEPFACE_AVAILABLE;
         hr_models :=
           if DEEPFACE_AVAILABLE then DeepfaceServer.AVAILABLE_MODELS else [];
         hr_detectors :=
           if DEEPFACE_AVAILABLE then DeepfaceServer.AVAILABLE_DETECTORS else [];
         hr_metrics :=
           if DEEPFACE_AVAILABLE then DeepfaceServer.AVAILABLE_METRICS else [];
         hr_timestamp := t |}.

End Handlers.
End DeepfaceInfo.

(** ** More properties of responses *)

(** [isinstance(value, list)] *)
Definition is_list (value : json) : bool :=
  match value with
  | Jarray _ => true
  | _ => false
  end.

(** The entry has the key ['error']. *)
Definition has_error (entry : DeepfaceServer.batch_entry) : bool :=
  match DeepfaceServer.be_error entry with
  | Some _ => true
  | None => false
  end.

(** Two entries that agree on every key but ['verified']. *)
Definition same_but_verified (e1 e2 : DeepfaceServer.batch_entry) : Prop :=
  DeepfaceServer.be_url e1 = DeepfaceServer.be_url e2
  /\ DeepfaceServer.be_distance e1 = DeepfaceServer.be_distance e2
  /\ DeepfaceServer.be_similarity e1 = DeepfaceServer.be_similarity e2
  /\ DeepfaceServer.be_match e1 = DeepfaceServer.be_match e2
  /\ DeepfaceServer.be_error e1 = DeepfaceServer.be_error e2.

(** The match was built from this event image. *)
Definition match_of_image (ev : FaceMatching.event_image)
    (m : FaceMatching.match_entry) : Prop :=
  FaceMatching.ei_id ev = Some (FaceMatching.me_file_id m)
  /\ FaceMatching.ei_url ev = Some (FaceMatching.me_file_url m)
  /\ FaceMatching.ei_originalName ev = Some (FaceMatching.me_file_name m).

(** ** A second small world

    As [Demo], but a URL without a scheme is refused the way [requests]
    refuses it, with the URL quoted in the message; and a disk with one
    event directory. *)
Module Demo2.

Definition fetch (url : json) (w : nat) : result string * nat :=
  match url with
  | Jstring u =>
      if String.prefix "http" u then (Ok u, S w)
      else (Raise (Exception ("Invalid URL '" ++ u ++ "': No scheme supplied")%string),
            S w)
  | _ => (Raise (Exception "Invalid URL"), S w)
  end.

#[export] Instance caps : Capabilities := {|
  world := nat;
  ndarray := string;
  UploadFile := string;
  fr_image := list Byte.byte;
  fr_location := Byte.byte;
  encoding := float;
  DEEPFACE_AVAILABLE := true;
  time_time := fun w => (float_of_int (Z.of_nat w), S w);
  print := fun _ w => w;
  json_loads := Demo.parse;
  read_image_file := fun f w =>
    if String.eqb f "corrupt" then (Raise (Exception "cannot identify image file"), S w)
    else (Ok f, S w);
  file_seek0 := fun _ w => w;
  fetch_image_url := fetch;
  DeepFace_analyze := Demo.analyze;
  DeepFace_verify := Demo.verify;
  detection_extract_faces := Demo.extract;
  upload_read := fun f w =>
    if String.eqb f "broken" then (Raise (Exception "stream closed"), S w)
    else (Ok (list_byte_of_string f), S w);
  load_image_file := fun b w => (Ok b, S w);
  face_locations := fun img w => (Ok (filter Demo.is_letter img), S w);
  face_encodings := fun _ locs w => (Ok (map Demo.encode locs), S w);
  face_distance := fun known e w =>
    (Ok (map (fun k => PrimFloat.abs (PrimFloat.sub k e)) known), S w);
  aiohttp_get := Demo.http_get;
  np_array := fun l w =>
    match l with
    | [x] => (Ok x, w)
    | _ => (Raise (Exception "expected one coordinate"), w)
    end;
  tolist := fun x => [x]
|}.

(** The same world when the import of DeepFace failed. *)
Definition offline : Capabilities := {|
  world := nat;
  ndarray := string;
  UploadFile := string;
  fr_image := list Byte.byte;
  fr_location := Byte.byte;
  encoding := float;
  DEEPFACE_AVAILABLE := false;
  time_time := fun w => (float_of_int (Z.of_nat w), S w);
  print := fun _ w => w;
  json_loads := Demo.parse;
  read_image_file := fun f w => (Ok f, S w);
  file_seek0 := fun _ w => w;
  fetch_image_url := fetch;
  DeepFace_analyze := Demo.analyze;
  DeepFace_verify := Demo.verify;
  detection_extract_faces := Demo.extract;
  upload_read := fun f w => (Ok (list_byte_of_string f), S w);
  load_image_file := fun b w => (Ok b, S w);
  face_locations := fun img w => (Ok (filter Demo.is_letter img), S w);
  face_encodings := fun _ locs w => (Ok (map Demo.encode locs), S w);
  face_distance := fun known e w =>
    (Ok (map (fun k => PrimFloat.abs (PrimFloat.sub k e)) known), S w);
  aiohttp_get := Demo.http_get;
  np_array := fun l w => (Raise (Exception "expected one coordinate"), w);
  tolist := fun x => [x]
|}.

#[export] Instance disk : KnownFaces.Disk caps := {|
  KnownFaces.os_path_exists := fun path w =>
    (String.eqb path "known_faces/wedding" || String.eqb path "/tmp", S w);
  KnownFaces.os_listdir := fun path w =>
    if String.eqb path "known_faces/wedding" then
      (Ok ["a.npy"; "notes.txt"; "b.npy"; "c.NPY"]%string, S w)
    else (Ok [], S w);
  KnownFaces.np_load := fun path w =>
    if String.eqb path "known_faces/wedding/a.npy" then (Ok 1%float, S w)
    else if String.eqb path "known_faces/wedding/b.npy" then (Ok 2%float, S w)
    else (Raise (Exception "cannot load"), S w)
|}.

End Demo2.

(** * Facts about binary64 comparison and division *)

Module FloatFacts.

(** The specification of floats is written with the core integer
    operations; this restates a goal with the library's names for them. *)
Ltac zfold :=
  change IntDef.Z.sub with Z.sub in *;
  change IntDef.Z.add with Z.add in *;
  change IntDef.Z.mul with Z.mul in *;
  change IntDef.Z.max with Z.max in *;
  change IntDef.Z.min with Z.min in *;
  change IntDef.Z.leb with Z.leb in *;
  change IntDef.Z.eqb with Z.eqb in *;
  change IntDef.Z.even with Z.even in *;
  change IntDef.Z.compare with Z.compare in *;
  change IntDef.Z.div_eucl with Z.div_eucl in *;
  change IntDef.Z.shiftl with Z.shiftl in *;
  change PosDef.Pos.succ with Pos.succ in *;
  change @PosDef.Pos.iter with @Pos.iter in *.

(** Splits the three-way comparisons of exponents and significands. *)
Ltac cmp_cases :=
  repeat match goal with
         | |- context [Z.compare ?a ?b] => destruct (Z.compare_spec a b)
         | H : context [Z.compare ?a ?b] |- _ => destruct (Z.compare_spec a b)
         | |- context [Pos.compare ?a ?b] => destruct (Pos.compare_spec a b)
         | H : context [Pos.compare ?a ?b] |- _ => destruct (Pos.compare_spec a b)
         end;
  simpl in *; subst; try discriminate; try reflexivity; try lia.

Ltac fold_pos_compare :=
  repeat match goal with
         | |- context [Pos.compare_cont Eq ?a ?b] =>
             change (Pos.compare_cont Eq a b) with (Pos.compare a b)
         | H : context [Pos.compare_cont Eq ?a ?b] |- _ =>
             change (Pos.compare_cont Eq a b) with (Pos.compare a b) in H
         end.

(** *** Order on specification floats *)

Lemma SFcompare_swap (x y : spec_float) :
  SFcompare y x = option_map CompOpp (SFcompare x y).
Proof.
  destruct x as [[]|[]| |[] mx ex], y as [[]|[]| |[] my ey]; simpl; try reflexivity;
    zfold; rewrite (Z.compare_antisym ex ey); destruct (ex ?= ey); simpl;
    try reflexivity; fold_pos_compare;
    rewrite (Pos.compare_antisym mx my); destruct (Pos.compare mx my); reflexivity.
Qed.

Lemma SFcompare_refl (x : spec_float) :
  x <> S754_nan -> SFcompare x x = Some Eq.
Proof.
  destruct x as [[]|[]| |[] mx ex]; simpl; try reflexivity; try congruence; intros _;
    zfold; rewrite Z.compare_refl; fold_pos_compare; now rewrite Pos.compare_refl.
Qed.

Lemma SFleb_refl_iff (x : spec_float) : SFleb x x = true <-> x <> S754_nan.
Proof.
  split.
  - intros H ->. discriminate.
  - intros H. unfold SFleb. now rewrite SFcompare_refl.
Qed.

Lemma SFleb_trans (x y z : spec_float) :
  SFleb x y = true -> SFleb y z = true -> SFleb x z = true.
Proof.
  unfold SFleb.
  destruct x as [[]|[]| |[] mx ex], y as [[]|[]| |[] my ey], z as [[]|[]| |[] mz ez];
    simpl; try reflexivity; try discriminate; intros H1 H2;
    zfold; fold_pos_compare; cmp_cases.
Qed.

Lemma SFltb_false_leb (x y : spec_float) :
  x <> S754_nan -> y <> S754_nan -> SFltb x y = false -> SFleb y x = true.
Proof.
  intros Hx Hy. unfold SFleb, SFltb. rewrite (SFcompare_swap x y).
  destruct (SFcompare x y) as [[]|] eqn:E; simpl; try reflexivity; try discriminate.
  destruct x as [[]|[]| |[] mx ex], y as [[]|[]| |[] my ey]; try congruence; discriminate.
Qed.

Lemma SFltb_leb (x y : spec_float) : SFltb x y = true -> SFleb x y = true.
Proof. unfold SFltb, SFleb. now destruct (SFcompare x y) as [[]|]. Qed.

Lemma SFltb_leb_false (x y : spec_float) : SFltb x y = true -> SFleb y x = false.
Proof.
  unfold SFltb, SFleb. rewrite (SFcompare_swap x y).
  now destruct (SFcompare x y) as [[]|].
Qed.

Lemma SFeqb_leb (x y : spec_float) :
  SFeqb x y = true -> SFleb x y = true /\ SFleb y x = true.
Proof.
  unfold SFeqb, SFleb. rewrite (SFcompare_swap x y).
  now destruct (SFcompare x y) as [[]|].
Qed.

Lemma SFeqb_ltb_false (x y : spec_float) : SFeqb x y = true -> SFltb y x = false.
Proof.
  unfold SFeqb, SFltb. rewrite (SFcompare_swap x y).
  now destruct (SFcompare x y) as [[]|].
Qed.

Lemma SFltb_irrefl (x : spec_float) : SFltb x x = false.
Proof.
  destruct x as [[]|[]| |[] mx ex]; try reflexivity; unfold SFltb; simpl;
    zfold; rewrite Z.compare_refl; fold_pos_compare; now rewrite Pos.compare_refl.
Qed.

Lemma SFleb_not_nan (x y : spec_float) :
  SFleb x y = true -> x <> S754_nan /\ y <> S754_nan.
Proof.
  destruct x as [[]|[]| |[] mx ex], y as [[]|[]| |[] my ey];
    try discriminate; intros _; split; discriminate.
Qed.

(** *** The same facts on primitive floats *)

Lemma leb_trans (x y z : float) :
  PrimFloat.leb x y = true -> PrimFloat.leb y z = true -> PrimFloat.leb x z = true.
Proof. rewrite !FloatAxioms.leb_spec. apply SFleb_trans. Qed.

Lemma ordered_key_iff (x : float) : ordered_key x <-> Prim2SF x <> S754_nan.
Proof. unfold ordered_key. rewrite FloatAxioms.leb_spec. apply SFleb_refl_iff. Qed.

Lemma leb_ordered (x y : float) :
  PrimFloat.leb x y = true -> ordered_key x /\ ordered_key y.
Proof.
  rewrite FloatAxioms.leb_spec. intros H. apply SFleb_not_nan in H.
  now rewrite !ordered_key_iff.
Qed.

Lemma ltb_false_leb (x y : float) :
  ordered_key x -> ordered_key y ->
  PrimFloat.ltb x y = false -> PrimFloat.leb y x = true.
Proof.
  rewrite !ordered_key_iff, FloatAxioms.ltb_spec, FloatAxioms.leb_spec. apply SFltb_false_leb.
Qed.

Lemma ltb_leb (x y : float) : PrimFloat.ltb x y = true -> PrimFloat.leb x y = true.
Proof. rewrite FloatAxioms.ltb_spec, FloatAxioms.leb_spec. apply SFltb_leb. Qed.

Lemma ltb_leb_false (x y : float) :
  PrimFloat.ltb x y = true -> PrimFloat.leb y x = false.
Proof. rewrite FloatAxioms.ltb_spec, FloatAxioms.leb_spec. apply SFltb_leb_false. Qed.

Lemma eqb_leb (x y : float) :
  PrimFloat.eqb x y = true -> PrimFloat.leb x y = true /\ PrimFloat.leb y x = true.
Proof. rewrite FloatAxioms.eqb_spec, !FloatAxioms.leb_spec. apply SFeqb_leb. Qed.

Lemma eqb_ltb_false (x y : float) :
  PrimFloat.eqb x y = true -> PrimFloat.ltb y x = false.
Proof. rewrite FloatAxioms.eqb_spec, FloatAxioms.ltb_spec. apply SFeqb_ltb_false. Qed.

Lemma ltb_irrefl (x : float) : PrimFloat.ltb x x = false.
Proof. rewrite FloatAxioms.ltb_spec. apply SFltb_irrefl. Qed.

Lemma eqb_refl_ordered (x : float) : ordered_key x -> PrimFloat.eqb x x = true.
Proof.
  rewrite ordered_key_iff, FloatAxioms.eqb_spec. intros H.
  unfold SFeqb. now rewrite SFcompare_refl.
Qed.

(** A key above a strictly greater one is not equal to what the smaller
    one equals. *)
Lemma eqb_above_false (x y z k : float) :
  PrimFloat.eqb x k = true -> PrimFloat.ltb x y = true ->
  PrimFloat.leb y z = true -> PrimFloat.eqb z k = false.
Proof.
  intros Hxk Hxy Hyz. destruct (PrimFloat.eqb z k) eqn:Hzk; [|reflexivity].
  apply eqb_leb in Hxk, Hzk. destruct Hxk as [_ Hkx], Hzk as [Hzk _].
  pose proof (leb_trans _ _ _ Hyz (leb_trans _ _ _ Hzk Hkx)) as Hyx.
  apply ltb_leb_false in Hxy. congruence.
Qed.


(** *** Division of two small integers *)

Lemma digits2_pos_bounds (p : positive) :
  2 ^ (Zpos (digits2_pos p) - 1) <= Zpos p < 2 ^ Zpos (digits2_pos p).
Proof.
  induction p as [p IH|p IH|]; simpl digits2_pos; zfold.
  - rewrite Pos2Z.inj_succ. replace (Z.succ (Zpos (digits2_pos p)) - 1) with (Z.succ (Zpos (digits2_pos p) - 1)) by lia.
    rewrite !Z.pow_succ_r by lia. lia.
  - rewrite Pos2Z.inj_succ. replace (Z.succ (Zpos (digits2_pos p)) - 1) with (Z.succ (Zpos (digits2_pos p) - 1)) by lia.
    rewrite !Z.pow_succ_r by lia. lia.
  - simpl. lia.
Qed.

Lemma digits2_pos_unique (p : positive) (d : Z) :
  2 ^ (d - 1) <= Zpos p < 2 ^ d -> Zpos (digits2_pos p) = d.
Proof.
  intros [Hlo Hhi]. pose proof (digits2_pos_bounds p) as [Blo Bhi].
  assert (0 < d). { destruct (Z_lt_le_dec 0 d); auto. 
    assert (2 ^ d <= 1). { destruct (Z.eq_dec d 0); subst; simpl; try lia. rewrite Z.pow_neg_r; lia. } lia. }
  destruct (Z_lt_le_dec (Zpos (digits2_pos p)) d).
  - assert (2 ^ Zpos (digits2_pos p) <= 2 ^ (d - 1)) by (apply Z.pow_le_mono_r; lia). lia.
  - destruct (Z_lt_le_dec d (Zpos (digits2_pos p))); try lia.
    assert (2 ^ d <= 2 ^ (Zpos (digits2_pos p) - 1)) by (apply Z.pow_le_mono_r; lia). lia.
Qed.

Lemma iter_xO_value (k m : positive) : Zpos (Pos.iter xO m k) = Zpos m * 2 ^ Zpos k.
Proof.
  induction k as [|k IH] using Pos.peano_ind.
  - simpl. lia.
  - rewrite Pos.iter_succ, Pos2Z.inj_succ, Z.pow_succ_r by lia.
    rewrite Pos2Z.inj_xO, IH. lia.
Qed.

(** A mantissa that already fills the 53-bit significand is left alone by the rounding step. *)
Lemma binary_round_aux_exact53 (M : positive) (E : Z) :
  Zpos (digits2_pos M) = 53 -> -1074 <= E <= 971 ->
  binary_round_aux prec emax false (Zpos M) E loc_Exact = S754_finite false M E.
Proof.
  intros HM HE. unfold binary_round_aux, shr_fexp, shr_record_of_loc. simpl Zdigits2. rewrite HM.
  assert (Hf : fexp prec emax (53 + E) - E = 0).
  { unfold fexp, SpecFloat.emin, prec, emax. zfold. lia. }
  zfold. rewrite Hf. cbn [shr shr_m loc_of_shr_record round_nearest_even Zdigits2].
  rewrite HM, Hf. cbn [shr shr_m].
  assert (Hle : (E <=? emax - prec) = true) by (apply Z.leb_le; unfold emax, prec; lia).
  rewrite Hle. reflexivity.
Qed.

Lemma binary_normalize_small (n : positive) :
  Zpos n < 2 ^ 53 ->
  exists M, binary_normalize prec emax (Zpos n) 0 false
            = S754_finite false M (Zpos (digits2_pos n) - 53)
         /\ Zpos M = Zpos n * 2 ^ (53 - Zpos (digits2_pos n))
         /\ Zpos (digits2_pos M) = 53.
Proof.
  intros Hn. pose proof (digits2_pos_bounds n) as [Blo Bhi].
  set (d := Zpos (digits2_pos n)) in *.
  assert (Hd : 1 <= d <= 53).
  { split; [subst d; lia|]. destruct (Z_lt_le_dec 53 d); try lia.
    assert (2 ^ 53 <= 2 ^ (d - 1)) by (apply Z.pow_le_mono_r; lia). lia. }
  unfold binary_normalize, binary_round, shl_align. zfold. fold d.
  assert (Hf : fexp prec emax (d + 0) = d - 53).
  { unfold fexp, SpecFloat.emin, prec, emax. zfold. lia. }
  rewrite Hf. 
  destruct (Z.eq_dec d 53) as [E53|N53].
  - rewrite E53. simpl Z.sub. exists n. rewrite binary_round_aux_exact53; try (fold d; lia). 
    repeat split; try (fold d; lia). 
  - remember (d - 53 - 0) as s eqn:Hs. destruct s as [|s|s]; try lia.
    exists (Pos.iter xO n s).
    assert (HM : Zpos (Pos.iter xO n s) = Zpos n * 2 ^ (53 - d)).
    { rewrite iter_xO_value. f_equal. f_equal. lia. }
    assert (HD : Zpos (digits2_pos (Pos.iter xO n s)) = 53).
    { apply digits2_pos_unique. rewrite HM. 
      replace (2 ^ (53 - 1)) with (2 ^ (d - 1) * 2 ^ (53 - d)) by (rewrite <- Z.pow_add_r by lia; f_equal; lia).
      replace (2 ^ 53) with (2 ^ d * 2 ^ (53 - d)) by (rewrite <- Z.pow_add_r by lia; f_equal; lia).
      assert (0 < 2 ^ (53 - d)) by (apply Z.pow_pos_nonneg; lia). nia. }
    rewrite binary_round_aux_exact53; auto; try lia.
Qed.

Lemma round_nearest_even_range (q : Z) (l : location) :
  q <= round_nearest_even q l <= q + 1.
Proof.
  destruct l as [|[]]; simpl; zfold; try lia. destruct (Z.even q); lia.
Qed.

Lemma loc_of_shr_record_of_loc (q : Z) (l : location) :
  loc_of_shr_record (shr_record_of_loc q l) = l.
Proof. destruct l as [|[]]; reflexivity. Qed.

Lemma shr_m_record_of_loc (q : Z) (l : location) :
  shr_m (shr_record_of_loc q l) = q.
Proof. destruct l as [|[]]; reflexivity. Qed.

(** The last step of [binary_round_aux] on a rounded significand that has 53
    bits, or is exactly [2^53] after a carry. *)
Lemma round_carry_step (q e : Z) :
  2 ^ 52 <= q <= 2 ^ 53 -> -1074 <= e <= 900 ->
  exists m e2,
    (let '(mrs, e1) := shr_fexp prec emax q e loc_Exact in
     match shr_m mrs with
     | Z0 => S754_zero false
     | Zpos m => if Z.leb e1 (emax - prec) then S754_finite false m e1 else S754_infinity false
     | Zneg _ => S754_nan
     end) = S754_finite false m e2
    /\ ((q < 2 ^ 53 /\ Zpos m = q /\ e2 = e) \/ (q = 2 ^ 53 /\ Zpos m = 2 ^ 52 /\ e2 = e + 1)).
Proof.
  intros Hq He. destruct q as [|qp|qp]; try lia.
  destruct (Z_lt_le_dec (Zpos qp) (2 ^ 53)) as [Hlt|Hge].
  - assert (HD : Zpos (digits2_pos qp) = 53) by (apply digits2_pos_unique; simpl Z.sub; lia).
    exists qp, e. split; [|left; auto].
    unfold shr_fexp. cbn [Zdigits2 shr_record_of_loc]. rewrite HD.
    assert (Hf : fexp prec emax (53 + e) - e = 0).
    { unfold fexp, SpecFloat.emin, prec, emax. zfold. lia. }
    zfold. rewrite Hf. cbn [shr shr_m].
    assert (Hle : (e <=? emax - prec) = true) by (apply Z.leb_le; unfold emax, prec; lia).
    now rewrite Hle.
  - assert (Hq2 : Zpos qp = 2 ^ 53) by lia.
    exists (4503599627370496%positive), (e + 1). split; [|right; repeat split; auto].
    change (2 ^ 53) with (Zpos 9007199254740992) in Hq2. injection Hq2 as ->.
    unfold shr_fexp. cbn [Zdigits2 shr_record_of_loc].
    change (Zpos (digits2_pos 9007199254740992)) with 54.
    assert (Hf : fexp prec emax (54 + e) - e = 1).
    { unfold fexp, SpecFloat.emin, prec, emax. zfold. lia. }
    zfold. rewrite Hf. cbn [shr iter_pos shr_1 shr_m orb].
    assert (Hle : (e + 1 <=? emax - prec) = true) by (apply Z.leb_le; unfold emax, prec; lia).
    now rewrite Hle.
Qed.

(** Rounding a quotient significand of 53 or 54 bits: the exponent grows by at
    most two, and a grown exponent past the 53-bit case means the power of two. *)
Lemma binary_round_aux_quotient (q e : Z) (l : location) :
  2 ^ 52 <= q < 2 ^ 54 -> -1074 <= e <= 800 ->
  exists m e2,
    binary_round_aux prec emax false q e l = S754_finite false m e2
    /\ ((q < 2 ^ 53 /\ (e2 = e \/ (e2 = e + 1 /\ Zpos m = 2 ^ 52)))
        \/ (2 ^ 53 <= q /\ (e2 = e + 1 \/ (e2 = e + 2 /\ Zpos m = 2 ^ 52)))).
Proof.
  intros Hq He. destruct q as [|qp|qp]; try lia.
  unfold binary_round_aux.
  destruct (Z_lt_le_dec (Zpos qp) (2 ^ 53)) as [Hlt|Hge].
  - assert (HD : Zpos (digits2_pos qp) = 53) by (apply digits2_pos_unique; simpl Z.sub; lia).
    unfold shr_fexp at 1. cbn [Zdigits2]. rewrite HD.
    assert (Hf : fexp prec emax (53 + e) - e = 0).
    { unfold fexp, SpecFloat.emin, prec, emax. zfold. lia. }
    zfold. rewrite Hf. cbn [shr]. rewrite loc_of_shr_record_of_loc, shr_m_record_of_loc.
    pose proof (round_nearest_even_range (Zpos qp) l) as Hr.
    destruct (round_carry_step (round_nearest_even (Zpos qp) l) e) as (m & e2 & Heq & Hc); try lia.
    exists m, e2. split; [exact Heq|]. left. split; [lia|].
    destruct Hc as [(_ & _ & ->)|(_ & Hm & ->)]; auto.
  - unfold shr_fexp at 1. cbn [Zdigits2].
    assert (HD : Zpos (digits2_pos qp) = 54) by (apply digits2_pos_unique; simpl Z.sub; lia).
    rewrite HD.
    assert (Hf : fexp prec emax (54 + e) - e = 1).
    { unfold fexp, SpecFloat.emin, prec, emax. zfold. lia. }
    zfold. rewrite Hf. cbn [shr iter_pos].
    set (mrs := shr_1 (shr_record_of_loc (Zpos qp) l)).
    assert (Hm : 2 ^ 52 <= shr_m mrs < 2 ^ 53).
    { subst mrs. destruct l as [|[]]; destruct qp; cbn [shr_record_of_loc shr_1 shr_m]; lia. }
    pose proof (round_nearest_even_range (shr_m mrs) (loc_of_shr_record mrs)) as Hr.
    destruct (round_carry_step (round_nearest_even (shr_m mrs) (loc_of_shr_record mrs)) (e + 1))
      as (m & e2 & Heq & Hc); try lia.
    exists m, e2. split; [exact Heq|]. right. split; [lia|].
    destruct Hc as [(_ & _ & ->)|(_ & Hm2 & ->)]; [left; auto|right; split; [lia|auto]].
Qed.

Abbreviation SF_one := (S754_finite false 4503599627370496 (-52)).

Lemma Prim2SF_one : Prim2SF 1%float = SF_one.
Proof. reflexivity. Qed.

Lemma SFleb_below_one (m : positive) (e : Z) :
  e < -52 \/ (e = -52 /\ Zpos m = 2 ^ 52) ->
  SFleb (S754_finite false m e) SF_one = true.
Proof.
  intros H. unfold SFleb. cbn [SFcompare]. zfold.
  destruct (Z.compare_spec e (-52)) as [He|He|He]; try reflexivity; try lia.
  destruct H as [H|[_ Hm]]; try lia.
  change (2 ^ 52) with (Zpos 4503599627370496) in Hm. injection Hm as ->. reflexivity.
Qed.

Lemma div_eucl_pair (a b : Z) : Z.div_eucl a b = (a / b, a mod b).
Proof. unfold Z.div, Z.modulo. now destruct (Z.div_eucl a b). Qed.

Lemma new_location_zero (n : Z) : new_location n 0 = loc_Exact.
Proof. unfold new_location, new_location_even, new_location_odd. now destruct (IntDef.Z.even n). Qed.

(** Quotient of two positive 53-bit significands with close exponents. *)
Lemma SFdiv_finite53 (M1 M2 : positive) (E1 E2 : Z) :
  Zpos (digits2_pos M1) = 53 -> Zpos (digits2_pos M2) = 53 ->
  -60 <= E1 - E2 <= 60 ->
  SFdiv prec emax (S754_finite false M1 E1) (S754_finite false M2 E2)
  = binary_round_aux prec emax false ((Zpos M1 * 2 ^ 53) / Zpos M2) (E1 - E2 - 53)
      (new_location (Zpos M2) ((Zpos M1 * 2 ^ 53) mod Zpos M2)).
Proof.
  intros H1 H2 HE. unfold SFdiv, SFdiv_core_binary. cbn [Zdigits2 xorb]. rewrite H1, H2. zfold.
  assert (Hf : Z.min (fexp prec emax (53 + E1 - (53 + E2))) (E1 - E2) = E1 - E2 - 53).
  { unfold fexp, SpecFloat.emin, prec, emax. zfold. lia. }
  rewrite Hf. replace (E1 - E2 - (E1 - E2 - 53)) with 53 by lia.
  rewrite Z.shiftl_mul_pow2 by lia. rewrite div_eucl_pair. reflexivity.
Qed.

Lemma SFdiv_int_bounds (m n : Z) :
  0 <= m <= n -> 0 < n < 2 ^ 53 ->
  let r := SFdiv prec emax (binary_normalize prec emax m 0 false)
                           (binary_normalize prec emax n 0 false) in
  SFleb (S754_zero false) r = true /\ SFleb r SF_one = true.
Proof.
  intros Hm Hn. destruct n as [|n|n]; try lia.
  destruct (binary_normalize_small n) as (M2 & EQ2 & V2 & D2); [lia|].
  cbv zeta. rewrite EQ2.
  destruct m as [|m|m]; try lia.
  - cbn. split; reflexivity.
  - destruct (binary_normalize_small m) as (M1 & EQ1 & V1 & D1); [lia|].
    rewrite EQ1.
    pose proof (digits2_pos_bounds m) as [Bm1 Bm2].
    pose proof (digits2_pos_bounds n) as [Bn1 Bn2].
    pose proof (digits2_pos_bounds M1) as [BM1 BM1'].
    pose proof (digits2_pos_bounds M2) as [BM2 BM2'].
    rewrite D1 in BM1, BM1'. rewrite D2 in BM2, BM2'. simpl Z.sub in BM1, BM2.
    set (dm := Zpos (digits2_pos m)) in *. set (dn := Zpos (digits2_pos n)) in *.
    assert (Hdm : 1 <= dm) by (subst dm; lia).
    assert (Hdn : dn <= 53).
    { destruct (Z_lt_le_dec 53 dn); try lia.
      assert (2 ^ 53 <= 2 ^ (dn - 1)) by (apply Z.pow_le_mono_r; lia). lia. }
    assert (Hd : dm <= dn).
    { destruct (Z_lt_le_dec dn dm); try lia.
      assert (2 ^ dn <= 2 ^ (dm - 1)) by (apply Z.pow_le_mono_r; lia). lia. }
    rewrite SFdiv_finite53 by (auto; lia).
    set (q := Zpos M1 * 2 ^ 53 / Zpos M2).
    assert (Hq : 2 ^ 52 <= q < 2 ^ 54).
    { subst q. split.
      - apply Z.div_le_lower_bound; lia.
      - apply Z.div_lt_upper_bound; lia. }
    destruct (Z.eq_dec (Zpos m) (Zpos n)) as [Hmn|Hmn].
    + injection Hmn as Hmn. subst m.
      assert (HM : Zpos M1 = Zpos M2) by (rewrite V1, V2; reflexivity).
      subst q. rewrite HM, (Z.mul_comm (Zpos M2) (2 ^ 53)). rewrite Z.div_mul, Z.mod_mul by lia.
      rewrite new_location_zero.
      replace (dm - 53 - (dn - 53) - 53) with (-53) by (subst dm dn; lia).
      split; reflexivity.
    + destruct (binary_round_aux_quotient q (dm - 53 - (dn - 53) - 53)
                  (new_location (Zpos M2) (Zpos M1 * 2 ^ 53 mod Zpos M2)))
        as (mr & er & EQ & Hcase); try lia.
      rewrite EQ. split; [reflexivity|].
      apply SFleb_below_one.
      destruct (Z.eq_dec dm dn) as [Hdd|Hdd].
      * assert (HMlt : Zpos M1 < Zpos M2).
        { rewrite V1, V2, Hdd. assert (0 < 2 ^ (53 - dn)) by (apply Z.pow_pos_nonneg; lia). nia. }
        assert (q < 2 ^ 53) by (subst q; apply Z.div_lt_upper_bound; lia).
        destruct Hcase as [(_ & [->|(-> & Hmr)])|(? & _)]; lia.
      * destruct Hcase as [(_ & [->|(-> & Hmr)])|(_ & [->|(-> & Hmr)])]; lia.
Qed.

Lemma float_of_int_spec (z : Z) :
  0 <= z < 2 ^ 63 ->
  Prim2SF (float_of_int z) = binary_normalize prec emax z 0 false.
Proof.
  intros Hz. unfold float_of_int. rewrite of_uint63_spec.
  change (Uint63Axioms.to_Z (of_Z z)) with (Uint63.to_Z (of_Z z)).
  rewrite Uint63.of_Z_spec. rewrite Z.mod_small; [reflexivity|].
  change wB with (2 ^ 63). lia.
Qed.

(** The quotient of two integers [0 <= m <= n], [n] positive and below
    [2^53], is a float between 0 and 1. *)
Lemma truediv_unit_interval (m n : Z) :
  0 <= m <= n -> 0 < n < 2 ^ 53 ->
  PrimFloat.leb 0%float (PrimFloat.div (float_of_int m) (float_of_int n)) = true
  /\ PrimFloat.leb (PrimFloat.div (float_of_int m) (float_of_int n)) 1%float = true.
Proof.
  intros Hm Hn. rewrite !FloatAxioms.leb_spec, FloatAxioms.div_spec.
  rewrite !float_of_int_spec by lia.
  change (Prim2SF 0%float) with (S754_zero false). rewrite Prim2SF_one.
  exact (SFdiv_int_bounds m n Hm Hn).
Qed.

End FloatFacts.

(** * Facts about [list.sort] *)

Module SortFacts.
Import FloatFacts.

Section Sorting.
Context {A : Type} (key : A -> float).

Local Abbreviation sorted_asc := (sorted_asc key).
Local Abbreviation tie := (tie key).
Local Abbreviation ordered_keys := (ordered_keys key).

Lemma insort_perm (x : A) (l : list A) : Permutation (x :: l) (insort key x l).
Proof.
  induction l as [|y l IH]; simpl; [reflexivity|].
  destruct (PrimFloat.ltb (key x) (key y)); [reflexivity|].
  rewrite perm_swap. now apply perm_skip.
Qed.

Lemma insort_Forall (P : A -> Prop) (x : A) (l : list A) :
  P x -> Forall P l -> Forall P (insort key x l).
Proof.
  intros Hx Hl. eapply Permutation_Forall; [apply insort_perm|]. now constructor.
Qed.

Lemma insort_sorted (x : A) (l : list A) :
  ordered_key (key x) -> ordered_keys l -> sorted_asc l ->
  sorted_asc (insort key x l).
Proof.
  intros Hx Hl Hs. induction l as [|y l IH]; simpl.
  - constructor; constructor.
  - inversion Hl as [|? ? Hy Hl']; subst.
    apply StronglySorted_inv in Hs as [Hs Hyl].
    destruct (PrimFloat.ltb (key x) (key y)) eqn:E.
    + constructor; [now constructor|].
      apply ltb_leb in E. constructor; [exact E|].
      eapply Forall_impl; [|exact Hyl]. intros z Hz. eapply leb_trans; eauto.
    + constructor; [now apply IH|].
      apply insort_Forall; [|exact Hyl]. now apply ltb_false_leb.
Qed.

Lemma filter_tie_above (k : float) (x y : A) (l : list A) :
  tie k x = true -> PrimFloat.ltb (key x) (key y) = true ->
  Forall (fun z => PrimFloat.leb (key y) (key z) = true) l ->
  filter (tie k) l = [].
Proof.
  intros Hx Hxy Hl. induction Hl as [|z l Hz Hl IH]; [reflexivity|].
  cbn [filter]. unfold tie at 1.
  now rewrite (eqb_above_false (key x) (key y) (key z) k Hx Hxy Hz).
Qed.

(** An inserted element goes behind the elements of its own key. *)
Lemma insort_tie (k : float) (x : A) (l : list A) :
  sorted_asc l ->
  filter (tie k) (insort key x l) = filter (tie k) l ++ filter (tie k) [x].
Proof.
  intros Hs. induction l as [|y l IH]; [reflexivity|].
  apply StronglySorted_inv in Hs as [Hs Hyl]. cbn [insort].
  destruct (PrimFloat.ltb (key x) (key y)) eqn:E.
  - cbn [filter app]. destruct (tie k x) eqn:Hx.
    + assert (Hy : PrimFloat.leb (key y) (key y) = true).
      { apply ltb_leb in E. now apply leb_ordered in E. }
      assert (Hnone : filter (tie k) (y :: l) = [])
        by (apply (filter_tie_above k x y); auto).
      cbn [filter] in Hnone. now rewrite Hnone.
    + now rewrite app_nil_r.
  - cbn [filter]. rewrite (IH Hs). now destruct (tie k y).
Qed.

Lemma sort_ascending_acc (l acc : list A) :
  ordered_keys acc -> ordered_keys l -> sorted_asc acc ->
  let out := fold_left (fun a x => insort key x a) l acc in
  sorted_asc out
  /\ Permutation (acc ++ l) out
  /\ forall k, filter (tie k) out = filter (tie k) acc ++ filter (tie k) l.
Proof.
  revert acc. induction l as [|x l IH]; intros acc Hacc Hl Hs; cbn [fold_left].
  - cbv zeta. split; [exact Hs|]. split; [now rewrite app_nil_r|].
    intros k. now rewrite app_nil_r.
  - inversion Hl as [|? ? Hx Hl']; subst.
    destruct (IH (insort key x acc)) as (S1 & P1 & T1);
      [now apply insort_Forall|exact Hl'|now apply insort_sorted|].
    cbv zeta. split; [exact S1|]. split.
    + rewrite <- P1, <- insort_perm. symmetry. apply Permutation_middle.
    + intros k. rewrite T1, insort_tie by exact Hs. cbn [filter].
      destruct (tie k x); rewrite <- app_assoc; reflexivity.
Qed.

Lemma sort_ascending_spec (l : list A) :
  ordered_keys l ->
  sorted_asc (sort_ascending key l)
  /\ Permutation l (sort_ascending key l)
  /\ forall k, filter (tie k) (sort_ascending key l) = filter (tie k) l.
Proof.
  intros Hl. destruct (sort_ascending_acc l [] (Forall_nil _) Hl (SSorted_nil _))
    as (S1 & P1 & T1).
  repeat split; auto.
Qed.

Lemma sorted_desc_snoc (l : list A) (x : A) :
  sorted_desc key l -> Forall (fun y => PrimFloat.leb (key x) (key y) = true) l ->
  sorted_desc key (l ++ [x]).
Proof.
  unfold sorted_desc. induction l as [|y l IH]; intros Hs Hx; simpl.
  - constructor; constructor.
  - apply StronglySorted_inv in Hs as [Hs Hy]. inversion Hx; subst.
    constructor; [now apply IH|].
    apply Forall_app. split; [exact Hy|]. now constructor.
Qed.

Lemma sorted_asc_rev (l : list A) : sorted_asc l -> sorted_desc key (rev l).
Proof.
  induction l as [|x l IH]; intros Hs; simpl; [constructor|].
  apply StronglySorted_inv in Hs as [Hs Hx].
  apply sorted_desc_snoc; [now apply IH|]. now apply Forall_rev.
Qed.

(** What [sort(key=..., reverse=True)] guarantees when no key is NaN. *)
Lemma list_sort_reverse_spec (l : list A) :
  ordered_keys l ->
  sorted_desc key (list_sort key true l)
  /\ Permutation l (list_sort key true l)
  /\ ties_in_order key l (list_sort key true l).
Proof.
  intros Hl. unfold list_sort.
  destruct (sort_ascending_spec (rev l)) as (S1 & P1 & T1); [now apply Forall_rev|].
  split; [now apply sorted_asc_rev|]. split.
  - rewrite <- Permutation_rev, <- P1. apply Permutation_rev.
  - intros k. fold (tie k). rewrite filter_rev, T1, filter_rev. apply rev_involutive.
Qed.

End Sorting.
End SortFacts.

(** * Facts about the handlers *)

Module HandlerFacts.
Import DeepfaceServer.

Section Monad.
Context {C : Capabilities}.

Lemma bind_ok {A B : Type} (m : M A) (k : A -> M B) (w w' : world) (a : A) :
  m w = (Ok a, w') -> bind m k w = k a w'.
Proof. unfold bind. now intros ->. Qed.

Lemma bind_raise {A B : Type} (m : M A) (k : A -> M B) (w w' : world) (e : exn) :
  m w = (Raise e, w') -> bind m k w = (Raise e, w').
Proof. unfold bind. now intros ->. Qed.

Lemma try_ok {A : Type} (body : M A) (h : exn -> M A) (w w' : world) (a : A) :
  body w = (Ok a, w') -> try_except body h w = (Ok a, w').
Proof. unfold try_except. now intros ->. Qed.

Lemma try_raise {A : Type} (body : M A) (h : exn -> M A) (w w' : world) (e : exn) :
  body w = (Raise e, w') -> try_except body h w = h e w'.
Proof. unfold try_except. now intros ->. Qed.

Lemma bind_inv {A B : Type} (m : M A) (k : A -> M B) (w w' : world) (b : B) :
  bind m k w = (Ok b, w') ->
  exists a w1, m w = (Ok a, w1) /\ k a w1 = (Ok b, w').
Proof.
  unfold bind. destruct (m w) as [[a|e] w1]; [|discriminate]. intros H. eauto.
Qed.

Lemma len_cons_nonzero {A : Type} (x : A) (l : list A) : Z.eqb (len (x :: l)) 0 = false.
Proof. apply Z.eqb_neq. unfold len. simpl List.length. lia. Qed.

Lemma len_nonneg {A : Type} (l : list A) : 0 <= len l.
Proof. unfold len. lia. Qed.

Lemma len_filter_le {A : Type} (f : A -> bool) (l : list A) : len (filter f l) <= len l.
Proof. unfold len. pose proof (filter_length_le f l). lia. Qed.

End Monad.

Section Batch.
Context {C : Capabilities}.
Variables (target_array : ndarray) (model detector metrics : string) (threshold : float).

Lemma process_candidate_eq (url : json) (w : world) :
  process_candidate target_array model detector metrics threshold url w
  = match compare_candidate target_array model detector metrics threshold url w with
    | (Ok entry, w') => (Ok entry, w')
    | (Raise e, w') => (Ok (error_entry url e), w')
    end.
Proof. reflexivity. Qed.

Lemma process_candidate_total (url : json) (w : world) :
  exists entry w',
    process_candidate target_array model detector metrics threshold url w
    = (Ok entry, w')
    /\ entry_of_candidate target_array model detector metrics threshold url entry.
Proof.
  rewrite process_candidate_eq.
  destruct (compare_candidate target_array model detector metrics threshold url w)
    as [[entry|e] w'] eqn:E.
  - exists entry, w'. split; [reflexivity|]. exists w, w'.
    rewrite process_candidate_eq, E. auto.
  - exists (error_entry url e), w'. split; [reflexivity|]. exists w, w'.
    rewrite process_candidate_eq, E. auto.
Qed.

Lemma compare_candidate_inv (url : json) (w w' : world) (entry : batch_entry) :
  compare_candidate target_array model detector metrics threshold url w
  = (Ok entry, w') ->
  exists img vd w1,
    load_image_from_url url w = (Ok img, w1)
    /\ DeepFace_verify target_array img model detector metrics false w1 = (Ok vd, w')
    /\ entry = {| be_url := url;
                  be_verified :=
                    PrimFloat.ltb threshold
                      (PrimFloat.sub 1%float (get (vd_distance vd) 1%float));
                  be_distance := get (vd_distance vd) 1%float;
                  be_similarity := PrimFloat.sub 1%float (get (vd_distance vd) 1%float);
                  be_match := get (vd_verified vd) false;
                  be_error := None |}.
Proof.
  unfold compare_candidate. intros H.
  apply bind_inv in H as (img & w1 & Hload & H).
  apply bind_inv in H as (vd & w2 & Hver & H).
  unfold ret in H. injection H as <- <-. eauto 6.
Qed.

Lemma entry_url (url : json) (entry : batch_entry) :
  entry_of_candidate target_array model detector metrics threshold url entry ->
  be_url entry = url.
Proof.
  intros (w0 & w1 & _ & H).
  destruct (compare_candidate target_array model detector metrics threshold url w0)
    as [[compared|e] w2] eqn:E; subst entry; [|reflexivity].
  apply compare_candidate_inv in E as (img & vd & w3 & _ & _ & ->). reflexivity.
Qed.

Lemma batch_loop_spec (urls : list json) (acc : list batch_entry) (w : world) :
  exists rs w',
    batch_loop target_array model detector metrics threshold urls acc w
    = (Ok (acc ++ rs), w')
    /\ Forall2 (entry_of_candidate target_array model detector metrics threshold)
         urls rs.
Proof.
  revert acc w. induction urls as [|url urls IH]; intros acc w; cbn [batch_loop].
  - exists [], w. rewrite app_nil_r. split; [reflexivity|constructor].
  - destruct (process_candidate_total url w) as (entry & w1 & Hp & He).
    destruct (IH (acc ++ [entry]) w1) as (rs & w' & Hl & Hf).
    exists (entry :: rs), w'. split.
    + rewrite (bind_ok _ _ _ _ _ Hp), Hl. now rewrite <- app_assoc.
    + now constructor.
Qed.

Lemma rate_or_zero_truediv (a : Z) (urls : list json) (w : world) :
  rate_or_zero (int_truediv a) urls w
  = (Ok match urls with
        | [] => PyInt 0
        | _ :: _ => PyFloat (PrimFloat.div (float_of_int a) (float_of_int (len urls)))
        end, w).
Proof.
  destruct urls as [|u urls]; [reflexivity|].
  unfold rate_or_zero, bind, lift, ret, int_truediv. now rewrite len_cons_nonzero.
Qed.

Lemma rate_or_zero_float_div (x : float) (urls : list json) (w : world) :
  rate_or_zero (float_div_int x) urls w
  = (Ok match urls with
        | [] => PyInt 0
        | _ :: _ => PyFloat (PrimFloat.div x (float_of_int (len urls)))
        end, w).
Proof.
  destruct urls as [|u urls]; [reflexivity|].
  unfold rate_or_zero, bind, lift, ret, float_div_int. now rewrite len_cons_nonzero.
Qed.

End Batch.

Section BatchVerify.
Context {C : Capabilities}.

(** A batch request whose target loads and whose URL list parses is
    answered, and the answer is built from one loop turn per URL. *)
Lemma batch_verify_runs (target_image : UploadFile) (image_urls : string)
    (model detector metrics : string) (threshold : float)
    (w w1 : world) (img : ndarray) (urls : list json) :
  DEEPFACE_AVAILABLE = true ->
  load_image_from_file target_image w = (Ok img, w1) ->
  json_loads image_urls = Ok (Jarray urls) ->
  exists resp w',
    batch_verify target_image image_urls model detector metrics threshold w
    = (Ok resp, w')
    /\ br_success resp = true
    /\ Forall2 (entry_of_candidate img model detector metrics threshold)
         urls (br_results resp)
    /\ bs_total_images (br_summary resp) = len urls
    /\ bs_matches (br_summary resp) = len (filter be_verified (br_results resp))
    /\ bs_match_rate (br_summary resp)
       = match urls with
         | [] => PyInt 0
         | _ :: _ =>
             PyFloat (PrimFloat.div (float_of_int (bs_matches (br_summary resp)))
                        (float_of_int (len urls)))
         end
    /\ bs_avg_time_per_image (br_summary resp)
       = match urls with
         | [] => PyInt 0
         | _ :: _ =>
             PyFloat (PrimFloat.div (bs_processing_time (br_summary resp))
                        (float_of_int (len urls)))
         end
    /\ br_threshold resp = threshold.
Proof.
  intros Hav Hload Hjson. unfold batch_verify. rewrite Hav. cbn [negb].
  destruct (time_time w1) as [t0 w2] eqn:Ht0.
  destruct (batch_loop_spec img model detector metrics threshold urls [] w2)
    as (rs & w3 & Hloop & Hall).
  cbn [app] in Hloop.
  destruct (time_time w3) as [t1 w4] eqn:Ht1.
  eexists. exists w4. split.
  - apply try_ok. rewrite (bind_ok _ _ _ _ _ Hload).
    unfold lift at 1. unfold bind at 1. rewrite Hjson.
    unfold now at 1. unfold bind at 1. rewrite Ht0.
    rewrite (bind_ok _ _ _ _ _ Hloop).
    unfold now at 1. unfold bind at 1. rewrite Ht1.
    unfold bind at 1. rewrite rate_or_zero_truediv.
    unfold bind at 1. rewrite rate_or_zero_float_div.
    reflexivity.
  - cbn. repeat split; auto.
Qed.

(** Only such requests are answered. *)
Lemma batch_verify_inv (target_image : UploadFile) (image_urls : string)
    (model detector metrics : string) (threshold : float)
    (w w' : world) (resp : batch_response) :
  batch_verify target_image image_urls model detector metrics threshold w
  = (Ok resp, w') ->
  DEEPFACE_AVAILABLE = true
  /\ exists img w1 urls,
       load_image_from_file target_image w = (Ok img, w1)
       /\ json_loads image_urls = Ok (Jarray urls).
Proof.
  unfold batch_verify. destruct DEEPFACE_AVAILABLE; cbn [negb]; [|discriminate].
  intros H. split; [reflexivity|].
  unfold try_except in H.
  match type of H with
  | match ?body w with _ => _ end = _ => destruct (body w) as [[r|e] w2] eqn:E
  end; [|discriminate].
  apply bind_inv in E as (img & w1 & Hload & E).
  apply bind_inv in E as (parsed & w3 & Hjson & E).
  unfold lift in Hjson. injection Hjson as Hjson <-.
  destruct parsed; try discriminate. eauto.
Qed.

End BatchVerify.
End HandlerFacts.

Module MatchingFacts.
Import FaceMatching FaceMatchingService HandlerFacts FloatFacts SortFacts.

Section Service.
Context {C : Capabilities}.

(** A similarity that passed the threshold test. *)
Local Abbreviation passed :=
  (fun m : match_entry => PrimFloat.leb FACE_MATCH_THRESHOLD (me_similarity m) = true).

Lemma extract_face_encoding_total (image_bytes : list Byte.byte) (w : world) :
  exists found w',
    FaceMatchingService.extract_face_encoding image_bytes w = (Ok found, w').
Proof.
  unfold FaceMatchingService.extract_face_encoding, try_except.
  match goal with
  | |- context [match ?body w with _ => _ end] => destruct (body w) as [[r|e] w1]
  end; [eauto|].
  unfold bind, say, ret. eauto.
Qed.

Lemma first_match_passed (enc : encoding) (ev : event_image) (encs : list encoding)
    (w w' : world) (m : match_entry) :
  first_match enc ev encs w = (Ok (Some m), w') -> passed m.
Proof.
  revert w. induction encs as [|e encs IH]; intros w; cbn [first_match].
  - unfold ret. discriminate.
  - intros H. apply bind_inv in H as (ds & w1 & _ & H).
    apply bind_inv in H as (d & w2 & _ & H).
    destruct (PrimFloat.leb FACE_MATCH_THRESHOLD (PrimFloat.sub 1%float d)) eqn:E.
    + apply bind_inv in H as (fid & w3 & _ & H).
      apply bind_inv in H as (furl & w4 & _ & H).
      apply bind_inv in H as (fname & w5 & _ & H).
      unfold ret in H. injection H as <- _. exact E.
    + eapply IH; eauto.
Qed.

Lemma match_event_image_passed (enc : encoding) (ev : event_image)
    (w w' : world) (m : match_entry) :
  match_event_image enc ev w = (Ok (Some m), w') -> passed m.
Proof.
  unfold match_event_image. intros H.
  apply bind_inv in H as (url & w1 & _ & H).
  apply bind_inv in H as (bytes & w2 & _ & H).
  destruct bytes as [[|b bs]|]; try (unfold ret in H; discriminate).
  apply bind_inv in H as (i1 & w3 & _ & H).
  apply bind_inv in H as (i2 & w4 & _ & H).
  apply bind_inv in H as (locs & w5 & _ & H).
  apply bind_inv in H as (encs & w6 & _ & H).
  eapply first_match_passed; eauto.
Qed.

Lemma collect_matches_total (enc : encoding) (evs : list event_image)
    (acc : list match_entry) (w : world) :
  exists l w',
    collect_matches enc evs acc w = (Ok l, w')
    /\ (Forall passed acc -> Forall passed l).
Proof.
  revert acc w. induction evs as [|ev evs IH]; intros acc w; cbn [collect_matches].
  - exists acc, w. split; [reflexivity|auto].
  - unfold bind at 1, try_except.
    destruct (match_event_image enc ev w) as [[[m|]|e] w1] eqn:E.
    + destruct (IH (acc ++ [m]) w1) as (l & w' & Hl & Hp).
      exists l, w'. split; [exact Hl|]. intros Hacc. apply Hp.
      apply Forall_app. split; [exact Hacc|]. constructor; [|constructor].
      eapply match_event_image_passed; eauto.
    + destruct (IH acc w1) as (l & w' & Hl & Hp). eauto.
    + unfold bind at 1, say, ret.
      match goal with
      | |- context [collect_matches enc evs acc ?w2] =>
          destruct (IH acc w2) as (l & w' & Hl & Hp)
      end.
      exists l, w'. split; [exact Hl|exact Hp].
Qed.

Lemma passed_ordered (l : list match_entry) :
  Forall passed l -> ordered_keys me_similarity l.
Proof.
  apply Forall_impl. intros m H. now apply leb_ordered in H.
Qed.

End Service.
End MatchingFacts.

(** * The claims *)

Import DeepfaceServer HandlerFacts.

(** Entries built by the loop carry the URLs in the order of the loop. *)
Lemma entries_follow_urls {C : Capabilities} (img : ndarray)
    (model detector metrics : string) (threshold : float)
    (urls : list json) (rs : list batch_entry) :
  Forall2 (entry_of_candidate img model detector metrics threshold) urls rs ->
  map be_url rs = urls.
Proof.
  induction 1 as [|url entry urls rs He _ IH]; [reflexivity|].
  cbn [map]. rewrite IH. f_equal. eapply entry_url; eauto.
Qed.

(** C1, as the code has it.  The [results] of [/api/batch-verify] stand in
    the order of the input list: entry [i] is the entry of URL [i], and no
    sort is applied.  The stable sort by similarity, highest first, is what
    [FaceMatchingService.find_matching_faces] applies to the matches it
    collected: its answer is sorted in descending order, is a permutation of
    the collected matches, and keeps matches of equal similarity in the
    order in which they were collected. *)
Theorem batch_in_input_order_matches_ranked (C : Capabilities) :
  (forall (target_image : UploadFile) (image_urls model detector metrics : string)
          (threshold : float) (w w' : world) (resp : batch_response),
      batch_verify target_image image_urls model detector metrics threshold w
      = (Ok resp, w') ->
      exists urls,
        json_loads image_urls = Ok (Jarray urls)
        /\ map be_url (br_results resp) = urls)
  /\
  (forall (selfie_bytes : list Byte.byte)
          (event_images : list FaceMatching.event_image) (w : world),
      exists l w',
        FaceMatching.FaceMatchingService.find_matching_faces
          selfie_bytes event_images w = (Ok l, w')
        /\ sorted_desc FaceMatching.me_similarity l
        /\ ((l = []
             /\ FaceMatching.FaceMatchingService.extract_face_encoding
                  selfie_bytes w = (Ok None, w'))
            \/ exists enc w1 collected,
                FaceMatching.FaceMatchingService.extract_face_encoding
                  selfie_bytes w = (Ok (Some enc), w1)
                /\ FaceMatching.FaceMatchingService.collect_matches
                     enc event_images [] w1 = (Ok collected, w')
                /\ l = list_sort FaceMatching.me_similarity true collected
                /\ Permutation collected l
                /\ ties_in_order FaceMatching.me_similarity collected l)).
Proof.
  split.
  - intros target_image image_urls model detector metrics threshold w w' resp H.
    pose proof (batch_verify_inv _ _ _ _ _ _ _ _ _ H)
      as (Hav & img & w1 & urls & Hload & Hjson).
    destruct (batch_verify_runs target_image image_urls model detector metrics
                threshold w w1 img urls Hav Hload Hjson)
      as (resp' & w2 & Hrun & _ & Hall & _).
    rewrite Hrun in H. injection H as -> ->.
    exists urls. split; [exact Hjson|]. eapply entries_follow_urls; eauto.
  - intros selfie_bytes event_images w.
    destruct (MatchingFacts.extract_face_encoding_total selfie_bytes w)
      as ([enc|] & w1 & Hex).
    + destruct (MatchingFacts.collect_matches_total enc event_images [] w1)
        as (collected & w2 & Hcol & Hpass).
      specialize (Hpass (Forall_nil _)).
      apply MatchingFacts.passed_ordered in Hpass.
      destruct (SortFacts.list_sort_reverse_spec FaceMatching.me_similarity
                  collected Hpass) as (Hs & Hp & Ht).
      exists (list_sort FaceMatching.me_similarity true collected), w2.
      split; [|split; [exact Hs|]].
      * unfold FaceMatching.FaceMatchingService.find_matching_faces.
        apply try_ok. rewrite (bind_ok _ _ _ _ _ Hex).
        now rewrite (bind_ok _ _ _ _ _ Hcol).
      * right. exists enc, w1, collected. auto.
    + exists [], w1. split; [|split; [constructor|left; auto]].
      unfold FaceMatching.FaceMatchingService.find_matching_faces.
      apply try_ok. now rewrite (bind_ok _ _ _ _ _ Hex).
Qed.

(** The example of the specification: A at similarity 0.8, B unreachable,
    C at 0.3.  The handler answers in the order A, B, C.  And a selfie
    against the small album: images 1 and 5 match at 0.8, image 3 at 0.9;
    the matches come ranked 3, 1, 5. *)
Lemma batch_in_input_order_matches_ranked_witness :
  (exists resp w',
      batch_verify (C := Demo.caps) "selfie"%string "[A, B, C]" "VGG-Face"
        "opencv" "cosine" FaceMatching.FACE_MATCH_THRESHOLD 0%nat = (Ok resp, w')
      /\ exists urls,
           json_loads (Capabilities := Demo.caps) "[A, B, C]" = Ok (Jarray urls)
           /\ map be_url (br_results resp) = urls)
  /\
  (exists l w',
      FaceMatching.FaceMatchingService.find_matching_faces (C := Demo.caps)
        (list_byte_of_string "a") Demo.album 0%nat = (Ok l, w')
      /\ sorted_desc FaceMatching.me_similarity l
      /\ map FaceMatching.me_file_id l = [Jint 3; Jint 1; Jint 5]).
Proof.
  split.
  - eexists. eexists. split; [vm_compute; reflexivity|].
    refine (proj1 (batch_in_input_order_matches_ranked Demo.caps)
              "selfie"%string "[A, B, C]"%string "VGG-Face"%string "opencv"%string
              "cosine"%string FaceMatching.FACE_MATCH_THRESHOLD 0%nat _ _ _).
    vm_compute. reflexivity.
  - destruct (proj2 (batch_in_input_order_matches_ranked Demo.caps)
                (list_byte_of_string "a") Demo.album 0%nat)
      as (l & w' & Hrun & Hsorted & _).
    exists l, w'. split; [exact Hrun|]. split; [exact Hsorted|].
    assert (Hl : (Ok l, w')
                 = FaceMatching.FaceMatchingService.find_matching_faces
                     (C := Demo.caps) (list_byte_of_string "a") Demo.album 0%nat)
      by (symmetry; exact Hrun).
    vm_compute in Hl. injection Hl as -> ->. reflexivity.
Defined.

(** C1 as stated fails on that example: the similarities come out as
    0.8, 0, 0.3, which is not a descending sequence. *)
Lemma batch_results_not_sorted :
  exists resp w',
    batch_verify (C := Demo.caps) "selfie"%string "[A, B, C]" "VGG-Face"
      "opencv" "cosine" FaceMatching.FACE_MATCH_THRESHOLD 0%nat = (Ok resp, w')
    /\ map be_url (br_results resp)
       = [Jstring "urlA"; Jstring "urlB"; Jstring "urlC"]
    /\ ~ sorted_desc be_similarity (br_results resp).
Proof.
  eexists. eexists. split; [vm_compute; reflexivity|]. split; [reflexivity|].
  cbn [br_results]. intros H.
  apply StronglySorted_inv in H as [H _].
  apply StronglySorted_inv in H as [_ H].
  inversion H as [|? ? Hle _]; subst. vm_compute in Hle. discriminate.
Qed.

(** C2.  A batch request whose target image loads and whose [image_urls]
    parses to a list is answered with exactly one entry per input URL, in
    order, whatever the fetches and comparisons do; each occurrence of a
    URL, repeated or not, gets the entry of its own turn of the loop. *)
Theorem batch_one_entry_per_url (C : Capabilities)
    (target_image : UploadFile) (image_urls model detector metrics : string)
    (threshold : float) (w w1 : world) (img : ndarray) (urls : list json) :
  DEEPFACE_AVAILABLE = true ->
  load_image_from_file target_image w = (Ok img, w1) ->
  json_loads image_urls = Ok (Jarray urls) ->
  exists resp w',
    batch_verify target_image image_urls model detector metrics threshold w
    = (Ok resp, w')
    /\ List.length (br_results resp) = List.length urls
    /\ map be_url (br_results resp) = urls
    /\ Forall2 (entry_of_candidate img model detector metrics threshold)
         urls (br_results resp).
Proof.
  intros Hav Hload Hjson.
  destruct (batch_verify_runs target_image image_urls model detector metrics
              threshold w w1 img urls Hav Hload Hjson)
    as (resp & w' & Hrun & _ & Hall & _).
  exists resp, w'. split; [exact Hrun|].
  split; [symmetry; eapply Forall2_length; eauto|].
  split; [eapply entries_follow_urls; eauto|exact Hall].
Qed.

(** The same URL twice: the first fetch times out, the second succeeds, and
    the answer has two entries. *)
Lemma batch_one_entry_per_url_witness :
  exists resp w',
    batch_verify (C := Demo.caps) "selfie"%string "[flaky, flaky]" "VGG-Face"
      "opencv" "cosine" FaceMatching.FACE_MATCH_THRESHOLD 0%nat = (Ok resp, w')
    /\ List.length (br_results resp) = 2%nat
    /\ map be_url (br_results resp) = [Jstring "flaky"; Jstring "flaky"]
    /\ Forall2 (entry_of_candidate (C := Demo.caps) "selfie"%string "VGG-Face"
                  "opencv" "cosine" FaceMatching.FACE_MATCH_THRESHOLD)
         [Jstring "flaky"; Jstring "flaky"] (br_results resp).
Proof.
  apply (batch_one_entry_per_url Demo.caps "selfie"%string "[flaky, flaky]"%string
           "VGG-Face"%string "opencv"%string "cosine"%string
           FaceMatching.FACE_MATCH_THRESHOLD 0%nat 1%nat "selfie"%string
           [Jstring "flaky"; Jstring "flaky"]);
    reflexivity.
Defined.

(** An entry without an [error] was compared, and follows the threshold. *)
Lemma entries_obey_threshold {C : Capabilities} (img : ndarray)
    (model detector metrics : string) (threshold : float)
    (urls : list json) (rs : list batch_entry) :
  Forall2 (entry_of_candidate img model detector metrics threshold) urls rs ->
  Forall (fun entry =>
            be_error entry = None ->
            be_verified entry = PrimFloat.ltb threshold (be_similarity entry)
            /\ (PrimFloat.eqb (be_similarity entry) threshold = true ->
                be_verified entry = false))
    rs.
Proof.
  induction 1 as [|url entry urls rs He _ IH]; constructor; [|exact IH].
  destruct He as (w0 & w3 & _ & Hc). intros Hnone.
  destruct (compare_candidate img model detector metrics threshold url w0)
    as [[compared|e] w4] eqn:E; subst entry; [|discriminate].
  apply compare_candidate_inv in E as (compare_array & vd & w5 & _ & _ & ->).
  cbn. split; [reflexivity|]. apply FloatFacts.eqb_ltb_false.
Qed.

(** C4.  For a candidate that was fetched and compared, the entry has
    [similarity = 1 - distance], [verified = (similarity > threshold)] with
    the threshold of the request, and [match] the verdict of the capability;
    [verified] is computed from the distance and the threshold alone, and it
    is false when the similarity equals the threshold.  The same holds for
    every entry without an [error] in the answer of a batch. *)
Theorem batch_verified_by_caller_threshold (C : Capabilities) :
  (forall (img : ndarray) (model detector metrics : string) (threshold : float)
          (url : json) (w w' : world) (entry : batch_entry),
      compare_candidate img model detector metrics threshold url w
      = (Ok entry, w') ->
      exists compare_array vd w1,
        load_image_from_url url w = (Ok compare_array, w1)
        /\ DeepFace_verify img compare_array model detector metrics false w1
           = (Ok vd, w')
        /\ be_similarity entry
           = PrimFloat.sub 1%float (get (vd_distance vd) 1%float)
        /\ be_verified entry = PrimFloat.ltb threshold (be_similarity entry)
        /\ be_match entry = get (vd_verified vd) false
        /\ be_error entry = None
        /\ (PrimFloat.eqb (be_similarity entry) threshold = true ->
            be_verified entry = false))
  /\
  (forall (target_image : UploadFile) (image_urls model detector metrics : string)
          (threshold : float) (w w' : world) (resp : batch_response),
      batch_verify target_image image_urls model detector metrics threshold w
      = (Ok resp, w') ->
      Forall (fun entry =>
                be_error entry = None ->
                be_verified entry = PrimFloat.ltb threshold (be_similarity entry)
                /\ (PrimFloat.eqb (be_similarity entry) threshold = true ->
                    be_verified entry = false))
        (br_results resp)).
Proof.
  split.
  - intros img model detector metrics threshold url w w' entry H.
    apply compare_candidate_inv in H as (compare_array & vd & w1 & Hload & Hver & ->).
    exists compare_array, vd, w1. cbn. repeat split; auto.
    apply FloatFacts.eqb_ltb_false.
  - intros target_image image_urls model detector metrics threshold w w' resp H.
    pose proof (batch_verify_inv _ _ _ _ _ _ _ _ _ H)
      as (Hav & img & w1 & urls & Hload & Hjson).
    destruct (batch_verify_runs target_image image_urls model detector metrics
                threshold w w1 img urls Hav Hload Hjson)
      as (resp' & w2 & Hrun & _ & Hall & _).
    rewrite Hrun in H. injection H as -> ->.
    eapply entries_obey_threshold; eauto.
Qed.

(** A candidate at distance 0.4 under the threshold 0.6: the similarity
    equals the threshold, so [verified] is false, while the capability's own
    verdict [match] is true. *)
Lemma batch_verified_by_caller_threshold_witness :
  exists entry w',
    compare_candidate (C := Demo.caps) "selfie"%string "VGG-Face" "opencv"
      "cosine" FaceMatching.FACE_MATCH_THRESHOLD (Jstring "same") 0%nat
    = (Ok entry, w')
    /\ be_verified entry = false
    /\ be_match entry = true
    /\ exists compare_array vd w1,
         load_image_from_url (C := Demo.caps) (Jstring "same") 0%nat
         = (Ok compare_array, w1)
         /\ DeepFace_verify (Capabilities := Demo.caps) "selfie"%string
              compare_array "VGG-Face" "opencv" "cosine" false w1 = (Ok vd, w')
         /\ be_similarity entry
            = PrimFloat.sub 1%float (get (vd_distance vd) 1%float)
         /\ be_verified entry
            = PrimFloat.ltb FaceMatching.FACE_MATCH_THRESHOLD (be_similarity entry)
         /\ be_match entry = get (vd_verified vd) false
         /\ be_error entry = None
         /\ (PrimFloat.eqb (be_similarity entry) FaceMatching.FACE_MATCH_THRESHOLD
             = true -> be_verified entry = false).
Proof.
  eexists. eexists. split; [vm_compute; reflexivity|].
  split; [reflexivity|]. split; [reflexivity|].
  refine (proj1 (batch_verified_by_caller_threshold Demo.caps)
            "selfie"%string "VGG-Face"%string "opencv"%string "cosine"%string
            FaceMatching.FACE_MATCH_THRESHOLD (Jstring "same") 0%nat _ _ _).
  vm_compute. reflexivity.
Defined.

(** An entry with an [error] is never counted as a match. *)
Lemma error_entries_unverified {C : Capabilities} (img : ndarray)
    (model detector metrics : string) (threshold : float)
    (urls : list json) (rs : list batch_entry) :
  Forall2 (entry_of_candidate img model detector metrics threshold) urls rs ->
  Forall (fun entry =>
            forall reason, be_error entry = Some reason -> be_verified entry = false)
    rs.
Proof.
  induction 1 as [|url entry urls rs He _ IH]; constructor; [|exact IH].
  destruct He as (w0 & w3 & _ & Hc). intros reason Hsome.
  destruct (compare_candidate img model detector metrics threshold url w0)
    as [[compared|e] w4] eqn:E; subst entry; [|reflexivity].
  apply compare_candidate_inv in E as (compare_array & vd & w5 & _ & _ & ->).
  discriminate.
Qed.

(** C5.  The summary of an answered batch: [total_images] is the number of
    URLs and of entries, [matches] counts the entries with [verified] true
    (an entry with an [error] is not among them).  With at least one URL,
    [match_rate] is [matches / total_images] and [avg_time_per_image] is
    [processing_time / total_images]; with none, the request is still
    answered and both are the integer 0.  For fewer than [2^53] URLs
    [match_rate] lies between 0 and 1. *)
Theorem batch_summary_rates (C : Capabilities)
    (target_image : UploadFile) (image_urls model detector metrics : string)
    (threshold : float) (w w1 : world) (img : ndarray) (urls : list json) :
  DEEPFACE_AVAILABLE = true ->
  load_image_from_file target_image w = (Ok img, w1) ->
  json_loads image_urls = Ok (Jarray urls) ->
  exists resp w',
    batch_verify target_image image_urls model detector metrics threshold w
    = (Ok resp, w')
    /\ bs_total_images (br_summary resp) = len urls
    /\ bs_total_images (br_summary resp) = len (br_results resp)
    /\ bs_matches (br_summary resp) = len (filter be_verified (br_results resp))
    /\ Forall (fun entry =>
                 forall reason,
                   be_error entry = Some reason -> be_verified entry = false)
         (br_results resp)
    /\ (0 < bs_total_images (br_summary resp) ->
        bs_match_rate (br_summary resp)
        = PyFloat (PrimFloat.div (float_of_int (bs_matches (br_summary resp)))
                     (float_of_int (bs_total_images (br_summary resp))))
        /\ bs_avg_time_per_image (br_summary resp)
           = PyFloat (PrimFloat.div (bs_processing_time (br_summary resp))
                        (float_of_int (bs_total_images (br_summary resp)))))
    /\ (bs_total_images (br_summary resp) = 0 ->
        bs_match_rate (br_summary resp) = PyInt 0
        /\ bs_avg_time_per_image (br_summary resp) = PyInt 0)
    /\ (bs_total_images (br_summary resp) < 2 ^ 53 ->
        PrimFloat.leb 0%float (pynum_float (bs_match_rate (br_summary resp))) = true
        /\ PrimFloat.leb (pynum_float (bs_match_rate (br_summary resp))) 1%float
           = true).
Proof.
  intros Hav Hload Hjson.
  destruct (batch_verify_runs target_image image_urls model detector metrics
              threshold w w1 img urls Hav Hload Hjson)
    as (resp & w' & Hrun & _ & Hall & Htot & Hm & Hrate & Havg & _).
  assert (Hlen : len (br_results resp) = len urls).
  { unfold len. now rewrite (Forall2_length Hall). }
  exists resp, w'. split; [exact Hrun|]. split; [exact Htot|].
  split; [congruence|]. split; [exact Hm|].
  split; [eapply error_entries_unverified; eauto|].
  rewrite Htot. split; [|split].
  - intros Hpos. destruct urls as [|u urls]; [unfold len in Hpos; simpl in Hpos; lia|].
    now rewrite Hrate, Havg.
  - intros Hzero. destruct urls as [|u urls]; [now rewrite Hrate, Havg|].
    pose proof (len_cons_nonzero u urls) as Hne. apply Z.eqb_neq in Hne. contradiction.
  - intros Hsmall. destruct urls as [|u urls]; rewrite Hrate; cbn [pynum_float].
    + split; reflexivity.
    + apply FloatFacts.truediv_unit_interval.
      * rewrite Hm, <- Hlen. split; [apply len_nonneg|apply len_filter_le].
      * pose proof (len_cons_nonzero u urls) as Hne. apply Z.eqb_neq in Hne.
        pose proof (len_nonneg (u :: urls)). lia.
Qed.

(** The example of the specification: three URLs, one match, rate one third. *)
Lemma batch_summary_rates_witness :
  exists resp w',
    batch_verify (C := Demo.caps) "selfie"%string "[A, B, C]" "VGG-Face"
      "opencv" "cosine" FaceMatching.FACE_MATCH_THRESHOLD 0%nat = (Ok resp, w')
    /\ bs_total_images (br_summary resp) = 3
    /\ bs_matches (br_summary resp) = 1
    /\ bs_match_rate (br_summary resp)
       = PyFloat (PrimFloat.div 1%float 3%float)
    /\ PrimFloat.leb 0%float (pynum_float (bs_match_rate (br_summary resp))) = true
    /\ PrimFloat.leb (pynum_float (bs_match_rate (br_summary resp))) 1%float = true.
Proof.
  destruct (batch_summary_rates Demo.caps "selfie"%string "[A, B, C]"%string
              "VGG-Face"%string "opencv"%string "cosine"%string
              FaceMatching.FACE_MATCH_THRESHOLD 0%nat 1%nat "selfie"%string
              [Jstring "urlA"; Jstring "urlB"; Jstring "urlC"]
              eq_refl eq_refl eq_refl)
    as (resp & w' & Hrun & Htot & _ & Hm & _ & _ & _ & Hbound).
  exists resp, w'. split; [exact Hrun|].
  assert (Hsmall : bs_total_images (br_summary resp) < 2 ^ 53)
    by (rewrite Htot; reflexivity).
  destruct (Hbound Hsmall) as [Hlo Hhi].
  assert (Hresp : (Ok resp, w')
                  = batch_verify (C := Demo.caps) "selfie"%string "[A, B, C]"
                      "VGG-Face" "opencv" "cosine"
                      FaceMatching.FACE_MATCH_THRESHOLD 0%nat)
    by (symmetry; exact Hrun).
  split; [|split; [|split; [|split; [exact Hlo|exact Hhi]]]];
    vm_compute in Hresp; injection Hresp as -> ->; reflexivity.
Defined.

(** Every entry of a batch, compared or failed, has [similarity = 1 - distance]. *)
Lemma entries_similarity {C : Capabilities} (img : ndarray)
    (model detector metrics : string) (threshold : float)
    (urls : list json) (rs : list batch_entry) :
  Forall2 (entry_of_candidate img model detector metrics threshold) urls rs ->
  Forall (fun entry =>
            be_similarity entry = PrimFloat.sub 1%float (be_distance entry)) rs.
Proof.
  induction 1 as [|url entry urls rs He _ IH]; constructor; [|exact IH].
  destruct He as (w0 & w3 & _ & Hc).
  destruct (compare_candidate img model detector metrics threshold url w0)
    as [[compared|e] w4] eqn:E; subst entry; [|reflexivity].
  apply compare_candidate_inv in E as (compare_array & vd & w5 & _ & _ & ->).
  reflexivity.
Qed.

(** C6.  Wherever a response reports both fields, [similarity] is the float
    [1 - distance]: in the answer of [/api/verify], both for a comparison and
    for the no-face outcome; in every entry of a batch, error entries
    included; and in the answer of [/api/face-match/compare-faces].  The
    metric plays no part in it. *)
Theorem similarity_is_one_minus_distance (C : Capabilities) :
  (forall (img1 img2 : option UploadFile) (img1_url img2_url : option string)
          (model detector metrics : string) (enforce_detection : bool)
          (w w' : world) (resp : verify_response),
      verify_faces img1 img2 img1_url img2_url model detector metrics
        enforce_detection w = (Ok resp, w') ->
      vr_similarity resp = PrimFloat.sub 1%float (vr_distance resp))
  /\
  (forall (target_image : UploadFile) (image_urls model detector metrics : string)
          (threshold : float) (w w' : world) (resp : batch_response),
      batch_verify target_image image_urls model detector metrics threshold w
      = (Ok resp, w') ->
      Forall (fun entry =>
                be_similarity entry = PrimFloat.sub 1%float (be_distance entry))
        (br_results resp))
  /\
  (forall (encoding1 encoding2 : list float) (w w' : world)
          (resp : FaceMatching.compare_response),
      FaceMatching.compare_faces encoding1 encoding2 w = (Ok resp, w') ->
      FaceMatching.cr_similarity resp
      = PrimFloat.sub 1%float (FaceMatching.cr_distance resp)).
Proof.
  split; [|split].
  - intros img1 img2 img1_url img2_url model detector metrics enforce w w' resp.
    unfold verify_faces.
    destruct (negb DEEPFACE_AVAILABLE); [discriminate|].
    destruct (negb (str_in model AVAILABLE_MODELS)); [discriminate|].
    destruct (negb (str_in detector AVAILABLE_DETECTORS)); [discriminate|].
    destruct (negb (str_in metrics AVAILABLE_METRICS)); [discriminate|].
    unfold try_except.
    match goal with
    | |- match ?body w with _ => _ end = _ -> _ =>
        destruct (body w) as [[r|e] w2] eqn:E
    end.
    + intros H. injection H as -> ->.
      apply bind_inv in E as (a1 & v1 & _ & E).
      apply bind_inv in E as (a2 & v2 & _ & E).
      apply bind_inv in E as (t0 & v3 & _ & E).
      apply bind_inv in E as (vd & v4 & _ & E).
      apply bind_inv in E as (t1 & v5 & _ & E).
      unfold ret in E. injection E as <- _. reflexivity.
    + destruct (contains NO_FACE (str e)); [|discriminate].
      unfold ret. intros H. injection H as <- _. reflexivity.
  - intros target_image image_urls model detector metrics threshold w w' resp H.
    pose proof (batch_verify_inv _ _ _ _ _ _ _ _ _ H)
      as (Hav & img & w1 & urls & Hload & Hjson).
    destruct (batch_verify_runs target_image image_urls model detector metrics
                threshold w w1 img urls Hav Hload Hjson)
      as (resp' & w2 & Hrun & _ & Hall & _).
    rewrite Hrun in H. injection H as -> ->.
    eapply entries_similarity; eauto.
  - intros encoding1 encoding2 w w' resp. unfold FaceMatching.compare_faces, try_except.
    match goal with
    | |- match ?body w with _ => _ end = _ -> _ =>
        destruct (body w) as [[r|e] w2] eqn:E
    end; [|discriminate].
    intros H. injection H as -> ->.
    apply bind_inv in E as (a1 & v1 & _ & E).
    apply bind_inv in E as (a2 & v2 & _ & E).
    apply bind_inv in E as (ds & v3 & _ & E).
    apply bind_inv in E as (d & v4 & _ & E).
    unfold ret in E. injection E as <- _. reflexivity.
Qed.

(** Two encodings at distance 0.25: the answer has similarity 0.75. *)
Lemma similarity_is_one_minus_distance_witness :
  exists resp w',
    FaceMatching.compare_faces (C := Demo.caps) [0.5%float] [0.25%float] 0%nat
    = (Ok resp, w')
    /\ FaceMatching.cr_distance resp = 0.25%float
    /\ FaceMatching.cr_similarity resp
       = PrimFloat.sub 1%float (FaceMatching.cr_distance resp).
Proof.
  eexists. eexists. split; [vm_compute; reflexivity|]. split; [reflexivity|].
  refine (proj2 (proj2 (similarity_is_one_minus_distance Demo.caps))
            [0.5%float] [0.25%float] 0%nat _ _ _).
  vm_compute. reflexivity.
Defined.

(** The equality of C6 is also an equality for the comparison [==] of
    floats, unless the distance, and with it the similarity, is NaN. *)
Lemma similarity_compares_equal (similarity distance : float) :
  similarity = PrimFloat.sub 1%float distance ->
  ordered_key similarity ->
  PrimFloat.eqb similarity (PrimFloat.sub 1%float distance) = true.
Proof.
  intros <- H. now apply FloatFacts.eqb_refl_ordered.
Qed.

(** C7.  When the capability raises its no-face error (an exception whose
    text contains ["Face could not be detected"]), [/api/analyze] and
    [/api/detect] return a body with [success] true, no faces and
    [face_count] 0, and [/api/verify] returns a body with [success] true,
    [verified] false, [similarity] 0, [distance] 1 and a message; the status
    is 200 in the three cases, whatever [enforce_detection] is. *)
Theorem no_face_is_a_success (C : Capabilities) :
  (forall (image : option UploadFile) (image_url : option string)
          (detector : string) (enforce_detection : bool)
          (w w1 w2 : world) (img : ndarray) (e : exn),
      DEEPFACE_AVAILABLE = true ->
      str_in detector AVAILABLE_DETECTORS = true ->
      load_file_or_url image image_url
        "Either image file or image_url must be provided" w = (Ok img, w1) ->
      DeepFace_analyze img detector enforce_detection w1 = (Raise e, w2) ->
      contains NO_FACE (str e) = true ->
      exists resp w',
        analyze_faces image image_url detector enforce_detection w = (Ok resp, w')
        /\ http_status (fst (analyze_faces image image_url detector
                               enforce_detection w)) = 200
        /\ ar_success resp = true
        /\ ar_faces resp = []
        /\ ar_face_count resp = 0
        /\ ar_message resp = Some "No faces detected in the image"%string)
  /\
  (forall (image : option UploadFile) (image_url : option string)
          (detector : string) (w w1 w2 : world) (img : ndarray) (e : exn),
      DEEPFACE_AVAILABLE = true ->
      load_file_or_url image image_url
        "Either image file or image_url must be provided" w = (Ok img, w1) ->
      detection_extract_faces img detector w1 = (Raise e, w2) ->
      contains NO_FACE (str e) = true ->
      exists resp w',
        detect_faces image image_url detector w = (Ok resp, w')
        /\ http_status (fst (detect_faces image image_url detector w)) = 200
        /\ dr_success resp = true
        /\ dr_faces resp = []
        /\ dr_face_count resp = 0
        /\ dr_message resp = Some "No faces detected"%string)
  /\
  (forall (img1 img2 : option UploadFile) (img1_url img2_url : option string)
          (model detector metrics : string) (enforce_detection : bool)
          (w w1 w2 w3 : world) (a1 a2 : ndarray) (e : exn),
      DEEPFACE_AVAILABLE = true ->
      str_in model AVAILABLE_MODELS = true ->
      str_in detector AVAILABLE_DETECTORS = true ->
      str_in metrics AVAILABLE_METRICS = true ->
      load_file_or_url img1 img1_url "First image must be provided" w
      = (Ok a1, w1) ->
      load_file_or_url img2 img2_url "Second image must be provided" w1
      = (Ok a2, w2) ->
      DeepFace_verify a1 a2 model detector metrics enforce_detection
        (snd (time_time w2)) = (Raise e, w3) ->
      contains NO_FACE (str e) = true ->
      exists resp,
        verify_faces img1 img2 img1_url img2_url model detector metrics
          enforce_detection w = (Ok resp, w3)
        /\ http_status (fst (verify_faces img1 img2 img1_url img2_url model
                               detector metrics enforce_detection w)) = 200
        /\ vr_success resp = true
        /\ vr_verified resp = false
        /\ vr_similarity resp = 0%float
        /\ vr_distance resp = 1%float
        /\ vr_message resp
           = Some "Face could not be detected in one or both images"%string).
Proof.
  split; [|split].
  - intros image image_url detector enforce w w1 w2 img e Hav Hdet Hload Han Hno.
    unfold analyze_faces. rewrite Hav, Hdet. cbn [negb].
    destruct (time_time w2) as [t w3] eqn:Ht.
    eexists. exists w3.
    assert (Hrun : forall k,
               try_except
                 (img_array <- load_file_or_url image image_url
                                 "Either image file or image_url must be provided" ;;
                  analysis <- DeepFace_analyze img_array detector enforce ;; k analysis)
                 (fun e0 =>
                    if contains NO_FACE (str e0) then
                      t0 <- now ;;
                      ret {| ar_success := true; ar_faces := []; ar_face_count := 0;
                             ar_detector := detector;
                             ar_message := Some "No faces detected in the image"%string;
                             ar_analysis_time := t0 |}
                    else raise (HTTPException 500 ("Analysis failed: " ++ str e0)%string))
                 w
               = (Ok {| ar_success := true; ar_faces := []; ar_face_count := 0;
                        ar_detector := detector;
                        ar_message := Some "No faces detected in the image"%string;
                        ar_analysis_time := t |}, w3)).
    { intros k. erewrite try_raise.
      2:{ rewrite (bind_ok _ _ _ _ _ Hload). apply (bind_raise _ _ _ _ _ Han). }
      rewrite Hno. unfold bind, now, ret. now rewrite Ht. }
    rewrite Hrun. cbn. repeat split; reflexivity.
  - intros image image_url detector w w1 w2 img e Hav Hload Hex Hno.
    unfold detect_faces. rewrite Hav. cbn [negb].
    eexists. exists w2.
    erewrite try_raise.
    2:{ rewrite (bind_ok _ _ _ _ _ Hload). apply (bind_raise _ _ _ _ _ Hex). }
    rewrite Hno. unfold ret. cbn. repeat split; reflexivity.
  - intros img1 img2 img1_url img2_url model detector metrics enforce
      w w1 w2 w3 a1 a2 e Hav Hm Hd Hmt Hl1 Hl2 Hver Hno.
    unfold verify_faces. rewrite Hav, Hm, Hd, Hmt. cbn [negb].
    eexists.
    erewrite try_raise.
    2:{ rewrite (bind_ok _ _ _ _ _ Hl1), (bind_ok _ _ _ _ _ Hl2).
        unfold now at 1. unfold bind at 1.
        destruct (time_time w2) as [t0 w2'] eqn:Ht. cbn [snd] in Hver.
        apply (bind_raise _ _ _ _ _ Hver). }
    rewrite Hno. unfold ret. cbn. repeat split; reflexivity.
Qed.

(** An uploaded picture without a face, analysed with [enforce_detection]
    true: status 200 and no faces. *)
Lemma no_face_is_a_success_witness :
  exists resp w',
    analyze_faces (C := Demo.caps) (Some "noface"%string) None "opencv" true 0%nat
    = (Ok resp, w')
    /\ http_status (fst (analyze_faces (C := Demo.caps) (Some "noface"%string)
                           None "opencv" true 0%nat)) = 200
    /\ ar_success resp = true
    /\ ar_faces resp = []
    /\ ar_face_count resp = 0
    /\ ar_message resp = Some "No faces detected in the image"%string.
Proof.
  apply (proj1 (no_face_is_a_success Demo.caps) (Some "noface"%string) None
           "opencv"%string true 0%nat 1%nat 2%nat "noface"%string
           (Exception "Face could not be detected in numpy array."));
    reflexivity.
Defined.

(** Where the handlers do validate: [/api/verify] rejects an unknown model
    with status 400 and the list of models, before anything is loaded. *)
Lemma verify_rejects_unknown_model {C : Capabilities}
    (img1 img2 : option UploadFile) (img1_url img2_url : option string)
    (model detector metrics : string) (enforce_detection : bool) (w : world) :
  DEEPFACE_AVAILABLE = true ->
  str_in model AVAILABLE_MODELS = false ->
  verify_faces img1 img2 img1_url img2_url model detector metrics
    enforce_detection w
  = (Raise (HTTPException 400
              "Invalid model. Available: ['VGG-Face', 'Facenet', 'OpenFace', 'DeepFace', 'DeepID', 'ArcFace']"),
     w).
Proof.
  intros Hav Hm. unfold verify_faces. rewrite Hav, Hm. reflexivity.
Qed.

(** Likewise [/api/analyze] for an unknown detector. *)
Lemma analyze_rejects_unknown_detector {C : Capabilities}
    (image : option UploadFile) (image_url : option string)
    (detector : string) (enforce_detection : bool) (w : world) :
  DEEPFACE_AVAILABLE = true ->
  str_in detector AVAILABLE_DETECTORS = false ->
  analyze_faces image image_url detector enforce_detection w
  = (Raise (HTTPException 400
              "Invalid detector. Available: ['opencv', 'ssd', 'mtcnn', 'dlib', 'retinaface']"),
     w).
Proof.
  intros Hav Hd. unfold analyze_faces. rewrite Hav, Hd. reflexivity.
Qed.

(** C8 fails for [/api/batch-verify] and [/api/detect]: they compare no
    parameter with the allowed lists, and no request to them is answered
    with status 400.  In the small world, a batch with an unknown model
    loads the target, fetches the candidate and is answered with status 200,
    the capability's refusal of the model being the [error] of the entry. *)
Theorem batch_and_detect_skip_validation :
  (forall (C : Capabilities) (target_image : UploadFile)
          (image_urls model detector metrics : string) (threshold : float)
          (w : world),
      In (http_status (fst (batch_verify target_image image_urls model detector
                              metrics threshold w)))
         [200; 500; 503])
  /\
  (forall (C : Capabilities) (image : option UploadFile)
          (image_url : option string) (detector : string) (w : world),
      In (http_status (fst (detect_faces image image_url detector w)))
         [200; 500; 503])
  /\
  (str_in "NoSuchModel" AVAILABLE_MODELS = false
   /\ exists resp w',
        batch_verify (C := Demo.caps) "selfie"%string "[A, same]" "NoSuchModel"
          "opencv" "cosine" FaceMatching.FACE_MATCH_THRESHOLD 0%nat
        = (Ok resp, w')
        /\ w' = 7%nat
        /\ br_success resp = true
        /\ map be_error (br_results resp)
           = [Some "Invalid model_name passed"%string;
              Some "Invalid model_name passed"%string]).
Proof.
  split; [|split].
  - intros C target_image image_urls model detector metrics threshold w.
    unfold batch_verify. destruct (negb DEEPFACE_AVAILABLE); [cbn; auto|].
    unfold try_except.
    match goal with
    | |- context [match ?body w with _ => _ end] => destruct (body w) as [[r|e] w2]
    end; cbn; auto.
  - intros C image image_url detector w.
    unfold detect_faces. destruct (negb DEEPFACE_AVAILABLE); [cbn; auto|].
    unfold try_except.
    match goal with
    | |- context [match ?body w with _ => _ end] => destruct (body w) as [[r|e] w2]
    end; [cbn; auto|].
    destruct (contains NO_FACE (str e)); cbn; auto.
  - split; [reflexivity|]. eexists. eexists.
    split; [vm_compute; reflexivity|]. repeat split; reflexivity.
Qed.

(** C9 fails on the code: the [HTTPException] with status 400 that the
    handlers raise for a missing image is raised inside their [try] and is
    caught by their own [except Exception], which raises status 500.  A
    request to [/api/analyze] without image and without URL gets 500 when
    the detector is valid; so does a request to [/api/verify] without a
    first image when model, detector and metric are valid. *)
Theorem missing_image_answers_500 (C : Capabilities) :
  (forall (detector : string) (enforce_detection : bool) (w : world),
      analyze_faces None None detector enforce_detection w
      = (Raise
           (if negb DEEPFACE_AVAILABLE then
              HTTPException 503 "DeepFace not available"
            else if negb (str_in detector AVAILABLE_DETECTORS) then
              HTTPException 400
                "Invalid detector. Available: ['opencv', 'ssd', 'mtcnn', 'dlib', 'retinaface']"
            else
              HTTPException 500
                "Analysis failed: 400: Either image file or image_url must be provided"),
         w))
  /\
  (forall (img2 : option UploadFile) (img2_url : option string)
          (model detector metrics : string) (enforce_detection : bool)
          (w : world),
      http_status (fst (verify_faces None img2 None img2_url model detector
                          metrics enforce_detection w))
      = if negb DEEPFACE_AVAILABLE then 503
        else if negb (str_in model AVAILABLE_MODELS) then 400
        else if negb (str_in detector AVAILABLE_DETECTORS) then 400
        else if negb (str_in metrics AVAILABLE_METRICS) then 400
        else 500).
Proof.
  split.
  - intros detector enforce w. unfold analyze_faces.
    destruct (negb DEEPFACE_AVAILABLE); [reflexivity|].
    destruct (negb (str_in detector AVAILABLE_DETECTORS)); reflexivity.
  - intros img2 img2_url model detector metrics enforce w. unfold verify_faces.
    destruct (negb DEEPFACE_AVAILABLE); [reflexivity|].
    destruct (negb (str_in model AVAILABLE_MODELS)); [reflexivity|].
    destruct (negb (str_in detector AVAILABLE_DETECTORS)); [reflexivity|].
    destruct (negb (str_in metrics AVAILABLE_METRICS)); reflexivity.
Qed.

(** No faces located means no encoding. *)
Lemma no_location_no_encoding {C : Capabilities} (image_bytes : list Byte.byte)
    (w w1 w2 : world) (image : fr_image) :
  load_image_file image_bytes w = (Ok image, w1) ->
  face_locations image w1 = (Ok [], w2) ->
  FaceMatching.FaceMatchingService.extract_face_encoding image_bytes w
  = (Ok None, w2).
Proof.
  intros Hload Hloc. unfold FaceMatching.FaceMatchingService.extract_face_encoding.
  apply try_ok. rewrite (bind_ok _ _ _ _ _ Hload).
  now rewrite (bind_ok _ _ _ _ _ Hloc).
Qed.

(** C10.  When the service finds no face in the uploaded image,
    [/api/face-match/extract-encoding] answers with status 500, not 400: the
    [HTTPException] with status 400 raised in the [try] is caught by the
    handler's [except Exception] and raised again with status 500, its text
    as detail. *)
Theorem extract_encoding_no_face_is_500 (C : Capabilities)
    (image : UploadFile) (image_bytes : list Byte.byte) (w w1 w2 : world) :
  upload_read image w = (Ok image_bytes, w1) ->
  FaceMatching.FaceMatchingService.extract_face_encoding image_bytes w1
  = (Ok None, w2) ->
  FaceMatching.extract_face_encoding image w
  = (Raise (HTTPException 500 (str (HTTPException 400 "No face detected in image"))),
     w2)
  /\ str (HTTPException 400 "No face detected in image")
     = "400: No face detected in image"%string
  /\ http_status (fst (FaceMatching.extract_face_encoding image w)) = 500.
Proof.
  intros Hread Hnone.
  assert (Hrun : FaceMatching.extract_face_encoding image w
                 = (Raise (HTTPException 500
                             (str (HTTPException 400 "No face detected in image"))),
                    w2)).
  { unfold FaceMatching.extract_face_encoding.
    erewrite try_raise; [reflexivity|].
    rewrite (bind_ok _ _ _ _ _ Hread). now rewrite (bind_ok _ _ _ _ _ Hnone). }
  rewrite Hrun. repeat split; reflexivity.
Qed.

(** An upload without any face. *)
Lemma extract_encoding_no_face_is_500_witness :
  FaceMatching.extract_face_encoding (C := Demo.caps) "123"%string 0%nat
  = (Raise (HTTPException 500 (str (HTTPException 400 "No face detected in image"))),
     3%nat)
  /\ str (HTTPException 400 "No face detected in image")
     = "400: No face detected in image"%string
  /\ http_status (fst (FaceMatching.extract_face_encoding (C := Demo.caps)
                         "123"%string 0%nat)) = 500.
Proof.
  apply (extract_encoding_no_face_is_500 Demo.caps "123"%string
           (list_byte_of_string "123") 0%nat 1%nat 3%nat); reflexivity.
Defined.

(** * Further properties of deepface_server.py *)

Module ServerFacts.
Import FloatFacts.

Lemma contains_cons (needle : string) (c : ascii) (hay : string) :
  contains needle (String c hay)
  = if String.prefix needle (String c hay) then true else contains needle hay.
Proof. reflexivity. Qed.

(** A text that contains the needle still contains it behind a prefix. *)
Lemma contains_behind_prefix (needle p s : string) :
  contains needle s = true -> contains needle (p ++ s) = true.
Proof.
  intros H. induction p as [|c p IH]; [exact H|].
  cbn [String.append]. rewrite contains_cons, IH. now destruct (String.prefix _ _).
Qed.

(** The text the handlers test when a URL could not be loaded: the marker
    is in it exactly when it is in the text of the underlying error. *)
Lemma marker_in_url_failure (e : exn) :
  contains NO_FACE
    (str (HTTPException 400 ("Failed to load image from URL: " ++ str e)%string))
  = contains NO_FACE (str e).
Proof.
  change (str (HTTPException 400 ("Failed to load image from URL: " ++ str e)%string))
    with ("400: Failed to load image from URL: " ++ str e)%string.
  cbn [String.append]. repeat (rewrite contains_cons; cbn [String.prefix NO_FACE]).
  reflexivity.
Qed.

Lemma truthy_nonempty (url : string) :
  String.eqb url "" = false -> truthy_str (Some url) = Some url.
Proof. destruct url; [discriminate|reflexivity]. Qed.

End ServerFacts.

Import ServerFacts.

(** X1.  An image URL that cannot be loaded is answered by [/api/analyze],
    [/api/detect] and [/api/verify] with status 500, the loader's own 400
    wrapped in the detail, unless the text of the underlying error contains
    ["Face could not be detected"]: then the answer is the no-face success
    body, although no detection was run. *)
Theorem unloadable_url_is_500_or_no_face (C : Capabilities) :
  (forall (url detector : string) (enforce_detection : bool) (w w1 : world) (e : exn),
      DEEPFACE_AVAILABLE = true ->
      str_in detector AVAILABLE_DETECTORS = true ->
      String.eqb url "" = false ->
      fetch_image_url (Jstring url) w = (Raise e, w1) ->
      analyze_faces None (Some url) detector enforce_detection w
      = if contains NO_FACE (str e) then
          let (t, w2) := time_time w1 in
          (Ok {| ar_success := true; ar_faces := []; ar_face_count := 0;
                 ar_detector := detector;
                 ar_message := Some "No faces detected in the image"%string;
                 ar_analysis_time := t |}, w2)
        else
          (Raise (HTTPException 500
                    ("Analysis failed: 400: Failed to load image from URL: "
                       ++ str e)%string), w1))
  /\
  (forall (url detector : string) (w w1 : world) (e : exn),
      DEEPFACE_AVAILABLE = true ->
      String.eqb url "" = false ->
      fetch_image_url (Jstring url) w = (Raise e, w1) ->
      detect_faces None (Some url) detector w
      = if contains NO_FACE (str e) then
          (Ok {| dr_success := true; dr_faces := []; dr_face_count := 0;
                 dr_detector := detector;
                 dr_message := Some "No faces detected"%string |}, w1)
        else
          (Raise (HTTPException 500
                    ("Detection failed: 400: Failed to load image from URL: "
                       ++ str e)%string), w1))
  /\
  (forall (url : string) (img2 : option UploadFile) (img2_url : option string)
          (model detector metrics : string) (enforce_detection : bool)
          (w w1 : world) (e : exn),
      DEEPFACE_AVAILABLE = true ->
      str_in model AVAILABLE_MODELS = true ->
      str_in detector AVAILABLE_DETECTORS = true ->
      str_in metrics AVAILABLE_METRICS = true ->
      String.eqb url "" = false ->
      fetch_image_url (Jstring url) w = (Raise e, w1) ->
      verify_faces None img2 (Some url) img2_url model detector metrics
        enforce_detection w
      = if contains NO_FACE (str e) then
          (Ok {| vr_success := true; vr_verified := false;
                 vr_distance := 1%float; vr_similarity := 0%float;
                 vr_threshold := None; vr_model := model;
                 vr_detector := detector; vr_metrics := metrics;
                 vr_processing_time := None; vr_analysis := None;
                 vr_message :=
                   Some "Face could not be detected in one or both images"%string |},
           w1)
        else
          (Raise (HTTPException 500
                    ("Verification failed: 400: Failed to load image from URL: "
                       ++ str e)%string), w1)).
Proof.
  assert (Hload : forall url w w1 e missing,
             String.eqb url "" = false ->
             fetch_image_url (Jstring url) w = (Raise e, w1) ->
             load_file_or_url None (Some url) missing w
             = (Raise (HTTPException 400
                         ("Failed to load image from URL: " ++ str e)%string), w1)).
  { intros url w w1 e missing Hne Hf. unfold load_file_or_url.
    rewrite (truthy_nonempty url Hne). unfold load_image_from_url.
    now rewrite (try_raise _ _ _ _ _ Hf). }
  split; [|split].
  - intros url detector enforce w w1 e Hav Hdet Hne Hf.
    unfold analyze_faces. rewrite Hav, Hdet. cbn [negb].
    erewrite try_raise; [|apply bind_raise; apply Hload; eauto].
    cbv zeta. rewrite marker_in_url_failure.
    destruct (contains NO_FACE (str e)); [|reflexivity].
    unfold bind, now, ret. now destruct (time_time w1).
  - intros url detector w w1 e Hav Hne Hf.
    unfold detect_faces. rewrite Hav. cbn [negb].
    erewrite try_raise; [|apply bind_raise; apply Hload; eauto].
    cbv zeta. rewrite marker_in_url_failure.
    now destruct (contains NO_FACE (str e)).
  - intros url img2 img2_url model detector metrics enforce w w1 e
      Hav Hm Hd Hmt Hne Hf.
    unfold verify_faces. rewrite Hav, Hm, Hd, Hmt. cbn [negb].
    erewrite try_raise; [|apply bind_raise; apply Hload; eauto].
    cbv zeta. rewrite marker_in_url_failure.
    now destruct (contains NO_FACE (str e)).
Qed.

(** A URL without a scheme whose text is the marker itself: [requests]
    quotes it in its error, and [/api/analyze] answers that the image has no
    faces. *)
Lemma unloadable_url_is_500_or_no_face_witness :
  http_status (fst (analyze_faces (C := Demo2.caps) None
                      (Some "Face could not be detected"%string) "opencv" true 0%nat))
  = 200
  /\ http_status (fst (analyze_faces (C := Demo2.caps) None
                         (Some "ftp.example.org/a.png"%string) "opencv" true 0%nat))
     = 500.
Proof.
  split.
  - rewrite (proj1 (unloadable_url_is_500_or_no_face Demo2.caps)
               "Face could not be detected"%string "opencv"%string true 0%nat 1%nat
               (Exception "Invalid URL 'Face could not be detected': No scheme supplied"));
      reflexivity.
  - rewrite (proj1 (unloadable_url_is_500_or_no_face Demo2.caps)
               "ftp.example.org/a.png"%string "opencv"%string true 0%nat 1%nat
               (Exception "Invalid URL 'ftp.example.org/a.png': No scheme supplied"));
      reflexivity.
Defined.

Module BatchMore.
Import FloatFacts.

Lemma SFleb_ltb_trans (x y z : spec_float) :
  SFleb x y = true -> SFltb y z = true -> SFltb x z = true.
Proof.
  unfold SFleb, SFltb.
  destruct x as [[]|[]| |[] mx ex], y as [[]|[]| |[] my ey], z as [[]|[]| |[] mz ez];
    simpl; try reflexivity; try discriminate; intros H1 H2;
    zfold; fold_pos_compare; cmp_cases.
Qed.

Lemma leb_ltb_trans (x y z : float) :
  PrimFloat.leb x y = true -> PrimFloat.ltb y z = true -> PrimFloat.ltb x z = true.
Proof. rewrite FloatAxioms.leb_spec, !FloatAxioms.ltb_spec. apply SFleb_ltb_trans. Qed.

Lemma disjoint_filters_length {A : Type} (f g : A -> bool) (l : list A) :
  Forall (fun x => g x = true -> f x = false) l ->
  len (filter f l) + len (filter g l) <= len l.
Proof.
  unfold len. induction 1 as [|x l Hx _ IH]; cbn [filter List.length]; [lia|].
  destruct (g x) eqn:G.
  - rewrite (Hx eq_refl). cbn [List.length]. lia.
  - destruct (f x); cbn [List.length]; lia.
Qed.

Lemma bind_assoc {C : Capabilities} {A B D : Type} (m : M A) (k : A -> M B)
    (k' : B -> M D) (w : world) :
  bind (bind m k) k' w = bind m (fun a => bind (k a) k') w.
Proof. unfold bind. now destruct (m w) as [[a|e] w1]. Qed.

Section Loop.
Context {C : Capabilities}.
Variables (target_array : ndarray) (model detector metrics : string).

(** The loop with entries already collected is the loop from nothing, with
    those entries in front. *)
Lemma batch_loop_acc (threshold : float) (urls : list json)
    (acc : list batch_entry) (w : world) :
  batch_loop target_array model detector metrics threshold urls acc w
  = match batch_loop target_array model detector metrics threshold urls [] w with
    | (Ok rs, w') => (Ok (acc ++ rs), w')
    | (Raise e, w') => (Raise e, w')
    end.
Proof.
  revert acc w. induction urls as [|url urls IH]; intros acc w; cbn [batch_loop].
  - unfold ret. now rewrite app_nil_r.
  - destruct (process_candidate_total target_array model detector metrics threshold
                url w) as (entry & w1 & Hp & _).
    rewrite !(bind_ok _ _ _ _ _ Hp). rewrite (IH (acc ++ [entry])), (IH ([] ++ [entry])).
    destruct (batch_loop target_array model detector metrics threshold urls [] w1)
      as [[rs|e] w2]; [|reflexivity].
    now rewrite <- app_assoc.
Qed.

Lemma batch_loop_app (threshold : float) (l1 l2 : list json)
    (acc : list batch_entry) (w : world) :
  batch_loop target_array model detector metrics threshold (l1 ++ l2) acc w
  = bind (batch_loop target_array model detector metrics threshold l1 acc)
      (batch_loop target_array model detector metrics threshold l2) w.
Proof.
  revert acc w. induction l1 as [|url l1 IH]; intros acc w; cbn [batch_loop app].
  - reflexivity.
  - destruct (process_candidate_total target_array model detector metrics threshold
                url w) as (entry & w1 & Hp & _).
    rewrite bind_assoc, !(bind_ok _ _ _ _ _ Hp). apply IH.
Qed.

(** One turn of the loop under two thresholds, in the same world. *)
Lemma process_candidate_threshold (t1 t2 : float) (url : json) (w : world) :
  exists e1 e2 w',
    process_candidate target_array model detector metrics t1 url w = (Ok e1, w')
    /\ process_candidate target_array model detector metrics t2 url w = (Ok e2, w')
    /\ same_but_verified e1 e2
    /\ (PrimFloat.leb t1 t2 = true -> be_verified e2 = true -> be_verified e1 = true).
Proof.
  unfold process_candidate, try_except, compare_candidate, bind.
  destruct (load_image_from_url url w) as [[img|e] w1].
  - destruct (DeepFace_verify target_array img model detector metrics false w1)
      as [[vd|e] w2].
    + eexists. eexists. eexists. split; [reflexivity|]. split; [reflexivity|].
      split; [repeat split|]. cbn. intros Hle Hlt. eapply leb_ltb_trans; eauto.
    + eexists. eexists. eexists. split; [reflexivity|]. split; [reflexivity|].
      split; [repeat split|]. auto.
  - eexists. eexists. eexists. split; [reflexivity|]. split; [reflexivity|].
    split; [repeat split|]. auto.
Qed.

Lemma batch_loop_threshold (t1 t2 : float) (urls : list json)
    (acc1 acc2 : list batch_entry) (w : world) :
  Forall2 (fun e1 e2 =>
             same_but_verified e1 e2
             /\ (PrimFloat.leb t1 t2 = true ->
                 be_verified e2 = true -> be_verified e1 = true)) acc1 acc2 ->
  exists r1 r2 w',
    batch_loop target_array model detector metrics t1 urls acc1 w = (Ok r1, w')
    /\ batch_loop target_array model detector metrics t2 urls acc2 w = (Ok r2, w')
    /\ Forall2 (fun e1 e2 =>
                  same_but_verified e1 e2
                  /\ (PrimFloat.leb t1 t2 = true ->
                      be_verified e2 = true -> be_verified e1 = true)) r1 r2.
Proof.
  revert acc1 acc2 w. induction urls as [|url urls IH]; intros acc1 acc2 w Hacc;
    cbn [batch_loop].
  - exists acc1, acc2, w. auto.
  - destruct (process_candidate_threshold t1 t2 url w)
      as (e1 & e2 & w1 & H1 & H2 & Hs & Hv).
    rewrite (bind_ok _ _ _ _ _ H1), (bind_ok _ _ _ _ _ H2).
    apply IH. apply Forall2_app; [exact Hacc|]. constructor; [|constructor]. auto.
Qed.

Lemma verified_count_monotone (t1 t2 : float) (r1 r2 : list batch_entry) :
  PrimFloat.leb t1 t2 = true ->
  Forall2 (fun e1 e2 =>
             same_but_verified e1 e2
             /\ (PrimFloat.leb t1 t2 = true ->
                 be_verified e2 = true -> be_verified e1 = true)) r1 r2 ->
  len (filter be_verified r2) <= len (filter be_verified r1)
  /\ map be_similarity r2 = map be_similarity r1
  /\ map be_url r2 = map be_url r1.
Proof.
  intros Hle. unfold len.
  induction 1 as [|e1 e2 r1 r2 [(Hu & _ & Hs & _) Hv] _ IH];
    cbn [filter map List.length]; [repeat split; lia|].
  destruct IH as (IH1 & IH2 & IH3). rewrite IH2, IH3, Hu, Hs.
  split; [|split; reflexivity].
  destruct (be_verified e2) eqn:V2.
  - rewrite (Hv Hle eq_refl). cbn [List.length]. lia.
  - destruct (be_verified e1); cbn [List.length]; lia.
Qed.

End Loop.

Section Handler.
Context {C : Capabilities}.

(** The answer of a batch, written out from the steps that build it. *)
Lemma batch_verify_steps (target_image : UploadFile)
    (image_urls model detector metrics : string) (threshold : float)
    (w w1 w2 w3 w4 : world) (img : ndarray) (urls : list json)
    (t0 t1 : float) (rs : list batch_entry) :
  DEEPFACE_AVAILABLE = true ->
  load_image_from_file target_image w = (Ok img, w1) ->
  json_loads image_urls = Ok (Jarray urls) ->
  time_time w1 = (t0, w2) ->
  batch_loop img model detector metrics threshold urls [] w2 = (Ok rs, w3) ->
  time_time w3 = (t1, w4) ->
  exists rate avg,
    batch_verify target_image image_urls model detector metrics threshold w
    = (Ok {| br_success := true;
             br_results := rs;
             br_summary :=
               {| bs_total_images := len urls;
                  bs_matches := len (filter be_verified rs);
                  bs_match_rate := rate;
                  bs_processing_time := PrimFloat.sub t1 t0;
                  bs_avg_time_per_image := avg |};
             br_model := model;
             br_detector := detector;
             br_metrics := metrics;
             br_threshold := threshold |}, w4).
Proof.
  intros Hav Hload Hjson Ht0 Hloop Ht1. unfold batch_verify. rewrite Hav. cbn [negb].
  eexists. eexists. apply try_ok. rewrite (bind_ok _ _ _ _ _ Hload).
  unfold lift at 1. unfold bind at 1. rewrite Hjson.
  unfold now at 1. unfold bind at 1. rewrite Ht0.
  rewrite (bind_ok _ _ _ _ _ Hloop).
  unfold now at 1. unfold bind at 1. rewrite Ht1.
  unfold bind at 1. rewrite rate_or_zero_truediv.
  unfold bind at 1. rewrite rate_or_zero_float_div.
  reflexivity.
Qed.

End Handler.
End BatchMore.

Import BatchMore.

(** X2.  What stops a batch before its loop.  When the target cannot be
    read, when [image_urls] is not JSON, and when it is JSON but not an
    array, the answer is status 500 with the cause in the detail (the 400 of
    the array check included); the target is read and rewound first in every
    case, and no candidate is fetched. *)
Theorem batch_fails_before_loop (C : Capabilities)
    (target_image : UploadFile) (image_urls model detector metrics : string)
    (threshold : float) (w w1 : world) :
  DEEPFACE_AVAILABLE = true ->
  (forall e,
      read_image_file target_image w = (Raise e, w1) ->
      batch_verify target_image image_urls model detector metrics threshold w
      = (Raise (HTTPException 500
                  ("Batch verification failed: 400: Failed to load image: "
                     ++ str e)%string),
         file_seek0 target_image w1))
  /\ (forall img e,
         read_image_file target_image w = (Ok img, w1) ->
         json_loads image_urls = Raise e ->
         batch_verify target_image image_urls model detector metrics threshold w
         = (Raise (HTTPException 500
                     ("Batch verification failed: " ++ str e)%string),
            file_seek0 target_image w1))
  /\ (forall img value,
         read_image_file target_image w = (Ok img, w1) ->
         json_loads image_urls = Ok value ->
         is_list value = false ->
         batch_verify target_image image_urls model detector metrics threshold w
         = (Raise (HTTPException 500
                     "Batch verification failed: 400: image_urls must be a JSON array"),
            file_seek0 target_image w1)).
Proof.
  intros Hav. unfold batch_verify. rewrite Hav. cbn [negb].
  split; [|split].
  - intros e Hread. erewrite try_raise.
    2:{ apply bind_raise. unfold load_image_from_file, try_finally, try_except.
        rewrite Hread. reflexivity. }
    reflexivity.
  - intros img e Hread Hjson. erewrite try_raise.
    2:{ erewrite bind_ok.
        2:{ unfold load_image_from_file, try_finally, try_except.
            rewrite Hread. reflexivity. }
        apply bind_raise. unfold lift. now rewrite Hjson. }
    reflexivity.
  - intros img value Hread Hjson Hlist. erewrite try_raise.
    2:{ erewrite bind_ok.
        2:{ unfold load_image_from_file, try_finally, try_except.
            rewrite Hread. reflexivity. }
        erewrite bind_ok; [|unfold lift; rewrite Hjson; reflexivity].
        destruct value; try discriminate; reflexivity. }
    reflexivity.
Qed.

(** A JSON object in place of the array, and a target that is no image. *)
Lemma batch_fails_before_loop_witness :
  batch_verify (C := Demo.caps) "selfie"%string "{}" "VGG-Face" "opencv" "cosine"
    FaceMatching.FACE_MATCH_THRESHOLD 0%nat
  = (Raise (HTTPException 500
              "Batch verification failed: 400: image_urls must be a JSON array"),
     1%nat)
  /\ batch_verify (C := Demo.caps) "corrupt"%string "[A, B, C]" "VGG-Face" "opencv"
       "cosine" FaceMatching.FACE_MATCH_THRESHOLD 0%nat
     = (Raise (HTTPException 500
                 "Batch verification failed: 400: Failed to load image: cannot identify image file"),
        1%nat).
Proof.
  split.
  - apply (proj2 (proj2 (batch_fails_before_loop Demo.caps "selfie"%string
                           "{}"%string "VGG-Face"%string "opencv"%string
                           "cosine"%string FaceMatching.FACE_MATCH_THRESHOLD
                           0%nat 1%nat eq_refl))
             "selfie"%string (Jobject []));
      reflexivity.
  - apply (proj1 (batch_fails_before_loop Demo.caps "corrupt"%string
                    "[A, B, C]"%string "VGG-Face"%string "opencv"%string
                    "cosine"%string FaceMatching.FACE_MATCH_THRESHOLD
                    0%nat 1%nat eq_refl)
             (Exception "cannot identify image file"));
      reflexivity.
Defined.

(** X3.  The loop of a batch over a list of URLs followed by more URLs
    yields the entries of the first list alone, then the entries of the
    rest run in the world the first list left: what is appended for a URL
    does not depend on the URLs after it. *)
Theorem batch_prefix_stable (C : Capabilities) (target_array : ndarray)
    (model detector metrics : string) (threshold : float)
    (l1 l2 : list json) (w : world) :
  exists r1 w1 r2 w2,
    batch_loop target_array model detector metrics threshold l1 [] w = (Ok r1, w1)
    /\ batch_loop target_array model detector metrics threshold l2 [] w1
       = (Ok r2, w2)
    /\ batch_loop target_array model detector metrics threshold (l1 ++ l2) [] w
       = (Ok (r1 ++ r2), w2)
    /\ List.length r1 = List.length l1.
Proof.
  destruct (batch_loop_spec target_array model detector metrics threshold l1 [] w)
    as (r1 & w1 & H1 & F1).
  destruct (batch_loop_spec target_array model detector metrics threshold l2 [] w1)
    as (r2 & w2 & H2 & _).
  cbn [app] in H1, H2. exists r1, w1, r2, w2.
  split; [exact H1|]. split; [exact H2|]. split.
  - rewrite batch_loop_app, (bind_ok _ _ _ _ _ H1), batch_loop_acc. now rewrite H2.
  - symmetry. exact (Forall2_length F1).
Qed.

(** X4.  Raising the threshold of a batch never adds a match.  The same
    request with a threshold at least as high, in the same world, is
    answered too, with the same URLs and similarities, and its [matches] is
    at most the [matches] of the first. *)
Theorem raising_threshold_never_adds_matches (C : Capabilities)
    (target_image : UploadFile) (image_urls model detector metrics : string)
    (t1 t2 : float) (w w' : world) (resp1 : batch_response) :
  batch_verify target_image image_urls model detector metrics t1 w = (Ok resp1, w') ->
  PrimFloat.leb t1 t2 = true ->
  exists resp2,
    batch_verify target_image image_urls model detector metrics t2 w = (Ok resp2, w')
    /\ bs_matches (br_summary resp2) <= bs_matches (br_summary resp1)
    /\ bs_total_images (br_summary resp2) = bs_total_images (br_summary resp1)
    /\ map be_similarity (br_results resp2) = map be_similarity (br_results resp1)
    /\ map be_url (br_results resp2) = map be_url (br_results resp1).
Proof.
  intros H Hle.
  pose proof (batch_verify_inv _ _ _ _ _ _ _ _ _ H)
    as (Hav & img & w1 & urls & Hload & Hjson).
  destruct (time_time w1) as [t0 w2] eqn:Ht0.
  destruct (batch_loop_threshold img model detector metrics t1 t2 urls [] [] w2
              (Forall2_nil _)) as (r1 & r2 & w3 & L1 & L2 & Hrel).
  destruct (time_time w3) as [tend w4] eqn:Ht1.
  destruct (batch_verify_steps target_image image_urls model detector metrics t1
              w w1 w2 w3 w4 img urls t0 tend r1 Hav Hload Hjson Ht0 L1 Ht1)
    as (rate1 & avg1 & S1).
  destruct (batch_verify_steps target_image image_urls model detector metrics t2
              w w1 w2 w3 w4 img urls t0 tend r2 Hav Hload Hjson Ht0 L2 Ht1)
    as (rate2 & avg2 & S2).
  rewrite S1 in H. injection H as <- <-.
  eexists. split; [exact S2|]. cbn.
  destruct (verified_count_monotone t1 t2 r1 r2 Hle Hrel) as (Hc & Hs & Hu).
  auto.
Qed.

(** The example batch at thresholds 0.4 and 0.6: one match either way. *)
Lemma raising_threshold_never_adds_matches_witness :
  exists resp1 resp2 w',
    batch_verify (C := Demo.caps) "selfie"%string "[A, same]" "VGG-Face" "opencv"
      "cosine" DeepfaceServer.f0_4 0%nat = (Ok resp1, w')
    /\ batch_verify (C := Demo.caps) "selfie"%string "[A, same]" "VGG-Face" "opencv"
         "cosine" FaceMatching.FACE_MATCH_THRESHOLD 0%nat = (Ok resp2, w')
    /\ bs_matches (br_summary resp1) = 2
    /\ bs_matches (br_summary resp2) <= bs_matches (br_summary resp1).
Proof.
  eexists. 
  destruct (raising_threshold_never_adds_matches Demo.caps "selfie"%string
              "[A, same]"%string "VGG-Face"%string "opencv"%string "cosine"%string
              DeepfaceServer.f0_4 FaceMatching.FACE_MATCH_THRESHOLD 0%nat _ _
              eq_refl eq_refl) as (resp2 & H2 & Hm & _).
  exists resp2. eexists. split; [reflexivity|]. split; [exact H2|].
  split; [reflexivity|exact Hm].
Defined.

(** X5.  In the summary of an answered batch, [matches] and the number of
    entries with an [error] together never exceed [total_images], and
    [matches] is not negative. *)
Theorem batch_counts (C : Capabilities)
    (target_image : UploadFile) (image_urls model detector metrics : string)
    (threshold : float) (w w' : world) (resp : batch_response) :
  batch_verify target_image image_urls model detector metrics threshold w
  = (Ok resp, w') ->
  0 <= bs_matches (br_summary resp)
  /\ bs_matches (br_summary resp) + len (filter has_error (br_results resp))
     <= bs_total_images (br_summary resp).
Proof.
  intros H.
  pose proof (batch_verify_inv _ _ _ _ _ _ _ _ _ H)
    as (Hav & img & w1 & urls & Hload & Hjson).
  destruct (batch_verify_runs target_image image_urls model detector metrics
              threshold w w1 img urls Hav Hload Hjson)
    as (resp' & w2 & Hrun & _ & Hall & Htot & Hm & _).
  rewrite Hrun in H. injection H as -> ->.
  rewrite Hm, Htot. split; [apply len_nonneg|].
  assert (Hlen : len (br_results resp) = len urls).
  { unfold len. now rewrite (Forall2_length Hall). }
  rewrite <- Hlen. apply disjoint_filters_length.
  pose proof (error_entries_unverified _ _ _ _ _ _ _ Hall) as Herr.
  eapply Forall_impl; [|exact Herr]. intros entry He Hhas.
  unfold has_error in Hhas. destruct (be_error entry) as [reason|] eqn:E; [|discriminate].
  eapply He; eauto.
Qed.

(** The example of the specification: one match, one error, three URLs. *)
Lemma batch_counts_witness :
  exists resp w',
    batch_verify (C := Demo.caps) "selfie"%string "[A, B, C]" "VGG-Face" "opencv"
      "cosine" FaceMatching.FACE_MATCH_THRESHOLD 0%nat = (Ok resp, w')
    /\ len (filter has_error (br_results resp)) = 1
    /\ 0 <= bs_matches (br_summary resp)
    /\ bs_matches (br_summary resp) + len (filter has_error (br_results resp))
       <= bs_total_images (br_summary resp).
Proof.
  eexists. eexists. split; [vm_compute; reflexivity|]. split; [reflexivity|].
  refine (batch_counts Demo.caps "selfie"%string "[A, B, C]"%string
            "VGG-Face"%string "opencv"%string "cosine"%string
            FaceMatching.FACE_MATCH_THRESHOLD 0%nat _ _ _).
  vm_compute. reflexivity.
Defined.

Lemma now_inv {C : Capabilities} (w w' : world) (t : float) :
  now w = (Ok t, w') -> time_time w = (t, w').
Proof. unfold now. destruct (time_time w). intros H. now injection H as -> ->. Qed.

Lemma face_regions_le (faces : list face_obj) :
  len (face_regions faces) <= len faces.
Proof.
  unfold len. induction faces as [|[h w'|[[[h w']|]|]|] faces IH];
    cbn [face_regions List.length]; lia.
Qed.

(** X6.  Every body that [/api/analyze] returns has [success] true, echoes
    the detector, which is one of the allowed ones, and has [face_count]
    equal to the number of [faces].  It is either built from one analysis of
    the loaded image, one entry per analysed face in the order of the
    analysis, a bare dict counting as one face; or it is the no-face body
    with no faces and a message. *)
Theorem analyze_answer_shape (C : Capabilities)
    (image : option UploadFile) (image_url : option string) (detector : string)
    (enforce_detection : bool) (w w' : world) (resp : analyze_response) :
  analyze_faces image image_url detector enforce_detection w = (Ok resp, w') ->
  ar_success resp = true
  /\ ar_detector resp = detector
  /\ str_in detector AVAILABLE_DETECTORS = true
  /\ ar_face_count resp = len (ar_faces resp)
  /\ ((ar_message resp = None
       /\ exists img w1 found w2,
            load_file_or_url image image_url
              "Either image file or image_url must be provided" w = (Ok img, w1)
            /\ DeepFace_analyze img detector enforce_detection w1 = (Ok found, w2)
            /\ ar_faces resp
               = match found with
                 | AnalysisList l => map face_to_json l
                 | AnalysisDict d => [face_to_json d]
                 end)
      \/ (ar_message resp = Some "No faces detected in the image"%string
          /\ ar_faces resp = [])).
Proof.
  unfold analyze_faces.
  destruct (negb DEEPFACE_AVAILABLE); [discriminate|].
  destruct (str_in detector AVAILABLE_DETECTORS) eqn:Hdet; cbn [negb]; [|discriminate].
  unfold try_except.
  match goal with
  | |- match ?body w with _ => _ end = _ -> _ => destruct (body w) as [[r|e] w2] eqn:E
  end.
  - intros H. injection H as -> ->.
    apply bind_inv in E as (img & v1 & Hload & E).
    apply bind_inv in E as (found & v2 & Han & E).
    apply bind_inv in E as (t & v3 & _ & E).
    unfold ret in E. injection E as <- _. cbn.
    repeat split; auto. left. split; [reflexivity|]. eauto 8.
  - destruct (contains NO_FACE (str e)); [|discriminate].
    intros H. apply bind_inv in H as (t & v3 & _ & H).
    unfold ret in H. injection H as <- _. cbn. repeat split; auto.
Qed.

(** A picture with one face. *)
Lemma analyze_answer_shape_witness :
  exists resp w',
    analyze_faces (C := Demo.caps) (Some "portrait"%string) None "mtcnn" true 0%nat
    = (Ok resp, w')
    /\ ar_face_count resp = 1
    /\ ar_face_count resp = len (ar_faces resp)
    /\ ar_detector resp = "mtcnn"%string.
Proof.
  eexists. eexists. split; [vm_compute; reflexivity|]. split; [reflexivity|].
  refine (let P := analyze_answer_shape Demo.caps (Some "portrait"%string) None
                     "mtcnn"%string true 0%nat _ _ _ in
          conj (proj1 (proj2 (proj2 (proj2 P)))) (proj1 (proj2 P))).
  vm_compute. reflexivity.
Defined.

(** X7.  Every body that [/api/detect] returns has [success] true, echoes
    the detector as given (it is not checked) and has [face_count] equal to
    the number of [faces].  It is either the no-face body, or built from one
    detection on the loaded image, and then it lists a width and a height
    for each detected object that is an array or a dict holding an array,
    and drops the others: [face_count] can be lower than the number of
    detected objects, never higher. *)
Theorem detect_answer_shape (C : Capabilities)
    (image : option UploadFile) (image_url : option string) (detector : string)
    (w w' : world) (resp : detect_response) :
  detect_faces image image_url detector w = (Ok resp, w') ->
  dr_success resp = true
  /\ dr_detector resp = detector
  /\ dr_face_count resp = len (dr_faces resp)
  /\ ((dr_message resp = None
       /\ exists img w1 found,
            load_file_or_url image image_url
              "Either image file or image_url must be provided" w = (Ok img, w1)
            /\ detection_extract_faces img detector w1 = (Ok found, w')
            /\ dr_faces resp = face_regions found
            /\ dr_face_count resp <= len found)
      \/ (dr_message resp = Some "No faces detected"%string
          /\ dr_faces resp = [])).
Proof.
  unfold detect_faces.
  destruct (negb DEEPFACE_AVAILABLE); [discriminate|].
  unfold try_except.
  match goal with
  | |- match ?body w with _ => _ end = _ -> _ => destruct (body w) as [[r|e] w2] eqn:E
  end.
  - intros H. injection H as -> ->.
    apply bind_inv in E as (img & v1 & Hload & E).
    apply bind_inv in E as (found & v2 & Hex & E).
    unfold ret in E. injection E as <- <-. cbn.
    repeat split; auto. left. split; [reflexivity|].
    exists img, v1, found. repeat split; auto. apply face_regions_le.
  - destruct (contains NO_FACE (str e)); [|discriminate].
    unfold ret. intros H. injection H as <- _. cbn. repeat split; auto.
Qed.

(** A picture with one face, and a detector name that is on no list. *)
Lemma detect_answer_shape_witness :
  exists resp w',
    detect_faces (C := Demo.caps) (Some "portrait"%string) None "opencv" 0%nat
    = (Ok resp, w')
    /\ dr_faces resp = [(224, 224)]
    /\ dr_face_count resp = len (dr_faces resp).
Proof.
  eexists. eexists. split; [vm_compute; reflexivity|]. split; [reflexivity|].
  refine (proj1 (proj2 (proj2 (detect_answer_shape Demo.caps (Some "portrait"%string)
                                 None "opencv"%string 0%nat _ _ _)))).
  vm_compute. reflexivity.
Defined.

(** X8.  Every body that [/api/verify] returns echoes model, detector and
    metric.  It is either built from one comparison of the two loaded
    images, and then [verified] is the capability's own verdict (no
    threshold of the request is applied), [threshold] is the capability's or
    0.4, and a processing time and the facial areas are present; or it is
    the no-face body, which carries a message and has no [threshold], no
    [processing_time] and no [analysis]. *)
Theorem verify_answer_shape (C : Capabilities)
    (img1 img2 : option UploadFile) (img1_url img2_url : option string)
    (model detector metrics : string) (enforce_detection : bool)
    (w w' : world) (resp : verify_response) :
  verify_faces img1 img2 img1_url img2_url model detector metrics
    enforce_detection w = (Ok resp, w') ->
  vr_success resp = true
  /\ vr_model resp = model /\ vr_detector resp = detector
  /\ vr_metrics resp = metrics
  /\ ((vr_message resp = None
       /\ exists a1 a2 w1 w2 w3 found,
            load_file_or_url img1 img1_url "First image must be provided" w
            = (Ok a1, w1)
            /\ load_file_or_url img2 img2_url "Second image must be provided" w1
               = (Ok a2, w2)
            /\ DeepFace_verify a1 a2 model detector metrics enforce_detection
                 (snd (time_time w2)) = (Ok found, w3)
            /\ vr_verified resp = get (vd_verified found) false
            /\ vr_distance resp = get (vd_distance found) 1%float
            /\ vr_threshold resp = Some (get (vd_threshold found) f0_4)
            /\ vr_processing_time resp
               = Some (PrimFloat.sub (fst (time_time w3)) (fst (time_time w2)))
            /\ vr_analysis resp <> None)
      \/ (vr_message resp
          = Some "Face could not be detected in one or both images"%string
          /\ vr_verified resp = false
          /\ vr_threshold resp = None
          /\ vr_processing_time resp = None
          /\ vr_analysis resp = None)).
Proof.
  unfold verify_faces.
  destruct (negb DEEPFACE_AVAILABLE); [discriminate|].
  destruct (negb (str_in model AVAILABLE_MODELS)); [discriminate|].
  destruct (negb (str_in detector AVAILABLE_DETECTORS)); [discriminate|].
  destruct (negb (str_in metrics AVAILABLE_METRICS)); [discriminate|].
  unfold try_except.
  match goal with
  | |- match ?body w with _ => _ end = _ -> _ => destruct (body w) as [[r|e] v] eqn:E
  end.
  - intros H. injection H as -> ->.
    apply bind_inv in E as (a1 & w1 & L1 & E).
    apply bind_inv in E as (a2 & w2 & L2 & E).
    apply bind_inv in E as (t0 & v3 & T0 & E).
    apply bind_inv in E as (found & w3 & V & E).
    apply bind_inv in E as (t1 & v5 & T1 & E).
    unfold ret in E. injection E as <- _. cbn.
    repeat split; auto. left. split; [reflexivity|].
    apply now_inv in T0, T1.
    exists a1, a2, w1, w2, w3, found. rewrite T0, T1. cbn [fst snd].
    repeat split; auto. discriminate.
  - destruct (contains NO_FACE (str e)); [|discriminate].
    unfold ret. intros H. injection H as <- _. cbn. repeat split; auto.
    right. repeat split; reflexivity.
Qed.

(** Two uploads at distance 0.7: the body reports the capability's verdict. *)
Lemma verify_answer_shape_witness :
  exists resp w',
    verify_faces (C := Demo.caps) (Some "me"%string) None None (Some "urlC"%string)
      "ArcFace" "opencv" "cosine" false 0%nat = (Ok resp, w')
    /\ vr_verified resp = false
    /\ vr_model resp = "ArcFace"%string.
Proof.
  eexists. eexists. split; [vm_compute; reflexivity|]. split; [reflexivity|].
  refine (proj1 (proj2 (verify_answer_shape Demo.caps (Some "me"%string) None None
                          (Some "urlC"%string) "ArcFace"%string "opencv"%string
                          "cosine"%string false 0%nat _ _ _))).
  vm_compute. reflexivity.
Defined.

(** X9.  The validation that [/api/verify] and [/api/analyze] do perform.
    With DeepFace available, [/api/verify] with a model, detector or metric
    outside its list answers with status 400 before anything is loaded (the
    world is untouched); the model is checked first, then the detector, then
    the metric, and the detail names every allowed value of the parameter
    that failed.  [/api/analyze] does the same for its detector. *)
Theorem unknown_values_rejected (C : Capabilities) :
  (forall (img1 img2 : option UploadFile) (img1_url img2_url : option string)
          (model detector metrics : string) (enforce_detection : bool) (w : world),
      DEEPFACE_AVAILABLE = true ->
      str_in model AVAILABLE_MODELS && str_in detector AVAILABLE_DETECTORS
        && str_in metrics AVAILABLE_METRICS = false ->
      exists detail,
        verify_faces img1 img2 img1_url img2_url model detector metrics
          enforce_detection w = (Raise (HTTPException 400 detail), w)
        /\ Forall (fun allowed => contains allowed detail = true)
             (if negb (str_in model AVAILABLE_MODELS) then AVAILABLE_MODELS
              else if negb (str_in detector AVAILABLE_DETECTORS)
                   then AVAILABLE_DETECTORS
                   else AVAILABLE_METRICS))
  /\
  (forall (image : option UploadFile) (image_url : option string)
          (detector : string) (enforce_detection : bool) (w : world),
      DEEPFACE_AVAILABLE = true ->
      str_in detector AVAILABLE_DETECTORS = false ->
      exists detail,
        analyze_faces image image_url detector enforce_detection w
        = (Raise (HTTPException 400 detail), w)
        /\ Forall (fun allowed => contains allowed detail = true)
             AVAILABLE_DETECTORS).
Proof.
  split.
  - intros img1 img2 img1_url img2_url model detector metrics enforce w Hav Hbad.
    unfold verify_faces. rewrite Hav. cbn [negb].
    destruct (str_in model AVAILABLE_MODELS); cbn [negb andb] in *.
    + destruct (str_in detector AVAILABLE_DETECTORS); cbn [negb andb] in *.
      * rewrite Hbad. cbn [negb]. eexists. split; [reflexivity|].
        repeat constructor.
      * eexists. split; [reflexivity|]. repeat constructor.
    + eexists. split; [reflexivity|]. repeat constructor.
  - intros image image_url detector enforce w Hav Hbad.
    unfold analyze_faces. rewrite Hav, Hbad. cbn [negb].
    eexists. split; [reflexivity|]. repeat constructor.
Qed.

(** A metric in capitals is not on the list. *)
Lemma unknown_values_rejected_witness :
  exists detail,
    verify_faces (C := Demo.caps) (Some "me"%string) (Some "you"%string) None None
      "VGG-Face" "opencv" "Cosine" false 0%nat
    = (Raise (HTTPException 400 detail), 0%nat)
    /\ Forall (fun allowed => contains allowed detail = true) AVAILABLE_METRICS.
Proof.
  apply (proj1 (unknown_values_rejected Demo.caps) (Some "me"%string)
           (Some "you"%string) None None "VGG-Face"%string "opencv"%string
           "Cosine"%string false 0%nat);
    reflexivity.
Defined.

(** X10.  When DeepFace could not be imported, the four handlers that need
    it answer with status 503 and touch nothing: no parameter is checked and
    no image is read.  [/health] still answers, with status ["error"] and
    empty lists of models, detectors and metrics. *)
Theorem unavailable_is_503 (C : Capabilities) :
  DEEPFACE_AVAILABLE = false ->
  (forall image image_url detector enforce_detection w,
      analyze_faces image image_url detector enforce_detection w
      = (Raise (HTTPException 503 "DeepFace not available"), w))
  /\ (forall img1 img2 img1_url img2_url model detector metrics enforce_detection w,
         verify_faces img1 img2 img1_url img2_url model detector metrics
           enforce_detection w
         = (Raise (HTTPException 503 "DeepFace not available"), w))
  /\ (forall target_image image_urls model detector metrics threshold w,
         batch_verify target_image image_urls model detector metrics threshold w
         = (Raise (HTTPException 503 "DeepFace not available"), w))
  /\ (forall image image_url detector w,
         detect_faces image image_url detector w
         = (Raise (HTTPException 503 "DeepFace not available"), w))
  /\ (forall w,
         exists resp w',
           DeepfaceInfo.health_check w = (Ok resp, w')
           /\ DeepfaceInfo.hr_status resp = "error"%string
           /\ DeepfaceInfo.hr_models resp = []
           /\ DeepfaceInfo.hr_detectors resp = []
           /\ DeepfaceInfo.hr_metrics resp = []).
Proof.
  intros Hav. unfold analyze_faces, verify_faces, batch_verify, detect_faces,
    DeepfaceInfo.health_check.
  rewrite Hav. cbn [negb]. repeat split.
  intros w. unfold bind, now, ret. destruct (time_time w) as [t w1].
  eexists. eexists. split; [reflexivity|]. cbn. auto.
Qed.

(** The offline world: a batch request is refused at once. *)
Lemma unavailable_is_503_witness :
  batch_verify (C := Demo2.offline) "selfie"%string "[A, B, C]" "VGG-Face" "opencv"
    "cosine" FaceMatching.FACE_MATCH_THRESHOLD 0%nat
  = (Raise (HTTPException 503 "DeepFace not available"), 0%nat).
Proof.
  apply (proj1 (proj2 (proj2 (unavailable_is_503 Demo2.offline eq_refl)))).
Defined.

(** * Further properties of face_matching.py *)

Module MatchingMore.
Import FaceMatching FaceMatchingService FloatFacts SortFacts MatchingFacts.

Section Service.
Context {C : Capabilities}.

(** What the loop guarantees of an entry it appends for an event image. *)
Local Abbreviation built_from :=
  (fun (ev : event_image) (m : match_entry) =>
     PrimFloat.leb FACE_MATCH_THRESHOLD (me_similarity m) = true
     /\ me_similarity m = PrimFloat.sub 1%float (me_face_distance m)
     /\ me_confidence m = PrimFloat.mul (me_similarity m) 100%float
     /\ match_of_image ev m).

Lemma lookup_inv {A : Type} (field : option A) (key : string) (w w' : world) (v : A) :
  lookup field key w = (Ok v, w') -> field = Some v /\ w' = w.
Proof.
  unfold lookup, ret, raise. destruct field; [|discriminate].
  intros H. injection H as -> ->. auto.
Qed.

Lemma first_match_built (enc : encoding) (ev : event_image) (encs : list encoding)
    (w w' : world) (m : match_entry) :
  first_match enc ev encs w = (Ok (Some m), w') -> built_from ev m.
Proof.
  revert w. induction encs as [|e encs IH]; intros w; cbn [first_match].
  - unfold ret. discriminate.
  - intros H. apply bind_inv in H as (ds & w1 & _ & H).
    apply bind_inv in H as (d & w2 & _ & H).
    destruct (PrimFloat.leb FACE_MATCH_THRESHOLD (PrimFloat.sub 1%float d)) eqn:E.
    + apply bind_inv in H as (fid & w3 & Hid & H).
      apply bind_inv in H as (furl & w4 & Hurl & H).
      apply bind_inv in H as (fname & w5 & Hname & H).
      apply lookup_inv in Hid as [Hid _], Hurl as [Hurl _], Hname as [Hname _].
      unfold ret in H. injection H as <- _. cbn. unfold match_of_image. cbn. auto 6.
    + eapply IH; eauto.
Qed.

Lemma match_event_image_built (enc : encoding) (ev : event_image)
    (w w' : world) (m : match_entry) :
  match_event_image enc ev w = (Ok (Some m), w') -> built_from ev m.
Proof.
  unfold match_event_image. intros H.
  apply bind_inv in H as (url & w1 & _ & H).
  apply bind_inv in H as (bytes & w2 & _ & H).
  destruct bytes as [[|b bs]|]; try (unfold ret in H; discriminate).
  apply bind_inv in H as (i1 & w3 & _ & H).
  apply bind_inv in H as (i2 & w4 & _ & H).
  apply bind_inv in H as (locs & w5 & _ & H).
  apply bind_inv in H as (encs & w6 & _ & H).
  eapply first_match_built; eauto.
Qed.

(** The matches collected over the event images: at most one per image, each
    built from one of the images. *)
Lemma collect_matches_inv (enc : encoding) (evs : list event_image)
    (acc : list match_entry) (w w' : world) (l : list match_entry) :
  collect_matches enc evs acc w = (Ok l, w') ->
  exists rs,
    l = acc ++ rs
    /\ (List.length rs <= List.length evs)%nat
    /\ Forall (fun m => exists ev, In ev evs /\ built_from ev m) rs.
Proof.
  revert acc w. induction evs as [|ev evs IH]; intros acc w; cbn [collect_matches].
  - unfold ret. intros H. injection H as <- _. exists []. rewrite app_nil_r.
    repeat split; auto.
  - intros H. apply bind_inv in H as (found & w1 & Hfound & H).
    apply IH in H as (rs & -> & Hlen & Hall).
    assert (Hweak : Forall (fun m => exists ev0, In ev0 (ev :: evs) /\ built_from ev0 m) rs).
    { eapply Forall_impl; [|exact Hall]. intros m (ev0 & Hin & Hb).
      exists ev0. split; [now right|exact Hb]. }
    destruct found as [entry|].
    + exists (entry :: rs). rewrite <- app_assoc. split; [reflexivity|].
      split; [cbn [List.length]; lia|]. constructor; [|exact Hweak].
      exists ev. split; [now left|].
      unfold try_except in Hfound.
      destruct (match_event_image enc ev w) as [[r|e] w2] eqn:E.
      * injection Hfound as -> ->. eapply match_event_image_built; eauto.
      * unfold bind, say, ret in Hfound. discriminate.
    + exists rs. split; [reflexivity|]. split; [cbn [List.length]; lia|exact Hweak].
Qed.

Lemma find_matching_faces_inv (selfie_bytes : list Byte.byte)
    (event_images : list event_image) (w w' : world) (l : list match_entry) :
  find_matching_faces selfie_bytes event_images w = (Ok l, w') ->
  l = []
  \/ exists enc w1 collected,
       FaceMatchingService.extract_face_encoding selfie_bytes w = (Ok (Some enc), w1)
       /\ collect_matches enc event_images [] w1 = (Ok collected, w')
       /\ l = list_sort me_similarity true collected.
Proof.
  unfold find_matching_faces, try_except.
  match goal with
  | |- match ?body w with _ => _ end = _ -> _ => destruct (body w) as [[r|e] v] eqn:E
  end.
  - intros H. injection H as -> ->.
    apply bind_inv in E as ([enc|] & w1 & Hex & E).
    + apply bind_inv in E as (collected & w2 & Hcol & E).
      unfold ret in E. injection E as <- <-. right. eauto 6.
    + unfold ret in E. injection E as <- _. now left.
  - unfold bind, say, ret. intros H. injection H as <- _. now left.
Qed.

End Service.
End MatchingMore.

(** X11.  Every match that [find_matching_faces] returns passed the test
    [similarity >= 0.6], has [similarity = 1 - face_distance] and
    [confidence = similarity * 100], and takes its id, URL and name from one
    of the given event images; an event image contributes at most one match,
    so there are never more matches than event images. *)
Theorem matches_come_from_event_images (C : Capabilities)
    (selfie_bytes : list Byte.byte) (event_images : list FaceMatching.event_image)
    (w w' : world) (l : list FaceMatching.match_entry) :
  FaceMatching.FaceMatchingService.find_matching_faces selfie_bytes event_images w
  = (Ok l, w') ->
  (List.length l <= List.length event_images)%nat
  /\ Forall (fun m =>
               PrimFloat.leb FaceMatching.FACE_MATCH_THRESHOLD
                 (FaceMatching.me_similarity m) = true
               /\ FaceMatching.me_similarity m
                  = PrimFloat.sub 1%float (FaceMatching.me_face_distance m)
               /\ FaceMatching.me_confidence m
                  = PrimFloat.mul (FaceMatching.me_similarity m) 100%float
               /\ exists ev, In ev event_images /\ match_of_image ev m) l.
Proof.
  intros H. apply MatchingMore.find_matching_faces_inv in H
    as [->|(enc & w1 & collected & _ & Hcol & ->)].
  - split; [cbn; lia|constructor].
  - apply MatchingMore.collect_matches_inv in Hcol as (rs & Hrs & Hlen & Hall).
    cbn [app] in Hrs. subst rs.
    assert (Hord : ordered_keys FaceMatching.me_similarity collected).
    { eapply Forall_impl; [|exact Hall]. intros m (ev & _ & Hp & _).
      now apply FloatFacts.leb_ordered in Hp. }
    destruct (SortFacts.list_sort_reverse_spec FaceMatching.me_similarity
                collected Hord) as (_ & Hperm & _).
    split.
    + rewrite <- (Permutation_length Hperm). exact Hlen.
    + eapply Permutation_Forall; [exact Hperm|].
      eapply Forall_impl; [|exact Hall]. intros m (ev & Hin & Hp & Hs & Hc & Hm).
      eauto 8.
Qed.

(** The small album against a selfie: three matches out of five images. *)
Lemma matches_come_from_event_images_witness :
  exists l w',
    FaceMatching.FaceMatchingService.find_matching_faces (C := Demo.caps)
      (list_byte_of_string "a") Demo.album 0%nat = (Ok l, w')
    /\ List.length l = 3%nat
    /\ (List.length l <= List.length Demo.album)%nat.
Proof.
  eexists. eexists. split; [vm_compute; reflexivity|]. split; [reflexivity|].
  refine (proj1 (matches_come_from_event_images Demo.caps (list_byte_of_string "a")
                   Demo.album 0%nat _ _ _)).
  vm_compute. reflexivity.
Defined.

(** X12.  [/api/face-match/process-selfie] compares the selfie with an
    empty list of event images: whenever the upload can be read, it answers
    with [success] true, no matches and [total_matches] 0, whatever the
    event id, the minimum confidence and the selfie are; when the upload
    cannot be read it answers with status 500 and the error as detail. *)
Theorem process_selfie_finds_nothing (C : Capabilities)
    (event_id : string) (selfie : UploadFile) (min_confidence : float)
    (w w1 : world) :
  (forall selfie_bytes,
      upload_read selfie w = (Ok selfie_bytes, w1) ->
      exists w',
        FaceMatching.process_selfie event_id selfie min_confidence w
        = (Ok {| FaceMatching.sr_success := true;
                 FaceMatching.sr_matches := [];
                 FaceMatching.sr_total_matches := 0;
                 FaceMatching.sr_selfie_processed := true |}, w'))
  /\ (forall e,
         upload_read selfie w = (Raise e, w1) ->
         FaceMatching.process_selfie event_id selfie min_confidence w
         = (Raise (HTTPException 500 (str e)), w1)).
Proof.
  split.
  - intros selfie_bytes Hread.
    destruct (MatchingFacts.extract_face_encoding_total selfie_bytes w1)
      as (found & w2 & Hex).
    assert (Hnone : FaceMatching.FaceMatchingService.find_matching_faces
                      selfie_bytes [] w1 = (Ok [], w2)).
    { unfold FaceMatching.FaceMatchingService.find_matching_faces. apply try_ok.
      rewrite (bind_ok _ _ _ _ _ Hex). now destruct found. }
    exists w2. unfold FaceMatching.process_selfie. apply try_ok.
    rewrite (bind_ok _ _ _ _ _ Hread). now rewrite (bind_ok _ _ _ _ _ Hnone).
  - intros e Hread. unfold FaceMatching.process_selfie.
    erewrite try_raise.
    2:{ apply (bind_raise _ _ _ _ _ Hread). }
    reflexivity.
Qed.

(** A selfie with a face, and a stream that cannot be read. *)
Lemma process_selfie_finds_nothing_witness :
  (exists w',
      FaceMatching.process_selfie (C := Demo2.caps) "wedding" "a"%string
        FaceMatching.FACE_MATCH_THRESHOLD 0%nat
      = (Ok {| FaceMatching.sr_success := true;
               FaceMatching.sr_matches := [];
               FaceMatching.sr_total_matches := 0;
               FaceMatching.sr_selfie_processed := true |}, w'))
  /\ FaceMatching.process_selfie (C := Demo2.caps) "wedding" "broken"%string
       FaceMatching.FACE_MATCH_THRESHOLD 0%nat
     = (Raise (HTTPException 500 "stream closed"), 1%nat).
Proof.
  split.
  - apply (proj1 (process_selfie_finds_nothing Demo2.caps "wedding"%string
                    "a"%string FaceMatching.FACE_MATCH_THRESHOLD 0%nat 1%nat)
             (list_byte_of_string "a")).
    reflexivity.
  - apply (proj2 (process_selfie_finds_nothing Demo2.caps "wedding"%string
                    "broken"%string FaceMatching.FACE_MATCH_THRESHOLD 0%nat 1%nat)
             (Exception "stream closed")).
    reflexivity.
Defined.

(** X13.  [download_image] never raises, and it returns bytes exactly when
    the request was answered with status 200: any other status, and any
    exception of the request, gives [None]. *)
Theorem download_only_status_200 (C : Capabilities) (url : string) (w : world) :
  (exists found w',
      FaceMatching.FaceMatchingService.download_image url w = (Ok found, w'))
  /\ (forall body w',
         FaceMatching.FaceMatchingService.download_image url w = (Ok (Some body), w')
         <-> aiohttp_get url w = (Ok (200, body), w')).
Proof.
  unfold FaceMatching.FaceMatchingService.download_image, try_except, bind, say, ret.
  destruct (aiohttp_get url w) as [[[status body0]|e] w1] eqn:E; cbn [fst snd].
  - destruct (Z.eqb_spec status 200) as [->|Hne].
    + split; [eauto|]. intros body w'. split; intros H; injection H as <- <-; reflexivity.
    + split; [eauto|]. intros body w'. split; intros H; [discriminate|].
      injection H as H1 _ _. contradiction.
  - split; [eauto|]. intros body w'. split; discriminate.
Qed.

(** An image that is served, and one that is gone. *)
Lemma download_only_status_200_witness :
  FaceMatching.FaceMatchingService.download_image (C := Demo.caps) "c" 0%nat
  = (Ok (Some (list_byte_of_string "c")), 1%nat)
  /\ FaceMatching.FaceMatchingService.download_image (C := Demo.caps) "gone" 0%nat
     = (Ok None, 1%nat).
Proof.
  split.
  - apply (proj2 (proj2 (download_only_status_200 Demo.caps "c"%string 0%nat)
                    (list_byte_of_string "c") 1%nat)).
    reflexivity.
  - reflexivity.
Defined.

(** X14.  [FaceMatchingService.extract_face_encoding] never raises: every
    failure is printed and gives [None].  When it returns an encoding, the
    image was loaded, at least one face was located, and the encoding is the
    first of the encodings computed for the located faces; the others are
    not used. *)
Theorem encoding_is_first_face (C : Capabilities)
    (image_bytes : list Byte.byte) (w : world) :
  (exists found w',
      FaceMatching.FaceMatchingService.extract_face_encoding image_bytes w
      = (Ok found, w'))
  /\ (forall enc w',
         FaceMatching.FaceMatchingService.extract_face_encoding image_bytes w
         = (Ok (Some enc), w') ->
         exists image w1 location locations w2 others,
           load_image_file image_bytes w = (Ok image, w1)
           /\ face_locations image w1 = (Ok (location :: locations), w2)
           /\ face_encodings image (location :: locations) w2
              = (Ok (enc :: others), w')).
Proof.
  split; [apply MatchingFacts.extract_face_encoding_total|].
  intros enc w'. unfold FaceMatching.FaceMatchingService.extract_face_encoding, try_except.
  match goal with
  | |- match ?body w with _ => _ end = _ -> _ => destruct (body w) as [[r|e] v] eqn:E
  end.
  - intros H. injection H as -> ->.
    apply bind_inv in E as (image & w1 & Hload & E).
    apply bind_inv in E as ([|location locations] & w2 & Hloc & E);
      [unfold ret in E; discriminate|].
    apply bind_inv in E as ([|first others] & w3 & Henc & E);
      unfold ret in E; [discriminate|].
    injection E as -> ->. eauto 10.
  - unfold bind, say, ret. discriminate.
Qed.

(** An image with two faces: the encoding of the first is returned. *)
Lemma encoding_is_first_face_witness :
  exists image w1 location locations w2 others,
    load_image_file (Capabilities := Demo.caps) (list_byte_of_string "cb") 0%nat
    = (Ok image, w1)
    /\ face_locations (Capabilities := Demo.caps) image w1
       = (Ok (location :: locations), w2)
    /\ face_encodings (Capabilities := Demo.caps) image (location :: locations) w2
       = (Ok (Demo.encode Byte.x63 :: others), 3%nat).
Proof.
  apply (proj2 (encoding_is_first_face Demo.caps (list_byte_of_string "cb") 0%nat)).
  reflexivity.
Defined.

(** X15.  The three handlers of the face-matching service answer with
    status 200 or 500 and nothing else: whatever fails in them, a missing
    face included, reaches the client as 500. *)
Theorem face_match_answers_200_or_500 (C : Capabilities) :
  (forall event_id selfie min_confidence w,
      In (http_status (fst (FaceMatching.process_selfie event_id selfie
                              min_confidence w))) [200; 500])
  /\ (forall image w,
         In (http_status (fst (FaceMatching.extract_face_encoding image w)))
            [200; 500])
  /\ (forall encoding1 encoding2 w,
         In (http_status (fst (FaceMatching.compare_faces encoding1 encoding2 w)))
            [200; 500]).
Proof.
  split; [|split]; intros;
    unfold FaceMatching.process_selfie, FaceMatching.extract_face_encoding,
      FaceMatching.compare_faces, try_except;
    match goal with
    | |- context [match ?body ?w with _ => _ end] => destruct (body w) as [[r|e] v]
    end; cbn; auto.
Qed.

Module KnownFacesFacts.
Import KnownFaces.

Section Disk.
Context {C : Capabilities} {D : Disk C}.

Local Abbreviation npy := (fun filename : string => endswith filename ".npy").

(** The loop loads the files whose name ends in [.npy], in the order of the
    listing, and nothing else. *)
Lemma load_files_spec (event_dir : string) (filenames : list string)
    (acc : list encoding) (w w' : world) (r : list encoding) :
  load_files event_dir filenames acc w = (Ok r, w') ->
  exists encs,
    r = acc ++ encs
    /\ Forall2 (fun filename enc =>
                  exists w0 w1,
                    np_load (os_path_join event_dir filename) w0 = (Ok enc, w1))
         (filter npy filenames) encs.
Proof.
  revert acc w. induction filenames as [|f fs IH]; intros acc w; cbn [load_files filter].
  - unfold ret. intros H. injection H as <- _. exists []. rewrite app_nil_r.
    split; [reflexivity|constructor].
  - destruct (endswith f ".npy").
    + intros H. apply bind_inv in H as (enc & w1 & Hload & H).
      apply IH in H as (encs & -> & Hall).
      exists (enc :: encs). rewrite <- app_assoc. split; [reflexivity|].
      constructor; eauto.
    + apply IH.
Qed.

(** The first file that cannot be loaded ends the loop with its exception. *)
Lemma load_files_skips (event_dir : string) (filenames : list string)
    (acc : list encoding) (w : world) :
  load_files event_dir filenames acc w
  = load_files event_dir (filter npy filenames) acc w.
Proof.
  revert acc w. induction filenames as [|f fs IH]; intros acc w; [reflexivity|].
  cbn [load_files filter]. destruct (endswith f ".npy") eqn:E.
  - cbn [load_files]. rewrite E. unfold bind.
    destruct (np_load (os_path_join event_dir f) w) as [[enc|e] w1]; [apply IH|reflexivity].
  - apply IH.
Qed.

(** A run of the loop that returns has loaded exactly the [.npy] files, one
    after the other, and ends in the world the last of these loads left. *)
Lemma load_files_run (event_dir : string) (filenames : list string)
    (acc : list encoding) (w w' : world) (r : list encoding) :
  load_files event_dir filenames acc w = (Ok r, w') ->
  exists encs,
    r = acc ++ encs
    /\ loaded_in_order event_dir (filter npy filenames) w encs w'.
Proof.
  revert acc w. induction filenames as [|f fs IH]; intros acc w; cbn [load_files filter].
  - unfold ret. intros H. injection H as <- <-. exists []. rewrite app_nil_r.
    split; reflexivity.
  - destruct (endswith f ".npy").
    + intros H. apply bind_inv in H as (enc & w1 & Hload & H).
      apply IH in H as (encs & -> & Hrun).
      exists (enc :: encs). rewrite <- app_assoc. split; [reflexivity|].
      cbn [loaded_in_order]. eauto.
    + apply IH.
Qed.

(** A run of the loop that raises stopped at the first [.npy] file that
    could not be loaded, in the world that load left. *)
Lemma load_files_fail (event_dir : string) (filenames : list string)
    (acc : list encoding) (w w' : world) (e : exn) :
  load_files event_dir filenames acc w = (Raise e, w') ->
  exists before filename after encs w0,
    filter npy filenames = before ++ filename :: after
    /\ loaded_in_order event_dir before w encs w0
    /\ np_load (os_path_join event_dir filename) w0 = (Raise e, w').
Proof.
  revert acc w. induction filenames as [|f fs IH]; intros acc w; cbn [load_files filter].
  - unfold ret. discriminate.
  - destruct (endswith f ".npy").
    + unfold bind at 1.
      destruct (np_load (os_path_join event_dir f) w) as [[enc|e0] w1] eqn:E.
      * intros H. apply IH in H as (before & name & after & encs & w0 & Hf & Hrun & Hfail).
        exists (f :: before), name, after, (enc :: encs), w0.
        rewrite Hf. split; [reflexivity|]. split; [|exact Hfail].
        cbn [loaded_in_order]. eauto.
      * intros H. injection H as <- <-.
        exists [], f, (filter npy fs), [], w. repeat split; auto.
    + apply IH.
Qed.

End Disk.
End KnownFacesFacts.

(** X16.  [load_known_faces] answers the empty list for an event without a
    directory, without listing or loading anything, and raises an error of
    the listing to the caller.  For an event with a directory, a call that
    returns has loaded the listed files whose name ends in [.npy] (in lower
    case), one after the other in the order of the listing, returns their
    encodings in that order, and ends in the world the last of these loads
    left: nothing else was opened.  A call that raises stopped at the first
    such file that could not be loaded, with the exception of that load and
    in the world it left: the files after it were not opened. *)
Theorem known_faces_are_the_npy_files (C : Capabilities) (D : KnownFaces.Disk C)
    (event_id : string) (w w1 : world) :
  (KnownFaces.os_path_exists
     (KnownFaces.os_path_join KnownFaces.KNOWN_FACES_DIR event_id) w = (false, w1) ->
   KnownFaces.load_known_faces event_id w = (Ok [], w1))
  /\ (forall e w2,
         KnownFaces.os_path_exists
           (KnownFaces.os_path_join KnownFaces.KNOWN_FACES_DIR event_id) w
         = (true, w1) ->
         KnownFaces.os_listdir
           (KnownFaces.os_path_join KnownFaces.KNOWN_FACES_DIR event_id) w1
         = (Raise e, w2) ->
         KnownFaces.load_known_faces event_id w = (Raise e, w2))
  /\ (forall filenames w2 encodings w',
         KnownFaces.os_path_exists
           (KnownFaces.os_path_join KnownFaces.KNOWN_FACES_DIR event_id) w
         = (true, w1) ->
         KnownFaces.os_listdir
           (KnownFaces.os_path_join KnownFaces.KNOWN_FACES_DIR event_id) w1
         = (Ok filenames, w2) ->
         KnownFaces.load_known_faces event_id w = (Ok encodings, w') ->
         KnownFaces.loaded_in_order
           (KnownFaces.os_path_join KnownFaces.KNOWN_FACES_DIR event_id)
           (filter (fun filename => KnownFaces.endswith filename ".npy") filenames)
           w2 encodings w')
  /\ (forall filenames w2 e w',
         KnownFaces.os_path_exists
           (KnownFaces.os_path_join KnownFaces.KNOWN_FACES_DIR event_id) w
         = (true, w1) ->
         KnownFaces.os_listdir
           (KnownFaces.os_path_join KnownFaces.KNOWN_FACES_DIR event_id) w1
         = (Ok filenames, w2) ->
         KnownFaces.load_known_faces event_id w = (Raise e, w') ->
         exists before filename after encodings w0,
           filter (fun filename => KnownFaces.endswith filename ".npy") filenames
           = before ++ filename :: after
           /\ KnownFaces.loaded_in_order
                (KnownFaces.os_path_join KnownFaces.KNOWN_FACES_DIR event_id)
                before w2 encodings w0
           /\ KnownFaces.np_load
                (KnownFaces.os_path_join
                   (KnownFaces.os_path_join KnownFaces.KNOWN_FACES_DIR event_id)
                   filename) w0 = (Raise e, w')).
Proof.
  unfold KnownFaces.load_known_faces. cbv zeta. split; [|split; [|split]].
  - intros ->. reflexivity.
  - intros e w2 -> Hlist. cbn [negb]. apply (bind_raise _ _ _ _ _ Hlist).
  - intros filenames w2 encodings w' -> Hlist. cbn [negb].
    rewrite (bind_ok _ _ _ _ _ Hlist). intros H.
    apply KnownFacesFacts.load_files_run in H as (encs & -> & Hrun). exact Hrun.
  - intros filenames w2 e w' -> Hlist. cbn [negb].
    rewrite (bind_ok _ _ _ _ _ Hlist). intros H.
    now apply KnownFacesFacts.load_files_fail in H.
Qed.

(** The directory of the wedding holds two encodings, a text file and a
    file in capitals: the two encodings are loaded, in worlds 2 and 3, and
    the call ends in world 4.  The birthday has no directory. *)
Lemma known_faces_are_the_npy_files_witness :
  KnownFaces.load_known_faces (D := Demo2.disk) "birthday" 0%nat = (Ok [], 1%nat)
  /\ KnownFaces.load_known_faces (D := Demo2.disk) "wedding" 0%nat
     = (Ok [1%float; 2%float], 4%nat)
  /\ KnownFaces.loaded_in_order (D := Demo2.disk)
       (KnownFaces.os_path_join KnownFaces.KNOWN_FACES_DIR "wedding")
       ["a.npy"; "b.npy"]%string 2%nat [1%float; 2%float] 4%nat.
Proof.
  split; [|split].
  - apply (proj1 (known_faces_are_the_npy_files Demo2.caps Demo2.disk
                    "birthday"%string 0%nat 1%nat)).
    reflexivity.
  - reflexivity.
  - apply (proj1 (proj2 (proj2 (known_faces_are_the_npy_files Demo2.caps Demo2.disk
                                  "wedding"%string 0%nat 1%nat)))
             ["a.npy"; "notes.txt"; "b.npy"; "c.NPY"]%string 2%nat
             [1%float; 2%float] 4%nat);
      reflexivity.
Defined.

Module FloatMore.
Import FloatFacts.

(** A positive integer below [2^53] divided by itself is the float 1, and 0
    divided by it is the float 0. *)
Lemma truediv_self (n : Z) :
  0 < n < 2 ^ 53 -> PrimFloat.div (float_of_int n) (float_of_int n) = 1%float.
Proof.
  intros Hn. apply Prim2SF_inj. rewrite FloatAxioms.div_spec, Prim2SF_one.
  rewrite float_of_int_spec by lia.
  destruct n as [|n|n]; try lia.
  destruct (binary_normalize_small n) as (M & EQ & V & D); [lia|]. rewrite EQ.
  pose proof (digits2_pos_bounds M) as [B1 B2]. rewrite D in B1, B2.
  unfold SF64div. rewrite SFdiv_finite53 by (auto; lia).
  rewrite (Z.mul_comm (Zpos M) (2 ^ 53)), Z.div_mul, Z.mod_mul by lia.
  rewrite new_location_zero.
  replace (Zpos (digits2_pos n) - 53 - (Zpos (digits2_pos n) - 53) - 53) with (-53) by lia.
  reflexivity.
Qed.

Lemma truediv_zero (n : Z) :
  0 < n < 2 ^ 53 -> PrimFloat.div (float_of_int 0) (float_of_int n) = 0%float.
Proof.
  intros Hn. apply Prim2SF_inj. rewrite FloatAxioms.div_spec.
  rewrite !float_of_int_spec by lia.
  destruct n as [|n|n]; try lia.
  destruct (binary_normalize_small n) as (M & EQ & V & D); [lia|]. rewrite EQ.
  reflexivity.
Qed.

End FloatMore.

(** X18.  The two ends of [match_rate].  In an answered batch of at least
    one and fewer than [2^53] URLs, [match_rate] is exactly 1.0 when every
    entry is verified and exactly 0.0 when none is, for instance when every
    candidate failed. *)
Theorem match_rate_extremes (C : Capabilities)
    (target_image : UploadFile) (image_urls model detector metrics : string)
    (threshold : float) (w w' : world) (resp : batch_response) :
  batch_verify target_image image_urls model detector metrics threshold w
  = (Ok resp, w') ->
  0 < bs_total_images (br_summary resp) < 2 ^ 53 ->
  (bs_matches (br_summary resp) = bs_total_images (br_summary resp) ->
   bs_match_rate (br_summary resp) = PyFloat 1%float)
  /\ (bs_matches (br_summary resp) = 0 ->
      bs_match_rate (br_summary resp) = PyFloat 0%float)
  /\ (Forall (fun entry => has_error entry = true) (br_results resp) ->
      bs_match_rate (br_summary resp) = PyFloat 0%float).
Proof.
  intros H Htotal.
  pose proof (batch_verify_inv _ _ _ _ _ _ _ _ _ H)
    as (Hav & img & w1 & urls & Hload & Hjson).
  destruct (batch_verify_runs target_image image_urls model detector metrics
              threshold w w1 img urls Hav Hload Hjson)
    as (resp' & w2 & Hrun & _ & Hall & Htot & Hm & Hrate & _).
  rewrite Hrun in H. injection H as -> ->.
  rewrite Htot in Htotal |- *.
  destruct urls as [|u urls]; [unfold len in Htotal; simpl in Htotal; lia|].
  rewrite Hrate.
  assert (Hzero : bs_matches (br_summary resp) = 0 ->
                  PyFloat (PrimFloat.div (float_of_int (bs_matches (br_summary resp)))
                             (float_of_int (len (u :: urls)))) = PyFloat 0%float).
  { intros ->. now rewrite FloatMore.truediv_zero. }
  split; [|split].
  - intros ->. now rewrite FloatMore.truediv_self.
  - exact Hzero.
  - intros Herr. apply Hzero. rewrite Hm.
    pose proof (error_entries_unverified _ _ _ _ _ _ _ Hall) as Hun.
    assert (Hnil : filter be_verified (br_results resp) = []).
    { clear - Herr Hun. induction (br_results resp) as [|entry rs IH]; [reflexivity|].
      inversion Herr as [|? ? He Herr']; subst. inversion Hun as [|? ? Hu Hun']; subst.
      cbn [filter]. unfold has_error in He.
      destruct (be_error entry) as [reason|] eqn:E; [|discriminate].
      rewrite (Hu reason eq_refl). now apply IH. }
    now rewrite Hnil.
Qed.

(** Two URLs, both verified at threshold 0.4: the rate is 1.0. *)
Lemma match_rate_extremes_witness :
  exists resp w',
    batch_verify (C := Demo.caps) "selfie"%string "[A, same]" "VGG-Face" "opencv"
      "cosine" DeepfaceServer.f0_4 0%nat = (Ok resp, w')
    /\ bs_match_rate (br_summary resp) = PyFloat 1%float.
Proof.
  eexists. eexists. split; [vm_compute; reflexivity|].
  refine (proj1 (match_rate_extremes Demo.caps "selfie"%string "[A, same]"%string
                   "VGG-Face"%string "opencv"%string "cosine"%string
                   DeepfaceServer.f0_4 0%nat _ _ _ _) _).
  - vm_compute. reflexivity.
  - split; reflexivity.
  - reflexivity.
Defined.

(** * The run of a batch, candidate by candidate *)

(** The loop over a list with [url] in it: the entries before [url], then
    the turn of [url] in the world the loop had reached, then the entries
    after it from the world that turn left. *)
Lemma batch_loop_split {C : Capabilities} (img : ndarray)
    (model detector metrics : string) (threshold : float)
    (pre : list json) (url : json) (post : list json)
    (w w' : world) (rs : list batch_entry) :
  batch_loop img model detector metrics threshold (pre ++ url :: post) [] w
  = (Ok rs, w') ->
  exists done w0 entry w2 rest,
    batch_loop img model detector metrics threshold pre [] w = (Ok done, w0)
    /\ process_candidate img model detector metrics threshold url w0 = (Ok entry, w2)
    /\ batch_loop img model detector metrics threshold post [] w2 = (Ok rest, w')
    /\ rs = done ++ entry :: rest
    /\ List.length done = List.length pre
    /\ List.length rest = List.length post.
Proof.
  intros H. rewrite batch_loop_app in H.
  destruct (batch_loop_spec img model detector metrics threshold pre [] w)
    as (done & w0 & Hdone & Fdone).
  cbn [app] in Hdone. rewrite (bind_ok _ _ _ _ _ Hdone) in H.
  rewrite batch_loop_acc in H. cbn [batch_loop] in H.
  destruct (process_candidate_total img model detector metrics threshold url w0)
    as (entry & w2 & Hturn & _).
  rewrite (bind_ok _ _ _ _ _ Hturn) in H. rewrite batch_loop_acc in H.
  destruct (batch_loop_spec img model detector metrics threshold post [] w2)
    as (rest & w3 & Hrest & Frest).
  cbn [app] in Hrest. rewrite Hrest in H. cbn [app] in H. injection H as <- <-.
  exists done, w0, entry, w2, rest.
  repeat split; auto; symmetry; eapply Forall2_length; eauto.
Qed.

(** C3.  In a batch whose target loaded and whose URL list parsed, the
    request succeeds with one entry per URL.  Take any URL of the list and
    the world the loop has reached when the URLs before it are done.  If
    the fetch of that URL raises in that world, the entry at the place of
    the URL is the error entry ([verified] false, [distance] 1,
    [similarity] 0, [match] false, [error] the text of the loader's
    exception), and the loop goes on with the URLs after it from the world
    that one failed fetch left.  If the fetch succeeds and the comparison
    raises, the entry is the error entry with the text of that exception,
    and the loop goes on from the world the comparison left.  The entries
    of the URLs before and after are the ones of the loop on those URLs. *)
Theorem batch_failure_isolated (C : Capabilities)
    (target_image : UploadFile) (image_urls model detector metrics : string)
    (threshold : float) (w w1 : world) (img : ndarray) (urls : list json) :
  DEEPFACE_AVAILABLE = true ->
  load_image_from_file target_image w = (Ok img, w1) ->
  json_loads image_urls = Ok (Jarray urls) ->
  exists resp w',
    batch_verify target_image image_urls model detector metrics threshold w
    = (Ok resp, w')
    /\ br_success resp = true
    /\ List.length (br_results resp) = List.length urls
    /\ forall pre url post,
         urls = pre ++ url :: post ->
         exists done w0,
           batch_loop img model detector metrics threshold pre []
             (snd (time_time w1)) = (Ok done, w0)
           /\ List.length done = List.length pre
           /\ (forall e w2,
                  fetch_image_url url w0 = (Raise e, w2) ->
                  exists rest w3,
                    batch_loop img model detector metrics threshold post [] w2
                    = (Ok rest, w3)
                    /\ List.length rest = List.length post
                    /\ br_results resp
                       = done
                         ++ {| be_url := url; be_verified := false;
                               be_distance := 1%float; be_similarity := 0%float;
                               be_match := false;
                               be_error :=
                                 Some (str (HTTPException 400
                                              ("Failed to load image from URL: "
                                                 ++ str e)%string)) |}
                         :: rest)
           /\ (forall compare_array w2 e w3,
                  fetch_image_url url w0 = (Ok compare_array, w2) ->
                  DeepFace_verify img compare_array model detector metrics
                    false w2 = (Raise e, w3) ->
                  exists rest w4,
                    batch_loop img model detector metrics threshold post [] w3
                    = (Ok rest, w4)
                    /\ List.length rest = List.length post
                    /\ br_results resp
                       = done
                         ++ {| be_url := url; be_verified := false;
                               be_distance := 1%float; be_similarity := 0%float;
                               be_match := false;
                               be_error := Some (str e) |}
                         :: rest).
Proof.
  intros Hav Hload Hjson.
  destruct (time_time w1) as [t0 ws] eqn:Ht0.
  destruct (batch_loop_spec img model detector metrics threshold urls [] ws)
    as (rs & we & Hloop & Hall).
  cbn [app] in Hloop.
  destruct (time_time we) as [t1 wf] eqn:Ht1.
  destruct (batch_verify_steps target_image image_urls model detector metrics
              threshold w w1 ws we wf img urls t0 t1 rs
              Hav Hload Hjson Ht0 Hloop Ht1) as (rate & avg & Hrun).
  eexists. exists wf. split; [exact Hrun|]. cbn [br_success br_results snd].
  split; [reflexivity|]. split; [symmetry; exact (Forall2_length Hall)|].
  intros pre url post ->.
  apply batch_loop_split in Hloop
    as (done & w0 & entry & wt & rest & Hdone & Hturn & Hrest & -> & Ld & Lr).
  exists done, w0. split; [exact Hdone|]. split; [exact Ld|]. split.
  - intros e w2 Hfetch.
    assert (Hfail : process_candidate img model detector metrics threshold url w0
                    = (Ok (error_entry url
                             (HTTPException 400
                                ("Failed to load image from URL: " ++ str e)%string)),
                       w2)).
    { unfold process_candidate. erewrite try_raise; [reflexivity|].
      unfold compare_candidate, load_image_from_url. apply bind_raise.
      now rewrite (try_raise _ _ _ _ _ Hfetch). }
    rewrite Hfail in Hturn. injection Hturn as <- <-.
    exists rest, we. auto.
  - intros compare_array w2 e w3 Hfetch Hver.
    assert (Hfail : process_candidate img model detector metrics threshold url w0
                    = (Ok (error_entry url e), w3)).
    { unfold process_candidate. erewrite try_raise; [reflexivity|].
      unfold compare_candidate, load_image_from_url.
      erewrite bind_ok; [|now rewrite (try_ok _ _ _ _ _ Hfetch)].
      apply (bind_raise _ _ _ _ _ Hver). }
    rewrite Hfail in Hturn. injection Hturn as <- <-.
    exists rest, we. auto.
Qed.

(** The example of the specification: after A the loop is in world 4, where
    the fetch of B is refused; the answer has the error entry of B between
    the entry of A and the entry of C, and C is fetched in world 5. *)
Lemma batch_failure_isolated_witness :
  exists resp w',
    batch_verify (C := Demo.caps) "selfie"%string "[A, B, C]" "VGG-Face"
      "opencv" "cosine" FaceMatching.FACE_MATCH_THRESHOLD 0%nat = (Ok resp, w')
    /\ br_success resp = true
    /\ List.length (br_results resp) = 3%nat
    /\ exists done rest w3,
         batch_loop (C := Demo.caps) "selfie"%string "VGG-Face" "opencv" "cosine"
           FaceMatching.FACE_MATCH_THRESHOLD [Jstring "urlC"] [] 5%nat
         = (Ok rest, w3)
         /\ List.length done = 1%nat
         /\ List.length rest = 1%nat
         /\ br_results resp
            = done
              ++ {| be_url := Jstring "urlB"; be_verified := false;
                    be_distance := 1%float; be_similarity := 0%float;
                    be_match := false;
                    be_error :=
                      Some "400: Failed to load image from URL: connection refused"%string |}
              :: rest.
Proof.
  destruct (batch_failure_isolated Demo.caps "selfie"%string "[A, B, C]"%string
              "VGG-Face"%string "opencv"%string "cosine"%string
              FaceMatching.FACE_MATCH_THRESHOLD 0%nat 1%nat "selfie"%string
              [Jstring "urlA"; Jstring "urlB"; Jstring "urlC"]
              eq_refl eq_refl eq_refl)
    as (resp & w' & Hrun & Hsucc & Hlen & Hsplit).
  exists resp, w'. split; [exact Hrun|]. split; [exact Hsucc|]. split; [exact Hlen|].
  destruct (Hsplit [Jstring "urlA"] (Jstring "urlB") [Jstring "urlC"] eq_refl)
    as (done & w0 & Hdone & Ld & Hfetch & _).
  assert (Hw0 : w0 = 4%nat).
  { vm_compute in Hdone. now injection Hdone as _ <-. }
  subst w0.
  destruct (Hfetch (Exception "connection refused") 5%nat eq_refl)
    as (rest & w3 & Hrest & Lr & Hres).
  exists done, rest, w3. auto.
Defined.
